(** * Langoustine MCP: rule memory and retrieval engine

    A shallow embedding of the TypeScript sources

      - [src/llm/embedding-client.ts]      (OpenAIEmbeddingClient)
      - [src/llm/mock-embedding-client.ts] (MockEmbeddingClient)
      - [src/llm/client.ts]                (LLMClient, RuleGenerationResult
                                            with its [reason] field)
      - [src/llm/mock-client.ts]           (MockLLMClient)
      - [src/types.ts]                     (Rule, UserInstruction)
      - [src/database.ts]                  (the two tables)
      - [src/repos/instructions-repo.ts]   (SQLiteInstructionsRepo)
      - [src/repos/rules-repo.ts]          (SQLiteRulesRepo)
      - [src/tools/rememberDeveloperInstruction.ts]
      - [src/tools/getRelevantRules.ts]

    followed by the properties of the specification that are checked
    against it.

    Conventions of the embedding.
    - A promise that settles is a [completion]: [Resolved v] or
      [Rejected e]; a synchronous [throw] is a [Rejected] as well.
    - JavaScript strings are Rocq strings (code units below 256).
    - Integers ([maxRetries], delays, row ids, [limit]) are [Z]; similarity
      scores and thresholds are exact rationals [Q]; the rounding of IEEE
      doubles, [NaN] and the infinities are not modelled.
    - Console output ([console.warn], [console.error]) is not modelled. *)

From Stdlib Require Import ZArith QArith String Ascii List Lia.
From stdpp Require Import gmap strings list pretty sorting.
Close Scope Q_scope.
Open Scope string_scope.
Open Scope list_scope.
Open Scope Z_scope.

(** ** JavaScript values that cross the modelled interfaces *)

(** What a [throw] or a rejected promise carries, as far as
    [instanceof Error] and [extractErrorMessage] can tell values apart. *)
Inductive thrown : Type :=
| ErrorInstance (message : string)
    (* an instance of Error: new Error(message), SqliteError, TypeError *)
| PlainObject (error_message : option string) (message : option string)
    (* a non-null object that is no Error: its error?.message and message *)
| OtherValue.
    (* null, undefined or a primitive *)

Inductive completion (A : Type) : Type :=
| Resolved (value : A)
| Rejected (reason : thrown).
Arguments Resolved {A} value.
Arguments Rejected {A} reason.

(** Truthiness of a property that is a string or absent: the empty string
    and [undefined] are falsy. *)
Definition truthy (s : option string) : bool :=
  match s with
  | Some s => negb (String.eqb s "")
  | None => false
  end.

(** [`${x}`] for a property typed [string | undefined] and for one typed
    [string | null]. *)
Definition template_undefined (s : option string) : string :=
  default "undefined" s.
Definition template_null (s : option string) : string :=
  default "null" s.

(** [error instanceof Error ? error.message : "Unknown error"] *)
Definition message_or_unknown (error : thrown) : string :=
  match error with
  | ErrorInstance m => m
  | _ => "Unknown error"
  end.

(** ** Embedding vectors *)

(** Numbers, one by one: the [number[]] of a provider response, the
    numbers a [Float32Array] is made from, and the float32 numbers that an
    [ArrayBuffer] or a stored blob holds. *)
Definition vector : Type := list Q.

Module Float32Array.

(** A [Float32Array] is a view of an [ArrayBuffer]: [length] numbers from
    the byte [byteOffset] on.  [buffer] is the whole [ArrayBuffer], as the
    float32 numbers it holds. *)
Record t : Type := {
  buffer : vector;
  byteOffset : Z;
  length : Z
}.

(** The numbers of the view, four bytes each. *)
Definition elements (a : t) : vector :=
  take (Z.to_nat (length a)) (drop (Z.to_nat (byteOffset a / 4)) (buffer a)).

End Float32Array.

(** [new Float32Array(numbers)], for an array of numbers and for another
    typed array alike: a new buffer that holds the numbers and nothing
    else. *)
Definition new_Float32Array (numbers : vector) : Float32Array.t :=
  {| Float32Array.buffer := numbers;
     Float32Array.byteOffset := 0;
     Float32Array.length := Z.of_nat (length numbers) |}.

(** ** src/llm/embedding-client.ts *)

(** [interface EmbeddingResult] *)
Record EmbeddingResult : Type := {
  success : bool;
  embedding : option Float32Array.t;
  error : option string
}.

(** [interface EmbeddingClient]: a client is an object with state of its
    own; one call returns the settled promise and the client after it. *)
Class EmbeddingClient (E : Type) : Type :=
  generateEmbedding : E -> string -> completion EmbeddingResult * E.

(** The part of the provider's response that the client reads:
    [response.data[i].embedding]; a response can come without an array
    under [data]. *)
Record EmbeddingItem : Type := { item_embedding : option vector }.

Inductive response_data : Type :=
| DataArray (items : list EmbeddingItem)
| DataUndefined
| DataNull.

Record CreateEmbeddingResponse : Type := { data : response_data }.

(** What the client does to the outside, in order. *)
Inductive client_event : Type :=
| ApiCall (model input : string)  (* this.openai.embeddings.create({model, input}) *)
| Sleep (ms : Z).                  (* this.sleep(ms) *)

(** [class OpenAIEmbeddingClient].  The remote API is the field [openai]:
    the answer to the n-th call (counted from 0 over the life of the
    client) of [embeddings.create].  [history] records the calls and the
    sleeps made so far, oldest first. *)
Record OpenAIEmbeddingClient : Type := {
  openai : nat -> string -> string -> completion CreateEmbeddingResponse;
  model : string;
  maxRetries : Z;
  retryDelay : Z;
  history : list client_event
}.

Definition is_api_call (e : client_event) : bool :=
  match e with ApiCall _ _ => true | Sleep _ => false end.

Definition api_calls (h : list client_event) : nat :=
  length (List.filter is_api_call h).

Definition with_history (c : OpenAIEmbeddingClient) (h : list client_event)
  : OpenAIEmbeddingClient :=
  {| openai := openai c; model := model c; maxRetries := maxRetries c;
     retryDelay := retryDelay c; history := h |}.

Definition record_event (c : OpenAIEmbeddingClient) (e : client_event)
  : OpenAIEmbeddingClient :=
  with_history c (history c ++ [e]).

(** [await this.openai.embeddings.create({ model: this.model, input: text })] *)
Definition embeddings_create (c : OpenAIEmbeddingClient) (text : string)
  : completion CreateEmbeddingResponse * OpenAIEmbeddingClient :=
  (openai c (api_calls (history c)) (model c) text,
   record_event c (ApiCall (model c) text)).

(** [private extractErrorMessage(error: unknown): string] *)
Definition extractErrorMessage (error : thrown) : string :=
  match error with
  | ErrorInstance m => m
  | PlainObject error_message message =>
      if truthy error_message then default "" error_message
      else if truthy message then default "" message
      else "Unknown error"
  | OtherValue => "Unknown error"
  end.

Definition failure (msg : string) : EmbeddingResult :=
  {| success := false; embedding := None; error := Some msg |}.

Definition exhausted_message (effectiveMaxRetries : Z) (last : string) : string :=
  "Failed to generate embedding after " +:+ pretty (effectiveMaxRetries + 1)
  +:+ " attempts. Last error: " +:+ last.

(** The [try] block of one attempt, once the API has answered: it returns
    a result, or [response.data[0]] throws a TypeError on a response that
    has no array under [data]. *)
Definition read_response (response : CreateEmbeddingResponse)
  : completion EmbeddingResult :=
  match data response with
  | DataArray items =>
      (* const embedding = response.data[0]?.embedding *)
      match head items ≫= item_embedding with
      | None =>
          Resolved (failure "Invalid embedding response format from OpenAI API")
      | Some embedding =>
          Resolved {| success := true;
                      embedding := Some (new_Float32Array embedding);
                      error := None |}
      end
  | DataUndefined =>
      Rejected (ErrorInstance
        "Cannot read properties of undefined (reading '0')")
  | DataNull =>
      Rejected (ErrorInstance "Cannot read properties of null (reading '0')")
  end.

(** The [try] block of one attempt: an error of the API and an error of
    reading the response reach the same [catch]. *)
Definition try_block (answer : completion CreateEmbeddingResponse)
  : completion EmbeddingResult :=
  match answer with
  | Resolved response => read_response response
  | Rejected error => Rejected error
  end.

(** The body of [for (let attempt = 0; attempt <= effectiveMaxRetries;
    attempt++)], over the attempts that are still to run; the empty list is
    the exit of the loop and the [return] after it. *)
Fixpoint attempt_loop (effectiveMaxRetries : Z) (text : string)
    (attempts : list Z) (lastError : option string)
    (c : OpenAIEmbeddingClient) : EmbeddingResult * OpenAIEmbeddingClient :=
  match attempts with
  | [] =>
      (failure (exhausted_message effectiveMaxRetries
                  (if truthy lastError then default "" lastError
                   else "Unknown error")), c)
  | attempt :: rest =>
      let '(answer, c1) := embeddings_create c text in
      match try_block answer with
      | Resolved result => (result, c1)
      | Rejected error =>
          let errorMessage := extractErrorMessage error in
          if attempt =? effectiveMaxRetries then
            (failure (exhausted_message effectiveMaxRetries errorMessage), c1)
          else
            let c2 :=
              if attempt <? effectiveMaxRetries
              then record_event c1 (Sleep (retryDelay c1 * 2 ^ attempt))
              else c1 in
            attempt_loop effectiveMaxRetries text rest (Some errorMessage) c2
      end
  end.

(** The values [attempt] takes: 0, 1, ..., [effectiveMaxRetries]. *)
Definition attempts_upto (effectiveMaxRetries : Z) : list Z :=
  Z.of_nat <$> seq 0 (Z.to_nat (effectiveMaxRetries + 1)).

(** [async generateEmbedding(text: string): Promise<EmbeddingResult>] *)
Definition OpenAI_generateEmbedding (c : OpenAIEmbeddingClient) (text : string)
  : EmbeddingResult * OpenAIEmbeddingClient :=
  let effectiveMaxRetries := Z.max 0 (maxRetries c) in
  attempt_loop effectiveMaxRetries text (attempts_upto effectiveMaxRetries) None c.

#[export] Instance OpenAIEmbeddingClient_client
  : EmbeddingClient OpenAIEmbeddingClient :=
  fun c text =>
    let '(r, c') := OpenAI_generateEmbedding c text in (Resolved r, c').

(** ** src/llm/mock-embedding-client.ts *)

(** [customEmbedding] is the numbers of the configured array: the client
    reads nothing else of it. *)
Record MockEmbeddingConfig : Type := {
  config_shouldFail : option bool;
  config_failureAttempts : option Z;
  config_delayMs : option Z;
  config_customEmbedding : option vector
}.

(** [class MockEmbeddingClient] *)
Record MockEmbeddingClient : Type := {
  shouldFail : bool;
  failureAttempts : Z;
  delayMs : Z;
  customEmbedding : vector;
  callCount : Z
}.

(** [new Float32Array(1536).fill(0)] *)
Definition DEFAULT_EMBEDDING : vector := replicate 1536 0%Q.

(** The constructor; [x || d] of an absent, [false] or [0] value is [d]. *)
Definition new_MockEmbeddingClient (config : MockEmbeddingConfig)
  : MockEmbeddingClient :=
  {| shouldFail := default false (config_shouldFail config);
     failureAttempts := default 0 (config_failureAttempts config);
     delayMs := default 0 (config_delayMs config);
     customEmbedding := default DEFAULT_EMBEDDING (config_customEmbedding config);
     callCount := 0 |}.

(** [async generateEmbedding(_text)]; the simulated delay has no effect on
    the result. *)
Definition Mock_generateEmbedding (c : MockEmbeddingClient) (_text : string)
  : EmbeddingResult * MockEmbeddingClient :=
  let c1 := {| shouldFail := shouldFail c; failureAttempts := failureAttempts c;
               delayMs := delayMs c; customEmbedding := customEmbedding c;
               callCount := callCount c + 1 |} in
  if shouldFail c1 then
    ({| success := false; embedding := None;
        error := Some "Mock embedding generation failed" |}, c1)
  else if (0 <? failureAttempts c1) && (callCount c1 <=? failureAttempts c1) then
    ({| success := false; embedding := None;
        error := Some ("Mock embedding generation failed on attempt "
                       +:+ pretty (callCount c1)) |}, c1)
  else
    (* Return a copy to prevent mutation *)
    ({| success := true;
        embedding := Some (new_Float32Array (customEmbedding c1));
        error := None |}, c1).

#[export] Instance MockEmbeddingClient_client
  : EmbeddingClient MockEmbeddingClient :=
  fun c text =>
    let '(r, c') := Mock_generateEmbedding c text in (Resolved r, c').

(** [createSuccessfulMockEmbeddingClient], [createFailingMockEmbeddingClient] *)
Definition createSuccessfulMockEmbeddingClient (embedding : option vector)
  : MockEmbeddingClient :=
  new_MockEmbeddingClient
    {| config_shouldFail := Some false; config_failureAttempts := None;
       config_delayMs := None; config_customEmbedding := embedding |}.

Definition createFailingMockEmbeddingClient : MockEmbeddingClient :=
  new_MockEmbeddingClient
    {| config_shouldFail := Some true; config_failureAttempts := None;
       config_delayMs := None; config_customEmbedding := None |}.

(** ** src/llm/client.ts *)

(** [interface RuleGenerationResult]: [rule] is present for a generalizable
    instruction; for one that is not, [rule] is [null] and [reason] says
    why; [error] is present when [success] is [false]. *)
Module RuleGenerationResult.
Record rule_t : Type := { rule_text : string; category : string }.
Record t : Type := {
  success : bool;
  rule : option rule_t;
  reason : option string;
  error : option string
}.
End RuleGenerationResult.

(** [interface LLMClient] *)
Class LLMClient (L : Type) : Type :=
  generateRule : L -> string -> string -> completion RuleGenerationResult.t * L.

(** ** src/llm/mock-client.ts *)

Record MockLLMResponse : Type := {
  response_instruction : string;
  response_context : string;
  response_result : RuleGenerationResult.t
}.

(** [class MockLLMClient] *)
Record MockLLMClient : Type := { responses : list MockLLMResponse }.

Definition setDefaultResponse (c : MockLLMClient)
    (result : RuleGenerationResult.t) : MockLLMClient :=
  {| responses := responses c
       ++ [{| response_instruction := "*"; response_context := "*";
              response_result := result |}] |}.

Definition Mock_generateRule (c : MockLLMClient) (instruction context : string)
  : RuleGenerationResult.t :=
  let exact :=
    List.find (fun r => String.eqb (response_instruction r) instruction
                        && String.eqb (response_context r) context)
              (responses c) in
  let response :=
    match exact with
    | Some r => Some r
    | None =>
        List.find (fun r => String.eqb (response_instruction r) "*"
                            || String.eqb (response_context r) "*")
                  (responses c)
    end in
  match response with
  | Some r => response_result r
  | None =>
      {| RuleGenerationResult.success := true;
         RuleGenerationResult.rule :=
           Some {| RuleGenerationResult.rule_text := instruction;
                   RuleGenerationResult.category := "best-practices" |};
         RuleGenerationResult.reason := None;
         RuleGenerationResult.error := None |}
  end.

#[export] Instance MockLLMClient_client : LLMClient MockLLMClient :=
  fun c instruction context =>
    (Resolved (Mock_generateRule c instruction context), c).

(** ** src/types.ts *)

(** [type Rule]; a [Date] is the text SQLite stores for it. *)
Module Rule.
Record t : Type := {
  id : Z;
  rule_text : string;
  category : string;
  context : string;
  relevance_score : option Q;
  created_from_instruction_id : option Z;
  last_applied : option string;
  instructions_count : Z;
  inserted_at : string
}.
End Rule.

(** [type UserInstruction]; [rule_id] is [null] until a rule is linked. *)
Module UserInstruction.
Record t : Type := {
  id : Z;
  instruction : string;
  context : string;
  inserted_at : string;
  rule_id : option Z
}.
End UserInstruction.

(** ** src/database.ts: the two tables *)

(** A row of [user_instructions]. *)
Module user_instructions.
Record row : Type := {
  id : Z;                   (* INTEGER PRIMARY KEY AUTOINCREMENT *)
  instruction : string;     (* TEXT NOT NULL *)
  context : string;         (* TEXT NOT NULL *)
  inserted_at : string;     (* DATETIME NOT NULL DEFAULT CURRENT_TIMESTAMP *)
  rule_id : option Z        (* INTEGER REFERENCES rules(id) *)
}.
End user_instructions.

(** A row of [rules].  The INSERT of [createRule] is the only writer of the
    table and always supplies [embedding] and [instructions_count]. *)
Module rules.
Record row : Type := {
  id : Z;                          (* INTEGER PRIMARY KEY AUTOINCREMENT *)
  rule_text : string;              (* TEXT NOT NULL *)
  category : string;               (* TEXT NOT NULL *)
  context : string;                (* TEXT NOT NULL *)
  relevance_score : option Q;      (* FLOAT DEFAULT 1.0 *)
  embedding : vector;              (* FLOAT[1536]: a plain column, the
                                      length is not enforced *)
  created_from_instruction_id : Z; (* INTEGER NOT NULL REFERENCES ... *)
  last_applied : option string;    (* DATETIME *)
  instructions_count : Z;          (* INTEGER DEFAULT 0 *)
  inserted_at : string             (* DATETIME NOT NULL DEFAULT CURRENT_TIMESTAMP *)
}.
End rules.

(** The prepared statements of the two repositories. *)
Inductive statement : Type :=
| InsertInstruction
| SelectInstructionById
| SelectInstructionsByRuleId
| UpdateInstructionRuleId
| InsertRule
| SelectRuleById
| SelectSimilarRules.

(** The database handle.  [sequence_*] is the AUTOINCREMENT counter of a
    table (its row of [sqlite_sequence]); [store_fault s] is the message of
    the [SqliteError] with which the engine refuses statement [s], if it
    does; [executed] lists the statements run so far, oldest first. *)
Record database : Type := {
  user_instructions_table : list user_instructions.row;
  rules_table : list rules.row;
  sequence_user_instructions : Z;
  sequence_rules : Z;
  CURRENT_TIMESTAMP : string;
  store_fault : statement -> option string;
  executed : list statement
}.

(** The rowid AUTOINCREMENT gives a new row: one more than the largest
    rowid the table has ever held. *)
Definition next_rowid (sequence : Z) (ids : list Z) : Z :=
  Z.max sequence (foldr Z.max 0 ids) + 1.

Definition with_tables (d : database)
    (instructions : list user_instructions.row) (sequence_i : Z)
    (rls : list rules.row) (sequence_r : Z) : database :=
  {| user_instructions_table := instructions;
     rules_table := rls;
     sequence_user_instructions := sequence_i;
     sequence_rules := sequence_r;
     CURRENT_TIMESTAMP := CURRENT_TIMESTAMP d;
     store_fault := store_fault d;
     executed := executed d |}.

Definition log_statement (d : database) (s : statement) : database :=
  {| user_instructions_table := user_instructions_table d;
     rules_table := rules_table d;
     sequence_user_instructions := sequence_user_instructions d;
     sequence_rules := sequence_rules d;
     CURRENT_TIMESTAMP := CURRENT_TIMESTAMP d;
     store_fault := store_fault d;
     executed := executed d ++ [s] |}.

(** [INSERT INTO user_instructions (instruction, context, rule_id)
    VALUES (?, ?, ?)] and its [lastInsertRowid]. *)
Definition insert_user_instruction (d : database)
    (instruction context : string) (rule_id : option Z) : database * Z :=
  let rowid := next_rowid (sequence_user_instructions d)
                 (user_instructions.id <$> user_instructions_table d) in
  (with_tables d
     (user_instructions_table d
      ++ [{| user_instructions.id := rowid;
             user_instructions.instruction := instruction;
             user_instructions.context := context;
             user_instructions.inserted_at := CURRENT_TIMESTAMP d;
             user_instructions.rule_id := rule_id |}])
     rowid (rules_table d) (sequence_rules d),
   rowid).

(** [UPDATE user_instructions SET rule_id = ? WHERE id = ?] *)
Definition update_rule_id (d : database) (ruleId instructionId : Z) : database :=
  with_tables d
    ((fun r =>
        if user_instructions.id r =? instructionId
        then {| user_instructions.id := user_instructions.id r;
                user_instructions.instruction := user_instructions.instruction r;
                user_instructions.context := user_instructions.context r;
                user_instructions.inserted_at := user_instructions.inserted_at r;
                user_instructions.rule_id := Some ruleId |}
        else r) <$> user_instructions_table d)
    (sequence_user_instructions d) (rules_table d) (sequence_rules d).

(** [INSERT INTO rules (rule_text, category, context, instructions_count,
    embedding, created_from_instruction_id) VALUES (?, ?, ?, ?, ?, ?)] and its
    [lastInsertRowid]; the columns that are not listed take their
    defaults. *)
Definition insert_rule (d : database) (rule_text category context : string)
    (instructions_count : Z) (embedding : vector)
    (created_from_instruction_id : Z) : database * Z :=
  let rowid := next_rowid (sequence_rules d) (rules.id <$> rules_table d) in
  (with_tables d (user_instructions_table d) (sequence_user_instructions d)
     (rules_table d
      ++ [{| rules.id := rowid;
             rules.rule_text := rule_text;
             rules.category := category;
             rules.context := context;
             rules.relevance_score := Some 1%Q;
             rules.embedding := embedding;
             rules.created_from_instruction_id := created_from_instruction_id;
             rules.last_applied := None;
             rules.instructions_count := instructions_count;
             rules.inserted_at := CURRENT_TIMESTAMP d |}])
     rowid,
   rowid).

(** [SELECT id, instruction, context, inserted_at, rule_id] of one row *)
Definition select_instruction (r : user_instructions.row) : UserInstruction.t :=
  {| UserInstruction.id := user_instructions.id r;
     UserInstruction.instruction := user_instructions.instruction r;
     UserInstruction.context := user_instructions.context r;
     UserInstruction.inserted_at := user_instructions.inserted_at r;
     UserInstruction.rule_id := user_instructions.rule_id r |}.

(** [SELECT id, rule_text, category, context, relevance_score,
    created_from_instruction_id, last_applied, instructions_count,
    inserted_at] of one row: the [embedding] column is not selected. *)
Definition select_rule (r : rules.row) : Rule.t :=
  {| Rule.id := rules.id r;
     Rule.rule_text := rules.rule_text r;
     Rule.category := rules.category r;
     Rule.context := rules.context r;
     Rule.relevance_score := rules.relevance_score r;
     Rule.created_from_instruction_id := Some (rules.created_from_instruction_id r);
     Rule.last_applied := rules.last_applied r;
     Rule.instructions_count := rules.instructions_count r;
     Rule.inserted_at := rules.inserted_at r |}.

(** A value of a column, as SQLite hands it to JavaScript. *)
Inductive sqlvalue : Type :=
| SqlNull
| SqlInteger (z : Z)
| SqlReal (q : Q)
| SqlText (s : string)
| SqlBlob (v : vector).

Definition nullable {A : Type} (f : A -> sqlvalue) (o : option A) : sqlvalue :=
  match o with Some a => f a | None => SqlNull end.

(** The [Rule] that [findRuleById] returns, as the plain object it is at
    run time: better-sqlite3 gives it one property per column of the SELECT
    list, and the cast [as Rule] adds none. *)
Definition Rule_properties (r : Rule.t) : gmap string sqlvalue :=
  {[ "id" := SqlInteger (Rule.id r);
     "rule_text" := SqlText (Rule.rule_text r);
     "category" := SqlText (Rule.category r);
     "context" := SqlText (Rule.context r);
     "relevance_score" := nullable SqlReal (Rule.relevance_score r);
     "created_from_instruction_id" :=
       nullable SqlInteger (Rule.created_from_instruction_id r);
     "last_applied" := nullable SqlText (Rule.last_applied r);
     "instructions_count" := SqlInteger (Rule.instructions_count r);
     "inserted_at" := SqlText (Rule.inserted_at r) ]}.

(** ** src/repos/rules-repo.ts: [interface RelevantRule extends Rule] *)
Module RelevantRule.
Record t : Type := {
  id : Z;
  rule_text : string;
  category : string;
  context : string;
  relevance_score : Q;
  created_from_instruction_id : option Z;
  last_applied : option string;
  instructions_count : Z;
  inserted_at : string
}.
End RelevantRule.

(** The calls a handler makes on the two clients it is given. *)
Inductive external_call : Type :=
| GenerateRuleCall (instruction context : string)
| GenerateEmbeddingCall (text : string).

(** [{ content: [{ type: "text", text }] }] *)
Record TextContent : Type := { type : string; text : string }.
Record ToolResult : Type := { content : list TextContent }.

Definition text_result (t : string) : ToolResult :=
  {| content := [{| type := "text"; text := t |}] |}.

(** The characters [String.prototype.trim] removes, among code units
    below 256: TAB, LF, VT, FF, CR, SPACE and NBSP. *)
Definition is_white_space (a : ascii) : bool :=
  let n := nat_of_ascii a in
  ((9 <=? n)%nat && (n <=? 13)%nat) || (n =? 32)%nat || (n =? 160)%nat.

Fixpoint trimStart (s : string) : string :=
  match s with
  | String a s' => if is_white_space a then trimStart s' else s
  | EmptyString => EmptyString
  end.

Fixpoint trimEnd (s : string) : string :=
  match s with
  | EmptyString => EmptyString
  | String a s' =>
      match trimEnd s' with
      | EmptyString => if is_white_space a then EmptyString
                       else String a EmptyString
      | t => String a t
      end
  end.

Definition trim (s : string) : string := trimEnd (trimStart s).

Definition dquote : string := String (ascii_of_nat 34) EmptyString.
Definition newline : string := String (ascii_of_nat 10) EmptyString.

(** [TypeError] of reading property [p] of [null]. *)
Definition null_property_error (p : string) : thrown :=
  ErrorInstance ("Cannot read properties of null (reading '" +:+ p +:+ "')").

(** [interface GetRelevantRulesParams] *)
Record GetRelevantRulesParams : Type := {
  taskDescription : string;
  maxResults : option Z;
  similarityThreshold : option Q
}.

(** ** The handlers and the repositories they build *)

Section Program.

Context {L E : Type} `{!LLMClient L} `{!EmbeddingClient E}.

(** [vec_distance_cosine] of sqlite-vec, and the two number formatters
    of the JavaScript runtime that the retrieval handler uses. *)
Variable vec_distance_cosine : vector -> vector -> Q.
Variable number_toString : Q -> string.
Variable number_toFixed : Q -> nat -> string.

(** Everything a handler is handed and can change: the database
    connection and the two client objects.  [calls] lists the calls made
    on the clients so far, oldest first. *)
Record world : Type := {
  db : database;
  llmClient : L;
  embeddingClient : E;
  calls : list external_call
}.

(** An [async] function: from the world before to the settled promise and
    the world after. *)
Definition M (A : Type) : Type := world -> completion A * world.

#[export] Instance M_ret : MRet M := fun A a w => (Resolved a, w).

#[export] Instance M_bind : MBind M := fun A B k m w =>
  match m w with
  | (Resolved a, w') => k a w'
  | (Rejected e, w') => (Rejected e, w')
  end.

Definition throw {A : Type} (e : thrown) : M A := fun w => (Rejected e, w).

(** [try { body } catch (error) { handler }] *)
Definition try_catch {A : Type} (body : M A) (handler : thrown -> M A) : M A :=
  fun w =>
    match body w with
    | (Resolved a, w') => (Resolved a, w')
    | (Rejected e, w') => handler e w'
    end.

Definition with_db (w : world) (d : database) : world :=
  {| db := d; llmClient := llmClient w;
     embeddingClient := embeddingClient w; calls := calls w |}.

(** [await llmClient.generateRule(instruction, context)] *)
Definition call_generateRule (instruction context : string)
  : M RuleGenerationResult.t :=
  fun w =>
    let '(r, l') := generateRule (llmClient w) instruction context in
    (r, {| db := db w; llmClient := l';
           embeddingClient := embeddingClient w;
           calls := calls w ++ [GenerateRuleCall instruction context] |}).

(** [await embeddingClient.generateEmbedding(text)] *)
Definition call_generateEmbedding (text : string) : M EmbeddingResult :=
  fun w =>
    let '(r, e') := generateEmbedding (embeddingClient w) text in
    (r, {| db := db w; llmClient := llmClient w;
           embeddingClient := e';
           calls := calls w ++ [GenerateEmbeddingCall text] |}).

(** [this.db.prepare(sql).run/get/all(...)]: the statement is logged and
    either refused by the engine, which changes no table, or applied. *)
Definition execute {A : Type} (s : statement) (apply : database -> database * A)
  : M A :=
  fun w =>
    let d := log_statement (db w) s in
    match store_fault d s with
    | Some msg => (Rejected (ErrorInstance msg), with_db w d)
    | None => let '(d', a) := apply d in (Resolved a, with_db w d')
    end.

(** *** src/repos/instructions-repo.ts: [class SQLiteInstructionsRepo] *)

Definition findInstructionById (id : Z) : M (option UserInstruction.t) :=
  execute SelectInstructionById (fun d =>
    (d, select_instruction
          <$> List.find (fun r => user_instructions.id r =? id)
                (user_instructions_table d))).

(** The [!] on the result is erased by the compiler: the value may still
    be [null]. *)
Definition createInstruction (instruction context : string)
  : M (option UserInstruction.t) :=
  instructionId ← execute InsertInstruction (fun d =>
                    insert_user_instruction d instruction context None);
  findInstructionById instructionId.

Definition findInstructionsByRuleId (ruleId : Z) : M (list UserInstruction.t) :=
  execute SelectInstructionsByRuleId (fun d =>
    (d, select_instruction
          <$> List.filter
                (fun r => match user_instructions.rule_id r with
                          | Some i => i =? ruleId
                          | None => false
                          end)
                (user_instructions_table d))).

Definition updateInstructionRuleId (instructionId ruleId : Z) : M unit :=
  execute UpdateInstructionRuleId (fun d =>
    (update_rule_id d ruleId instructionId, tt)).

(** *** src/repos/rules-repo.ts: [class SQLiteRulesRepo] *)

Definition findRuleById (id : Z) : M (option Rule.t) :=
  execute SelectRuleById (fun d =>
    (d, select_rule <$> List.find (fun r => rules.id r =? id) (rules_table d))).

Definition createRule (ruleText category context : string)
    (createdFromInstructionId : Z) : M (option Rule.t) :=
  (* Step 1: Generate embedding for the rule text *)
  embeddingResult ← call_generateEmbedding ruleText;
  match success embeddingResult, embedding embeddingResult with
  | true, Some embedding =>
      (* Step 2: Create new rule with embedding *)
      ruleId ← execute InsertRule (fun d =>
                 (* Buffer.from(embeddingResult.embedding.buffer) *)
                 insert_rule d ruleText category context 1
                   (Float32Array.buffer embedding)
                   createdFromInstructionId);
      findRuleById ruleId
  | _, _ =>
      throw (ErrorInstance ("Failed to generate embedding: "
                            +:+ template_undefined (error embeddingResult)))
  end.

(** [(1 - vec_distance_cosine(embedding, ?))] *)
Definition relevance (query : vector) (r : rules.row) : Q :=
  (1 - vec_distance_cosine (rules.embedding r) query)%Q.

(** The projection of the similarity SELECT. *)
Definition select_relevant_rule (query : vector) (r : rules.row)
  : RelevantRule.t :=
  {| RelevantRule.id := rules.id r;
     RelevantRule.rule_text := rules.rule_text r;
     RelevantRule.category := rules.category r;
     RelevantRule.context := rules.context r;
     RelevantRule.relevance_score := relevance query r;
     RelevantRule.created_from_instruction_id :=
       Some (rules.created_from_instruction_id r);
     RelevantRule.last_applied := rules.last_applied r;
     RelevantRule.instructions_count := rules.instructions_count r;
     RelevantRule.inserted_at := rules.inserted_at r |}.

(** [ORDER BY relevance_score DESC], as an insertion sort that keeps rows
    of equal score in table order (SQLite promises no order among
    them). *)
Fixpoint insert_desc (x : RelevantRule.t) (l : list RelevantRule.t)
  : list RelevantRule.t :=
  match l with
  | [] => [x]
  | y :: l' =>
      if Qle_bool (RelevantRule.relevance_score y) (RelevantRule.relevance_score x)
      then x :: y :: l'
      else y :: insert_desc x l'
  end.

Definition order_by_relevance_desc (l : list RelevantRule.t)
  : list RelevantRule.t :=
  foldr insert_desc [] l.

(** [LIMIT ?]: a negative limit puts no bound on the number of rows. *)
Definition sql_limit {A : Type} (limit : Z) (l : list A) : list A :=
  if limit <? 0 then l else take (Z.to_nat limit) l.

(** [WHERE (1 - vec_distance_cosine(embedding, ?)) >= ?] *)
Definition sql_where (query : vector) (threshold : Q) (l : list rules.row)
  : list rules.row :=
  List.filter (fun r => Qle_bool threshold (relevance query r)) l.

Definition findSimilarRules (embedding : Float32Array.t) (limit : Z)
    (threshold : Q) : M (list RelevantRule.t) :=
  (* const embeddingBuffer = Buffer.from(embedding.buffer) *)
  let embeddingBuffer := Float32Array.buffer embedding in
  execute SelectSimilarRules (fun d =>
    (d, sql_limit limit
          (order_by_relevance_desc
             (select_relevant_rule embeddingBuffer
                <$> sql_where embeddingBuffer threshold (rules_table d))))).

(** [let x; try { x = await body } catch (error) { return on_error }]
    followed by the rest of the function. *)
Definition try_or_return {A B : Type} (body : M A)
    (on_error : thrown -> B) (rest : A -> M B) : M B :=
  fun w =>
    match body w with
    | (Resolved a, w') => rest a w'
    | (Rejected e, w') => (Resolved (on_error e), w')
    end.

(** [o.p] for a value [o] that may be [null] at run time. *)
Definition property {A B : Type} (o : option A) (p : string) (get : A -> B)
  : M B :=
  match o with
  | Some a => mret (get a)
  | None => throw (null_property_error p)
  end.

(** *** src/tools/rememberDeveloperInstruction.ts *)

Definition rememberDeveloperInstructionHandler (instruction context : string)
  : M ToolResult :=
  try_catch
    ((* Step 1: Use LLM to generate abstract rule *)
     ruleGenerationResult ← call_generateRule instruction context;
     match RuleGenerationResult.success ruleGenerationResult,
           RuleGenerationResult.rule ruleGenerationResult with
     | true, Some rule =>
         let rule_text := RuleGenerationResult.rule_text rule in
         let category := RuleGenerationResult.category rule in
         (* Step 2: Create instruction first *)
         try_or_return (createInstruction instruction context)
           (fun error =>
              text_result ("Failed to create instruction: "
                           +:+ message_or_unknown error))
           (fun createdInstruction =>
              (* Step 3: Create rule with embedding and link to instruction *)
              try_catch
                (createdInstruction_id ←
                   property createdInstruction "id" UserInstruction.id;
                 rule ← createRule rule_text category context
                          createdInstruction_id;
                 (* Step 4: Update instruction to link to the rule *)
                 rule_id ← property rule "id" Rule.id;
                 _ ← updateInstructionRuleId createdInstruction_id rule_id;
                 mret (text_result
                         ("Instruction processed successfully. Generated rule: "
                          +:+ dquote +:+ rule_text +:+ dquote
                          +:+ " (category: " +:+ category
                          +:+ "). Rule ID: " +:+ pretty rule_id
                          +:+ ", Instruction ID: "
                          +:+ pretty createdInstruction_id)))
                (fun error =>
                   mret (text_result ("Failed to create rule with embedding: "
                                      +:+ message_or_unknown error))))
     | _, _ =>
         mret (text_result
                 ("Failed to generate abstract rule: "
                  +:+ template_null
                        (RuleGenerationResult.error ruleGenerationResult)))
     end)
    (fun error =>
       mret (text_result ("Unexpected error: " +:+ message_or_unknown error))).

(** *** src/tools/getRelevantRules.ts *)

Definition format_rule (rule : RelevantRule.t) : string :=
  "- **" +:+ RelevantRule.rule_text rule
  +:+ "** (category: " +:+ RelevantRule.category rule
  +:+ ", relevance: "
  +:+ number_toFixed (RelevantRule.relevance_score rule) 3 +:+ ")".

Definition getRelevantRulesHandler (params : GetRelevantRulesParams)
  : M ToolResult :=
  try_catch
    (let taskDescription := taskDescription params in
     let maxResults := default 5 (maxResults params) in
     let similarityThreshold := default 0%Q (similarityThreshold params) in
     (* Validate input *)
     if String.eqb (trim taskDescription) "" then
       mret (text_result "Error: taskDescription cannot be empty")
     else if (maxResults <? 1) || (100 <? maxResults) then
       mret (text_result "Error: maxResults must be between 1 and 100")
     else if negb (Qle_bool (-1) similarityThreshold)
             || negb (Qle_bool similarityThreshold 1) then
       mret (text_result "Error: similarityThreshold must be between -1 and 1")
     else
       (* Step 1: Generate embedding for the task description *)
       embeddingResult ← call_generateEmbedding taskDescription;
       match success embeddingResult, embedding embeddingResult with
       | true, Some embedding =>
           (* Step 2: Find similar rules using vector similarity search *)
           similarRules ← findSimilarRules embedding maxResults
                            similarityThreshold;
           (* Step 3: Format the response *)
           if (length similarRules =? 0)%nat then
             mret (text_result
                     ("No relevant rules found for task description: "
                      +:+ dquote +:+ taskDescription +:+ dquote
                      +:+ " (similarity threshold: "
                      +:+ number_toString similarityThreshold +:+ ")"))
           else
             let rulesText :=
               String.concat newline (format_rule <$> similarRules) in
             mret (text_result
                     ("Found " +:+ pretty (Z.of_nat (length similarRules))
                      +:+ " relevant rules for task: "
                      +:+ dquote +:+ taskDescription +:+ dquote
                      +:+ newline +:+ newline +:+ rulesText))
       | _, _ =>
           mret (text_result
                   ("Failed to generate embedding for task description: "
                    +:+ template_undefined (error embeddingResult)))
       end)
    (fun error =>
       mret (text_result ("Unexpected error: " +:+ message_or_unknown error))).

End Program.

Arguments world : clear implicits.
Arguments M : clear implicits.

(** ** Clients and databases used as concrete inputs *)

(** A client whose promise settles as a fixed function of the request: it
    can reject, which the two mock clients never do. *)
Record ScriptedLLMClient : Type :=
  { llm_script : string -> string -> completion RuleGenerationResult.t }.

#[export] Instance ScriptedLLMClient_client : LLMClient ScriptedLLMClient :=
  fun c instruction context => (llm_script c instruction context, c).

Record ScriptedEmbeddingClient : Type :=
  { embedding_script : string -> completion EmbeddingResult }.

#[export] Instance ScriptedEmbeddingClient_client
  : EmbeddingClient ScriptedEmbeddingClient :=
  fun c text => (embedding_script c text, c).

(** [vec_distance_cosine] on vectors of length one: 1 - a.b *)
Definition unit_cosine_distance (a b : vector) : Q :=
  (1 - foldr Qplus 0 (zip_with Qmult a b))%Q.

(** Stand-ins for the number formatters of the runtime: a rational is
    written as numerator/denominator. *)
Definition show_Q (q : Q) : string :=
  pretty (Qnum q) +:+ "/" +:+ pretty (Zpos (Qden q)).

Definition show_Q_fixed (q : Q) (_digits : nat) : string := show_Q q.

Definition no_fault : statement -> option string := fun _ => None.

(** A database that holds one instruction, with id 1, and the given rules;
    constraint violations, such as a rule that names a missing instruction,
    are among the faults of [store_fault]. *)
Definition test_database (rls : list rules.row)
    (faults : statement -> option string) : database :=
  {| user_instructions_table :=
       [{| user_instructions.id := 1;
           user_instructions.instruction := "Test instruction";
           user_instructions.context := "test context";
           user_instructions.inserted_at := "2025-01-01 00:00:00";
           user_instructions.rule_id := None |}];
     rules_table := rls;
     sequence_user_instructions := 1;
     sequence_rules := Z.of_nat (length rls);
     CURRENT_TIMESTAMP := "2025-01-01 00:00:00";
     store_fault := faults;
     executed := [] |}.

Definition test_rule (id : Z) (text : string) (embedding : vector) : rules.row :=
  {| rules.id := id;
     rules.rule_text := text;
     rules.category := "testing";
     rules.context := "unit tests";
     rules.relevance_score := Some 1%Q;
     rules.embedding := embedding;
     rules.created_from_instruction_id := 1;
     rules.last_applied := None;
     rules.instructions_count := 1;
     rules.inserted_at := "2025-01-01 00:00:00" |}.

(** Three rules at cosine distances 1, 0 and 2/5 from the query [1; 0]. *)
Definition three_rules : list rules.row :=
  [test_rule 1 "Test rule 0" [0; 1]%Q;
   test_rule 2 "Test rule 1" [1; 0]%Q;
   test_rule 3 "Test rule 2" [3 # 5; 4 # 5]%Q].

Definition new_world {L E : Type} (d : database) (l : L) (e : E) : world L E :=
  {| db := d; llmClient := l; embeddingClient := e; calls := [] |}.

(** The two verdicts of the classifier. *)
Definition generalizable (rule_text category : string) : RuleGenerationResult.t :=
  {| RuleGenerationResult.success := true;
     RuleGenerationResult.rule :=
       Some {| RuleGenerationResult.rule_text := rule_text;
               RuleGenerationResult.category := category |};
     RuleGenerationResult.reason := None;
     RuleGenerationResult.error := None |}.

Definition not_generalizable (reason : string) : RuleGenerationResult.t :=
  {| RuleGenerationResult.success := true;
     RuleGenerationResult.rule := None;
     RuleGenerationResult.reason := Some reason;
     RuleGenerationResult.error := None |}.

Definition mock_llm (result : RuleGenerationResult.t) : MockLLMClient :=
  setDefaultResponse {| responses := [] |} result.

Definition test_client
    (api : nat -> string -> string -> completion CreateEmbeddingResponse)
    (retries delay : Z) : OpenAIEmbeddingClient :=
  {| openai := api; model := "text-embedding-3-small";
     maxRetries := retries; retryDelay := delay; history := [] |}.

(** An API that rejects every call, one that answers every call with an
    empty [data] list, and one whose answers have no [data] property. *)
Definition failing_api (msg : string)
  : nat -> string -> string -> completion CreateEmbeddingResponse :=
  fun _ _ _ => Rejected (ErrorInstance msg).

Definition empty_api
  : nat -> string -> string -> completion CreateEmbeddingResponse :=
  fun _ _ _ => Resolved {| data := DataArray [] |}.

Definition no_data_api
  : nat -> string -> string -> completion CreateEmbeddingResponse :=
  fun _ _ _ => Resolved {| data := DataUndefined |}.

(** ** Notions used to state the properties *)

(** The events of [n] attempts, numbered from [from], that are each
    rejected and followed by the back-off sleep. *)
Definition retry_events (mdl text : string) (b : Z) (from n : nat)
  : list client_event :=
  flat_map (fun k => [ApiCall mdl text; Sleep (b * 2 ^ Z.of_nat k)])
    (seq from n).

(** The events of a run that makes [n] such attempts and then a last one,
    after which nothing more happens. *)
Definition backoff_events (mdl text : string) (b : Z) (n : nat)
  : list client_event :=
  retry_events mdl text b 0 n ++ [ApiCall mdl text].

(** The Embedding Generator fails: its promise rejects, or it resolves to a
    result that is no success or carries no vector. *)
Definition embedding_fails (o : completion EmbeddingResult) : Prop :=
  match o with
  | Rejected _ => True
  | Resolved r => success r = false \/ embedding r = None
  end.

(** Scores from the highest to the lowest. *)
Definition descending (l : list RelevantRule.t) : Prop :=
  StronglySorted
    (fun a b =>
       (RelevantRule.relevance_score b <= RelevantRule.relevance_score a)%Q)
    l.

(** The input of the retrieval handler passes its validation. *)
Definition valid_params (params : GetRelevantRulesParams) : Prop :=
  trim (taskDescription params) <> ""
  /\ 1 <= default 5 (maxResults params) <= 100
  /\ (-1 <= default 0 (similarityThreshold params))%Q
  /\ (default 0 (similarityThreshold params) <= 1)%Q.

(** [m] settles with a text result or with an exception, and [m] always
    settles with a text result. *)
Definition text_or_throws {L E : Type} (m : M L E ToolResult) : Prop :=
  forall w, (exists t w', m w = (Resolved (text_result t), w'))
            \/ (exists e w', m w = (Rejected e, w')).

Definition returns_text {L E : Type} (m : M L E ToolResult) : Prop :=
  forall w, exists t w', m w = (Resolved (text_result t), w').

(** ** src/llm/openai-client.ts (the client that asks for a parsed,
    schema-constrained completion) *)

(** The part of a chat completion that the client reads:
    [choices[i].message.parsed] and [choices[i].message.refusal]. *)
Record ParsedVerdict : Type := {
  parsed_rule : option RuleGenerationResult.rule_t;
  parsed_reason : option string
}.

Record ChatMessage : Type := {
  parsed : option ParsedVerdict;
  refusal : option string
}.

Record ChatCompletion : Type := { choices : list ChatMessage }.

Module OpenAIClient.

(** What the client does to the outside, in order. *)
Inductive event : Type :=
| ParseCall (model prompt : string)  (* this.client.chat.completions.parse(...) *)
| Delay (ms : Z).                     (* this.delay(ms) *)

(** [class OpenAIClient].  [parse] is the remote API: the answer to the
    n-th call (counted from 0 over the life of the client) of
    [chat.completions.parse] for a model and a user prompt.
    [buildGenerateRulePrompt] is the prompt template of the class, a fixed
    text around the instruction and the context.  [history] records the
    calls and the delays made so far, oldest first. *)
Record t : Type := {
  parse : nat -> string -> string -> completion ChatCompletion;
  buildGenerateRulePrompt : string -> string -> string;
  model : string;
  maxRetries : Z;
  retryDelay : Z;
  history : list event
}.

Definition is_parse_call (e : event) : bool :=
  match e with ParseCall _ _ => true | Delay _ => false end.

Definition parse_calls (h : list event) : nat :=
  length (List.filter is_parse_call h).

Definition with_history (c : t) (h : list event) : t :=
  {| parse := parse c; buildGenerateRulePrompt := buildGenerateRulePrompt c;
     model := model c; maxRetries := maxRetries c;
     retryDelay := retryDelay c; history := h |}.

Definition record_event (c : t) (e : event) : t :=
  with_history c (history c ++ [e]).

(** [await this.client.chat.completions.parse({ model, messages, ... })] *)
Definition completions_parse (c : t) (prompt : string)
  : completion ChatCompletion * t :=
  (parse c (parse_calls (history c)) (model c) prompt,
   record_event c (ParseCall (model c) prompt)).

Definition failed (msg : string) : RuleGenerationResult.t :=
  {| RuleGenerationResult.success := false;
     RuleGenerationResult.rule := None;
     RuleGenerationResult.reason := None;
     RuleGenerationResult.error := Some msg |}.

(** The [try] block of one attempt, once the API has answered: it returns
    a result or throws the TypeError of [response.choices[0]!.message] on
    an empty [choices]. *)
Definition read_response (response : ChatCompletion)
  : completion RuleGenerationResult.t :=
  match head (choices response) with
  | None =>
      Rejected (ErrorInstance
        "Cannot read properties of undefined (reading 'message')")
  | Some message =>
      match parsed message with
      | None =>
          Resolved (failed ("Failed to generate rule. Error: "
                            +:+ template_null (refusal message)))
      | Some verdict =>
          match parsed_rule verdict with
          | Some rule =>
              Resolved
                {| RuleGenerationResult.success := true;
                   RuleGenerationResult.rule :=
                     Some {| RuleGenerationResult.rule_text :=
                               RuleGenerationResult.rule_text rule;
                             RuleGenerationResult.category :=
                               RuleGenerationResult.category rule |};
                   RuleGenerationResult.reason := None;
                   RuleGenerationResult.error := None |}
          | None =>
              Resolved
                {| RuleGenerationResult.success := true;
                   RuleGenerationResult.rule := None;
                   RuleGenerationResult.reason := parsed_reason verdict;
                   RuleGenerationResult.error := None |}
          end
      end
  end.

(** The [try] block of one attempt: an API error and an error of reading
    the response reach the same [catch]. *)
Definition try_block (answer : completion ChatCompletion)
  : completion RuleGenerationResult.t :=
  match answer with
  | Resolved response => read_response response
  | Rejected error => Rejected error
  end.

(** The body of [for (let attempt = 1; attempt <= this.config.maxRetries;
    attempt++)], over the attempts that are still to run; the empty list
    is the exit of the loop and the [return] after it. *)
Fixpoint attempt_loop (prompt : string) (attempts : list Z) (c : t)
  : RuleGenerationResult.t * t :=
  match attempts with
  | [] => (failed "Unexpected error in rule generation", c)
  | attempt :: rest =>
      let '(answer, c1) := completions_parse c prompt in
      match try_block answer with
      | Resolved result => (result, c1)
      | Rejected error =>
          if attempt =? maxRetries c1 then
            (failed ("Failed to generate rule after " +:+ pretty (maxRetries c1)
                     +:+ " attempts: " +:+ message_or_unknown error), c1)
          else
            (* Wait before retrying *)
            attempt_loop prompt rest
              (record_event c1 (Delay (retryDelay c1 * attempt)))
      end
  end.

(** The values [attempt] takes: 1, 2, ..., [maxRetries]. *)
Definition attempts_upto (maxRetries : Z) : list Z :=
  Z.of_nat <$> seq 1 (Z.to_nat maxRetries).

(** [async generateRule(instruction, context)] *)
Definition generateRule (c : t) (instruction context : string)
  : RuleGenerationResult.t * t :=
  let prompt := buildGenerateRulePrompt c instruction context in
  attempt_loop prompt (attempts_upto (maxRetries c)) c.

End OpenAIClient.

#[export] Instance OpenAIClient_client : LLMClient OpenAIClient.t :=
  fun c instruction context =>
    let '(r, c') := OpenAIClient.generateRule c instruction context in
    (Resolved r, c').

(** ** Further notions used to state properties *)

(** The events of [n] attempts of the classifier client, numbered from
    [from], whose [try] block throws and that are each followed by the
    linear back-off delay. *)
Definition linear_retry_events (mdl prompt : string) (b : Z) (from n : nat)
  : list OpenAIClient.event :=
  flat_map (fun k => [OpenAIClient.ParseCall mdl prompt;
                      OpenAIClient.Delay (b * Z.of_nat k)])
    (seq from n).

(** A result of the classifier client is a verdict without error, of
    which a rule excludes a reason, or a failure that carries an error
    and nothing else. *)
Definition well_formed_result (r : RuleGenerationResult.t) : Prop :=
  (RuleGenerationResult.success r = true
   /\ RuleGenerationResult.error r = None
   /\ (RuleGenerationResult.rule r = None
       \/ RuleGenerationResult.reason r = None))
  \/ (RuleGenerationResult.success r = false
      /\ RuleGenerationResult.rule r = None
      /\ RuleGenerationResult.reason r = None
      /\ is_Some (RuleGenerationResult.error r)).

(** A result of the embedding client is a success that carries a vector
    and no error, or a failure that carries an error and no vector. *)
Definition well_formed_embedding_result (r : EmbeddingResult) : Prop :=
  (success r = true /\ is_Some (embedding r) /\ error r = None)
  \/ (success r = false /\ embedding r = None /\ is_Some (error r)).

(** The results of successive [generateEmbedding] calls on a mock client,
    one call for each text. *)
Fixpoint Mock_calls (texts : list string) (c : MockEmbeddingClient)
  : list EmbeddingResult * MockEmbeddingClient :=
  match texts with
  | [] => ([], c)
  | text :: rest =>
      let '(r, c1) := Mock_generateEmbedding c text in
      let '(rs, c2) := Mock_calls rest c1 in
      (r :: rs, c2)
  end.

(** Two tables are consistent when their ids are unique, every link of an
    instruction names a rule of the rule table and every rule names an
    instruction of the instruction table. *)
Definition consistent_tables (instructions : list user_instructions.row)
    (rls : list rules.row) : Prop :=
  NoDup (user_instructions.id <$> instructions)
  /\ NoDup (rules.id <$> rls)
  /\ (forall i r, i ∈ instructions ->
        user_instructions.rule_id i = Some r -> r ∈ rules.id <$> rls)
  /\ (forall r, r ∈ rls ->
        rules.created_from_instruction_id r
        ∈ user_instructions.id <$> instructions).

Definition consistent (d : database) : Prop :=
  consistent_tables (user_instructions_table d) (rules_table d).

(** ** Further concrete inputs *)

Definition test_llm_client
    (api : nat -> string -> string -> completion ChatCompletion)
    (retries delay : Z) : OpenAIClient.t :=
  {| OpenAIClient.parse := api;
     OpenAIClient.buildGenerateRulePrompt :=
       (fun instruction context =>
          "Instruction: " +:+ instruction +:+ " Context: " +:+ context);
     OpenAIClient.model := "gpt-5-mini-2025-08-07";
     OpenAIClient.maxRetries := retries;
     OpenAIClient.retryDelay := delay;
     OpenAIClient.history := [] |}.

(** An API that answers with an empty [choices] list, one that refuses,
    and one that rejects its first calls and then answers with a verdict. *)
Definition empty_choices_api
  : nat -> string -> string -> completion ChatCompletion :=
  fun _ _ _ => Resolved {| choices := [] |}.

Definition refusing_api (text : string)
  : nat -> string -> string -> completion ChatCompletion :=
  fun _ _ _ =>
    Resolved {| choices := [{| parsed := None; refusal := Some text |}] |}.

Definition flaky_chat_api (failures : nat) (verdict : ParsedVerdict)
  : nat -> string -> string -> completion ChatCompletion :=
  fun n _ _ =>
    if (n <? failures)%nat then Rejected (ErrorInstance "Server error")
    else Resolved {| choices := [{| parsed := Some verdict;
                                    refusal := None |}] |}.

(** An embedding API that rejects its first calls and then answers with
    a vector. *)
Definition flaky_api (failures : nat) (v : vector)
  : nat -> string -> string -> completion CreateEmbeddingResponse :=
  fun n _ _ =>
    if (n <? failures)%nat then Rejected (ErrorInstance "Server error")
    else Resolved {| data := DataArray [{| item_embedding := Some v |}] |}.

(** ** src/config.ts *)

Module Config.

(** [interface Config] *)
Record t : Type := {
  databasePath : string;
  showHelp : bool;
  openaiApiKey : option string;
  llmModel : string;
  llmMaxRetries : Z;
  llmRetryDelay : Z;
  embeddingModel : string;
  embeddingMaxRetries : Z;
  embeddingRetryDelay : Z
}.

End Config.

Module PartialConfig.

(** [Partial<Config>]: a property is [None] when the object does not have
    it. *)
Record t : Type := {
  databasePath : option string;
  showHelp : option bool;
  openaiApiKey : option string;
  llmModel : option string;
  llmMaxRetries : option Z;
  llmRetryDelay : option Z;
  embeddingModel : option string;
  embeddingMaxRetries : option Z;
  embeddingRetryDelay : option Z
}.

End PartialConfig.

Module CliValues.

(** The [values] of [parseArgs] for the options that the server
    declares. *)
Record t : Type := {
  help : option bool;
  db : option string;
  database : option string;
  openai_api_key : option string;
  llm_model : option string;
  llm_max_retries : option string;
  llm_retry_delay : option string;
  embedding_model : option string;
  embedding_max_retries : option string;
  embedding_retry_delay : option string
}.

End CliValues.

(** [if (value) { config.key = value }] for a string value. *)
Definition when_truthy (value : option string) : option string :=
  if truthy value then value else None.

(** What [createConfig] does: it returns a configuration, or it writes to
    the standard error, displays the help and ends the process. *)
Inductive startup : Type :=
| Configured (config : Config.t)
| Exited (code : Z) (stderr : list string).

(** [error instanceof Error ? error.message : "Invalid configuration"] *)
Definition message_or_invalid (error : thrown) : string :=
  match error with
  | ErrorInstance m => m
  | _ => "Invalid configuration"
  end.

Section ConfigModule.

(** [parseInt(value, 10)], where [None] is [NaN], and [parseArgs] of
    [util], which throws on an argument that it does not accept. *)
Variable parseInt : string -> option Z.
Variable parseArgs : list string -> completion CliValues.t.

Definition parseIntegerArg (value : option string) (fieldName : string)
  : completion (option Z) :=
  match value with
  | None => Resolved None
  | Some v =>
      if String.eqb v "" then Resolved None
      else
        match parseInt v with
        | None =>
            Rejected (ErrorInstance
              ("Invalid " +:+ fieldName +:+ ": " +:+ dquote +:+ v +:+ dquote
               +:+ " is not a valid number"))
        | Some parsed => Resolved (Some parsed)
        end
  end.

(** The four integers of a configuration, read in the order of the
    source: the first that is no number ends the function with its
    exception. *)
Definition parse_integers
    (inputs : (option string * string) * (option string * string)
              * (option string * string) * (option string * string))
  : completion (option Z * option Z * option Z * option Z) :=
  let '(a, b, c, d) := inputs in
  match parseIntegerArg a.1 a.2 with
  | Rejected e => Rejected e
  | Resolved llmMaxRetries =>
      match parseIntegerArg b.1 b.2 with
      | Rejected e => Rejected e
      | Resolved llmRetryDelay =>
          match parseIntegerArg c.1 c.2 with
          | Rejected e => Rejected e
          | Resolved embeddingMaxRetries =>
              match parseIntegerArg d.1 d.2 with
              | Rejected e => Rejected e
              | Resolved embeddingRetryDelay =>
                  Resolved (llmMaxRetries, llmRetryDelay,
                            embeddingMaxRetries, embeddingRetryDelay)
              end
          end
      end
  end.

(** The assignments to [config] are to distinct properties, but for
    [databasePath], where [--database] is assigned after [--db]. *)
Definition parseCommandLineArgs (args : list string)
  : completion PartialConfig.t :=
  match parseArgs args with
  | Rejected e => Rejected e
  | Resolved values =>
      match parse_integers
              ((CliValues.llm_max_retries values, "LLM max retries"),
               (CliValues.llm_retry_delay values, "LLM retry delay"),
               (CliValues.embedding_max_retries values,
                "embedding max retries"),
               (CliValues.embedding_retry_delay values,
                "embedding retry delay")) with
      | Rejected e => Rejected e
      | Resolved (llmMaxRetries, llmRetryDelay, embeddingMaxRetries,
                  embeddingRetryDelay) =>
          Resolved
            {| PartialConfig.showHelp :=
                 match CliValues.help values with
                 | Some true => Some true
                 | _ => None
                 end;
               PartialConfig.databasePath :=
                 if truthy (CliValues.database values)
                 then CliValues.database values
                 else when_truthy (CliValues.db values);
               PartialConfig.openaiApiKey :=
                 when_truthy (CliValues.openai_api_key values);
               PartialConfig.llmModel :=
                 when_truthy (CliValues.llm_model values);
               PartialConfig.llmMaxRetries := llmMaxRetries;
               PartialConfig.llmRetryDelay := llmRetryDelay;
               PartialConfig.embeddingModel :=
                 when_truthy (CliValues.embedding_model values);
               PartialConfig.embeddingMaxRetries := embeddingMaxRetries;
               PartialConfig.embeddingRetryDelay := embeddingRetryDelay |}
      end
  end.

(** [env] is [process.env]. *)
Definition parseEnvironmentVariables (env : gmap string string)
  : completion PartialConfig.t :=
  match parse_integers
          ((env !! "LLM_MAX_RETRIES",
            "LLM_MAX_RETRIES environment variable"),
           (env !! "LLM_RETRY_DELAY",
            "LLM_RETRY_DELAY environment variable"),
           (env !! "EMBEDDING_MAX_RETRIES",
            "EMBEDDING_MAX_RETRIES environment variable"),
           (env !! "EMBEDDING_RETRY_DELAY",
            "EMBEDDING_RETRY_DELAY environment variable")) with
  | Rejected e => Rejected e
  | Resolved (llmMaxRetries, llmRetryDelay, embeddingMaxRetries,
              embeddingRetryDelay) =>
      Resolved
        {| PartialConfig.showHelp := None;
           PartialConfig.databasePath :=
             when_truthy (env !! "LANGOUSTINE_DB_PATH");
           PartialConfig.openaiApiKey :=
             when_truthy (env !! "LANGOUSTINE_MCP_OPENAI_API_KEY");
           PartialConfig.llmModel := when_truthy (env !! "LLM_MODEL");
           PartialConfig.llmMaxRetries := llmMaxRetries;
           PartialConfig.llmRetryDelay := llmRetryDelay;
           PartialConfig.embeddingModel :=
             when_truthy (env !! "OPENAI_EMBEDDING_MODEL");
           PartialConfig.embeddingMaxRetries := embeddingMaxRetries;
           PartialConfig.embeddingRetryDelay := embeddingRetryDelay |}
  end.

Definition getDefaults : Config.t :=
  {| Config.databasePath := "./.langoustine/langoustine.db";
     Config.showHelp := false;
     Config.openaiApiKey := None;
     Config.llmModel := "gpt-5-mini-2025-08-07";
     Config.llmMaxRetries := 3;
     Config.llmRetryDelay := 1000;
     Config.embeddingModel := "text-embedding-3-small";
     Config.embeddingMaxRetries := 3;
     Config.embeddingRetryDelay := 1000 |}.

(** [{ ...config, ...overrides }] *)
Definition spread (config : Config.t) (overrides : PartialConfig.t)
  : Config.t :=
  {| Config.databasePath :=
       default (Config.databasePath config)
         (PartialConfig.databasePath overrides);
     Config.showHelp :=
       default (Config.showHelp config) (PartialConfig.showHelp overrides);
     Config.openaiApiKey :=
       match PartialConfig.openaiApiKey overrides with
       | Some key => Some key
       | None => Config.openaiApiKey config
       end;
     Config.llmModel :=
       default (Config.llmModel config) (PartialConfig.llmModel overrides);
     Config.llmMaxRetries :=
       default (Config.llmMaxRetries config)
         (PartialConfig.llmMaxRetries overrides);
     Config.llmRetryDelay :=
       default (Config.llmRetryDelay config)
         (PartialConfig.llmRetryDelay overrides);
     Config.embeddingModel :=
       default (Config.embeddingModel config)
         (PartialConfig.embeddingModel overrides);
     Config.embeddingMaxRetries :=
       default (Config.embeddingMaxRetries config)
         (PartialConfig.embeddingMaxRetries overrides);
     Config.embeddingRetryDelay :=
       default (Config.embeddingRetryDelay config)
         (PartialConfig.embeddingRetryDelay overrides) |}.

(** The [catch] of [createConfig]; the help text that [displayHelp]
    writes to the standard output is left out. *)
Definition report_and_exit (error : thrown) : startup :=
  Exited 1 [newline +:+ "Error: " +:+ message_or_invalid error;
            newline +:+ "For valid options, see:"].

Definition createConfig (argv : list string) (env : gmap string string)
  : startup :=
  let args := drop 2 argv in
  let defaults := getDefaults in
  match parseEnvironmentVariables env with
  | Rejected error => report_and_exit error
  | Resolved envConfig =>
      match parseCommandLineArgs args with
      | Rejected error => report_and_exit error
      | Resolved cliConfig =>
          Configured (spread (spread defaults envConfig) cliConfig)
      end
  end.

End ConfigModule.

(** ** src/index.ts and the constructors of the two OpenAI clients *)

(** [new OpenAIClient(config)] and [new OpenAIEmbeddingClient(config)];
    the remote API and the prompt template are passed beside the
    configuration. *)
Definition new_OpenAIClient (config : Config.t)
    (api : nat -> string -> string -> completion ChatCompletion)
    (template : string -> string -> string) : OpenAIClient.t :=
  {| OpenAIClient.parse := api;
     OpenAIClient.buildGenerateRulePrompt := template;
     OpenAIClient.model := Config.llmModel config;
     OpenAIClient.maxRetries := Config.llmMaxRetries config;
     OpenAIClient.retryDelay := Config.llmRetryDelay config;
     OpenAIClient.history := [] |}.

Definition new_OpenAIEmbeddingClient (config : Config.t)
    (api : nat -> string -> string -> completion CreateEmbeddingResponse)
  : OpenAIEmbeddingClient :=
  {| openai := api;
     model := Config.embeddingModel config;
     maxRetries := Config.embeddingMaxRetries config;
     retryDelay := Config.embeddingRetryDelay config;
     history := [] |}.

(** The first candidate that is a non-empty string. *)
Fixpoint first_truthy (candidates : list (option string)) : option string :=
  match candidates with
  | [] => None
  | candidate :: rest =>
      if truthy candidate then candidate else first_truthy rest
  end.

(** A setting that is absent or empty, or that [parseInt] reads as a
    number. *)
Definition integer_or_absent (parseInt : string -> option Z)
    (value : option string) : Prop :=
  truthy value = true -> exists v z, value = Some v /\ parseInt v = Some z.

(** The number that the first non-empty candidate stands for, and the
    default when there is none. *)
Definition first_integer (parseInt : string -> option Z)
    (candidates : list (option string)) (default_value : Z) : option Z :=
  match first_truthy candidates with
  | Some v => parseInt v
  | None => Some default_value
  end.

(** The environment variables that hold an integer, in the order in
    which [parseEnvironmentVariables] reads them, and a value that is
    given and that [parseInt] does not read as a number. *)
Definition integer_variables : list string :=
  ["LLM_MAX_RETRIES"; "LLM_RETRY_DELAY"; "EMBEDDING_MAX_RETRIES";
   "EMBEDDING_RETRY_DELAY"].

Definition not_a_number (parseInt : string -> option Z)
    (value : option string) : bool :=
  match value with
  | Some v =>
      if String.eqb v "" then false
      else match parseInt v with Some _ => false | None => true end
  | None => false
  end.

(** A [parseInt] for the inputs used here: an optional minus sign and
    decimal digits. *)
Fixpoint decimal_digits (acc : Z) (seen : bool) (s : string) : option Z :=
  match s with
  | EmptyString => if seen then Some acc else None
  | String c rest =>
      let n := Z.of_N (N_of_ascii c) - 48 in
      if (0 <=? n) && (n <=? 9) then decimal_digits (10 * acc + n) true rest
      else if seen then Some acc else None
  end.

Definition decimal_parseInt (s : string) : option Z :=
  match s with
  | String "-" rest => Z.opp <$> decimal_digits 0 false rest
  | _ => decimal_digits 0 false s
  end.

(** A [parseArgs] that reads the same values off every command line. *)
Definition test_parseArgs (values : CliValues.t)
  : list string -> completion CliValues.t :=
  fun _ => Resolved values.

(** The values of [--db a.db --database b.db --llm-max-retries 7] with an
    empty [--llm-model], and an environment that sets the model and two of
    the integers. *)
Definition test_values : CliValues.t :=
  {| CliValues.help := None; CliValues.db := Some "a.db";
     CliValues.database := Some "b.db"; CliValues.openai_api_key := None;
     CliValues.llm_model := Some "";
     CliValues.llm_max_retries := Some "7";
     CliValues.llm_retry_delay := None; CliValues.embedding_model := None;
     CliValues.embedding_max_retries := None;
     CliValues.embedding_retry_delay := None |}.

Definition test_env : gmap string string :=
  <["LLM_MODEL" := "gpt-4"]>
    (<["LLM_MAX_RETRIES" := "5"]>
       (<["EMBEDDING_RETRY_DELAY" := "250"]> ∅)).

Definition no_values : CliValues.t :=
  {| CliValues.help := None; CliValues.db := None;
     CliValues.database := None; CliValues.openai_api_key := None;
     CliValues.llm_model := None; CliValues.llm_max_retries := None;
     CliValues.llm_retry_delay := None; CliValues.embedding_model := None;
     CliValues.embedding_max_retries := None;
     CliValues.embedding_retry_delay := None |}.

(** A world around the three rules, with a classifier that generalizes
    and an embedding generator that answers with the vector [1; 0]; the
    same world over a store that refuses one statement. *)
Definition refuses (refused : statement -> bool) (msg : string)
  : statement -> option string :=
  fun s => if refused s then Some msg else None.

Definition test_world_with (faults : statement -> option string)
  : world MockLLMClient MockEmbeddingClient :=
  new_world (test_database three_rules faults)
    (mock_llm (generalizable "Test rule" "testing"))
    (createSuccessfulMockEmbeddingClient (Some [1; 0]%Q)).

Definition test_world : world MockLLMClient MockEmbeddingClient :=
  test_world_with no_fault.

Definition test_params : GetRelevantRulesParams :=
  {| taskDescription := "write unit tests"; maxResults := Some 2;
     similarityThreshold := Some (1 # 2)%Q |}.

(** Computes the fields of a database or a world that a handler has
    built, and closes a goal that asks for the consistency of the tables of
    a final world from a hypothesis about those tables. *)
Ltac norm_db :=
  cbn [db with_db store_fault log_statement with_tables
       insert_user_instruction insert_rule update_rule_id
       user_instructions_table rules_table sequence_user_instructions
       sequence_rules CURRENT_TIMESTAMP executed fst snd llmClient
       embeddingClient calls] in *.

Ltac consistent_leaf :=
  first [ done | unfold consistent; norm_db; assumption ].

(** Goes through the rows of a concrete table. *)
Ltac each_row H :=
  apply list_elem_of_In in H; vm_compute in H;
  repeat (destruct H as [<-|H]; [|]); [..|destruct H].

(** Unfolds the operations of [M]. *)
Ltac unfold_M :=
  unfold mbind, M_bind, mret, M_ret, throw, try_catch, try_or_return,
    property in *.

(** * Properties *)

(** ** Typed arrays *)

(** An array made by [new Float32Array(numbers)] owns its buffer: the
    buffer holds the numbers of the array and nothing else. *)
Lemma new_Float32Array_owns_buffer (numbers : vector) :
  Float32Array.elements (new_Float32Array numbers) = numbers
  /\ Float32Array.buffer (new_Float32Array numbers) = numbers.
Proof.
  split; [|done]. unfold Float32Array.elements, new_Float32Array.
  cbn [Float32Array.buffer Float32Array.byteOffset Float32Array.length].
  rewrite Nat2Z.id. change (Z.to_nat (0 / 4)) with 0%nat.
  by rewrite drop_0, firstn_all.
Qed.

(** ** The retry loop of the embedding client *)

Section Retry.

Lemma api_calls_app h1 h2 :
  api_calls (h1 ++ h2) = (api_calls h1 + api_calls h2)%nat.
Proof. unfold api_calls. by rewrite List.filter_app, length_app. Qed.

Lemma api_calls_retry_events mdl text b from n :
  api_calls (retry_events mdl text b from n) = n.
Proof.
  revert from. induction n as [|n IH]; intros from; [done|].
  specialize (IH (S from)). unfold api_calls, retry_events in *. simpl. lia.
Qed.

Lemma api_calls_backoff_events mdl text b n :
  api_calls (backoff_events mdl text b n) = S n.
Proof.
  unfold backoff_events. rewrite api_calls_app, api_calls_retry_events.
  unfold api_calls. simpl. lia.
Qed.

Variables (final : nat) (text : string) (e : nat -> thrown) (base : nat).

(** Attempts whose [try] block throws before the last one each sleep and
    hand over to the next attempt. *)
Lemma attempt_loop_rejected_prefix :
  forall (j a : nat) rest last c,
    (a + j <= final)%nat ->
    api_calls (history c) = (base + a)%nat ->
    (forall k, (a <= k < a + j)%nat ->
       try_block (openai c (base + k)%nat (model c) text) = Rejected (e k)) ->
    exists last',
      attempt_loop (Z.of_nat final) text ((Z.of_nat <$> seq a j) ++ rest) last c
      = attempt_loop (Z.of_nat final) text rest last'
          (with_history c
             (history c ++ retry_events (model c) text (retryDelay c) a j)).
Proof.
  induction j as [|j IH]; intros a rest last c Ha Hn Hrej.
  - exists last. simpl. unfold retry_events. simpl. rewrite app_nil_r.
    by destruct c.
  - change ((Z.of_nat <$> seq a (S j)) ++ rest)
      with (Z.of_nat a :: ((Z.of_nat <$> seq (S a) j) ++ rest)).
    cbn [attempt_loop]. unfold embeddings_create. rewrite Hn, Hrej by lia.
    destruct (Z.eqb_spec (Z.of_nat a) (Z.of_nat final)) as [?|_]; [lia|].
    destruct (Z.ltb_spec (Z.of_nat a) (Z.of_nat final)) as [_|?]; [|lia].
    edestruct (IH (S a) rest (Some (extractErrorMessage (e a)))
                 (record_event (record_event c (ApiCall (model c) text))
                    (Sleep (retryDelay c * 2 ^ Z.of_nat a))))
      as (last' & Heq).
    + lia.
    + unfold record_event. cbn [history with_history].
      rewrite !api_calls_app, Hn. unfold api_calls. simpl. lia.
    + intros k Hk. cbn. apply Hrej. lia.
    + exists last'.
      cbn [retryDelay record_event with_history] in *. rewrite Heq.
      unfold record_event. cbn [history with_history model retryDelay].
      f_equal. f_equal. unfold retry_events. simpl.
      rewrite <- !app_assoc. reflexivity.
Qed.

End Retry.

Lemma attempts_upto_split (eff : Z) (j : nat) :
  0 <= eff -> Z.of_nat j <= eff ->
  attempts_upto eff
  = (Z.of_nat <$> seq 0 j)
    ++ Z.of_nat j :: (Z.of_nat <$> seq (S j) (Z.to_nat eff - j)).
Proof.
  intros H0 Hj. unfold attempts_upto.
  replace (Z.to_nat (eff + 1)) with (j + S (Z.to_nat eff - j))%nat by lia.
  rewrite seq_app, fmap_app. reflexivity.
Qed.

(** A run in which the [try] block of the first [j] attempts throws
    arrives at attempt [j]. *)
Lemma generateEmbedding_reaches (c : OpenAIEmbeddingClient) (text : string)
    (e : nat -> thrown) (j : nat) :
  Z.of_nat j <= Z.max 0 (maxRetries c) ->
  (forall k, (k < j)%nat ->
     try_block (openai c (api_calls (history c) + k)%nat (model c) text)
     = Rejected (e k)) ->
  exists last rest,
    OpenAI_generateEmbedding c text
    = attempt_loop (Z.max 0 (maxRetries c)) text (Z.of_nat j :: rest) last
        (with_history c
           (history c ++ retry_events (model c) text (retryDelay c) 0 j)).
Proof.
  intros Hj Hrej. unfold OpenAI_generateEmbedding.
  set (eff := Z.max 0 (maxRetries c)) in *.
  rewrite (attempts_upto_split eff j) by lia.
  destruct (attempt_loop_rejected_prefix (Z.to_nat eff) text e
              (api_calls (history c)) j 0
              (Z.of_nat j :: (Z.of_nat <$> seq (S j) (Z.to_nat eff - j)))
              None c) as (last' & Heq); [lia|lia| |].
  - intros k Hk. apply Hrej. lia.
  - rewrite Z2Nat.id in Heq by lia. eauto.
Qed.

(** When the [try] block of every attempt throws, the run makes all the
    attempts and reports the last error. *)
Lemma generateEmbedding_all_rejected
    (c : OpenAIEmbeddingClient) (text : string) (e : nat -> thrown) :
  let eff := Z.max 0 (maxRetries c) in
  (forall k, (k <= Z.to_nat eff)%nat ->
     try_block (openai c (api_calls (history c) + k)%nat (model c) text)
     = Rejected (e k)) ->
  OpenAI_generateEmbedding c text
  = (failure (exhausted_message eff (extractErrorMessage (e (Z.to_nat eff)))),
     with_history c
       (history c
        ++ backoff_events (model c) text (retryDelay c) (Z.to_nat eff))).
Proof.
  intros eff Hrej.
  destruct (generateEmbedding_reaches c text e (Z.to_nat eff))
    as (last & rest & ->).
  { lia. } { intros k Hk. apply Hrej. lia. }
  cbn [attempt_loop]. unfold embeddings_create. cbn [history with_history].
  rewrite api_calls_app, api_calls_retry_events.
  cbn [openai model with_history]. rewrite Hrej by lia.
  fold eff. rewrite Z2Nat.id by lia.
  rewrite Z.eqb_refl. unfold record_event, backoff_events.
  cbn [history with_history model]. by rewrite <- app_assoc.
Qed.

(** A call that the API rejects is an attempt whose [try] block throws. *)
Lemma rejected_calls_throw (c : OpenAIEmbeddingClient) (text : string)
    (e : nat -> thrown) (P : nat -> Prop) :
  (forall k, P k ->
     openai c (api_calls (history c) + k)%nat (model c) text = Rejected (e k)) ->
  forall k, P k ->
    try_block (openai c (api_calls (history c) + k)%nat (model c) text)
    = Rejected (e k).
Proof. intros Hrej k Hk. by rewrite Hrej. Qed.

Lemma attempt_loop_calls_mono (eff : Z) (text : string) :
  forall attempts last c,
    (api_calls (history c)
     <= api_calls (history (attempt_loop eff text attempts last c).2))%nat.
Proof.
  induction attempts as [|attempt rest IH]; intros last c; [done|].
  cbn [attempt_loop]. unfold embeddings_create.
  assert (Hstep : (api_calls (history c)
            <= api_calls (history (record_event c (ApiCall (model c) text))))%nat).
  { unfold record_event. cbn [history with_history]. rewrite api_calls_app. lia. }
  destruct (try_block (openai c _ _ _)) as [result|error]; [done|].
  - destruct (attempt =? eff); [done|].
    etrans; [exact Hstep|]. etrans; [|apply IH].
    destruct (attempt <? eff); [|done].
    unfold record_event. cbn [history with_history].
    rewrite !api_calls_app. lia.
Qed.

Lemma attempt_loop_calls_once (eff : Z) (text : string) attempt rest last c :
  (api_calls (history c)
   < api_calls (history (attempt_loop eff text (attempt :: rest) last c).2))%nat.
Proof.
  cbn [attempt_loop]. unfold embeddings_create.
  assert (Hstep : (api_calls (history c)
            < api_calls (history (record_event c (ApiCall (model c) text))))%nat).
  { unfold record_event. cbn [history with_history]. rewrite api_calls_app.
    unfold api_calls at 3. simpl. lia. }
  destruct (try_block (openai c _ _ _)) as [result|error]; [done|].
  - destruct (attempt =? eff); [done|].
    eapply Nat.lt_le_trans; [exact Hstep|].
    etrans; [|apply attempt_loop_calls_mono].
    destruct (attempt <? eff); [|done].
    unfold record_event. cbn [history with_history].
    rewrite !api_calls_app. lia.
Qed.

(** C7: with a configured maximum of m >= 0 additional attempts and base
    delay b, a run of generateEmbedding in which every attempt is rejected
    makes exactly m+1 attempts, sleeps b * 2^k between attempt k and attempt
    k+1 for k = 0..m-1 and at no other time, and resolves to a failure whose
    message gives the count m+1 and the message of the last error. *)
Theorem generateEmbedding_all_attempts_fail
    (c : OpenAIEmbeddingClient) (text : string) (e : nat -> thrown) :
  0 <= maxRetries c ->
  (forall k, (k <= Z.to_nat (maxRetries c))%nat ->
     openai c (api_calls (history c) + k)%nat (model c) text = Rejected (e k)) ->
  let m := Z.to_nat (maxRetries c) in
  let '(r, c') := OpenAI_generateEmbedding c text in
  history c'
  = history c
    ++ flat_map (fun k => [ApiCall (model c) text;
                           Sleep (retryDelay c * 2 ^ Z.of_nat k)]) (seq 0 m)
    ++ [ApiCall (model c) text]
  /\ api_calls (history c') = (api_calls (history c) + m + 1)%nat
  /\ r = failure ("Failed to generate embedding after "
                  +:+ pretty (maxRetries c + 1)
                  +:+ " attempts. Last error: "
                  +:+ extractErrorMessage (e m)).
Proof.
  intros Hm Hrej m.
  rewrite (generateEmbedding_all_rejected c text e);
    replace (Z.max 0 (maxRetries c)) with (maxRetries c) by lia;
    [|by apply (rejected_calls_throw c text e
                  (fun k => (k <= Z.to_nat (maxRetries c))%nat))].
  fold m. cbn [history with_history]. repeat split.
  rewrite api_calls_app, api_calls_backoff_events. lia.
Qed.

Lemma generateEmbedding_all_attempts_fail_witness :
  let c := test_client (failing_api "Server error") 2 100 in
  let mdl := "text-embedding-3-small" in
  let run := OpenAI_generateEmbedding c "test text for embedding" in
  0 <= maxRetries c
  /\ history run.2
     = [ApiCall mdl "test text for embedding"; Sleep 100;
        ApiCall mdl "test text for embedding"; Sleep 200;
        ApiCall mdl "test text for embedding"]
  /\ run.1 = failure "Failed to generate embedding after 3 attempts. Last error: Server error".
Proof.
  intros c mdl run.
  assert (H0 : 0 <= maxRetries c) by (vm_compute; congruence).
  pose proof (generateEmbedding_all_attempts_fail c "test text for embedding"
                (fun _ => ErrorInstance "Server error") H0
                (fun k _ => eq_refl)) as H.
  subst run. destruct (OpenAI_generateEmbedding c _) as [r c'].
  destruct H as (Hh & _ & Hr). cbn [fst snd].
  split; [exact H0|]. split; [rewrite Hh; reflexivity | rewrite Hr; reflexivity].
Defined.

(** C8, as the code has it: when the provider answers an attempt of
    generateEmbedding with a result list that carries no vector (an empty
    data list, or a first item without embedding), the call resolves to a
    failure on that attempt: the request of that attempt is the last
    event of the run, whatever number of retries is left and whatever
    made the earlier attempts fail. *)
Theorem generateEmbedding_no_vector_data_is_final
    (c : OpenAIEmbeddingClient) (text : string) (e : nat -> thrown)
    (j : nat) (response : CreateEmbeddingResponse)
    (items : list EmbeddingItem) :
  Z.of_nat j <= Z.max 0 (maxRetries c) ->
  (forall k, (k < j)%nat ->
     try_block (openai c (api_calls (history c) + k)%nat (model c) text)
     = Rejected (e k)) ->
  openai c (api_calls (history c) + j)%nat (model c) text = Resolved response ->
  data response = DataArray items ->
  head items ≫= item_embedding = None ->
  OpenAI_generateEmbedding c text
  = (failure "Invalid embedding response format from OpenAI API",
     with_history c
       (history c
        ++ flat_map (fun k => [ApiCall (model c) text;
                               Sleep (retryDelay c * 2 ^ Z.of_nat k)]) (seq 0 j)
        ++ [ApiCall (model c) text])).
Proof.
  intros Hj Hrej Hres Hdata Hnone.
  destruct (generateEmbedding_reaches c text e j Hj Hrej) as (last & rest & ->).
  cbn [attempt_loop]. unfold embeddings_create. cbn [history with_history].
  rewrite api_calls_app, api_calls_retry_events.
  cbn [openai model with_history]. rewrite Hres.
  cbn [try_block]. unfold read_response. rewrite Hdata, Hnone.
  unfold record_event, retry_events. cbn [history with_history model].
  by rewrite <- app_assoc.
Qed.

Lemma generateEmbedding_no_vector_data_is_final_witness :
  let c := test_client empty_api 3 1000 in
  OpenAI_generateEmbedding c "test text for embedding"
  = (failure "Invalid embedding response format from OpenAI API",
     with_history c
       [ApiCall "text-embedding-3-small" "test text for embedding"]).
Proof.
  intros c.
  apply (generateEmbedding_no_vector_data_is_final c "test text for embedding"
           (fun _ => OtherValue) 0 {| data := DataArray [] |} []).
  - vm_compute. congruence.
  - intros k Hk. lia.
  - reflexivity.
  - reflexivity.
  - reflexivity.
Defined.

(** C8, as the specification states it, fails: a response that has no
    [data] property carries no vector data, and the client does not end
    on it.  Reading [response.data[0]] throws inside [try], the [catch]
    sleeps and the next attempt runs, until the attempts are used up. *)
Lemma generateEmbedding_retries_response_without_data :
  let c := test_client no_data_api 2 100 in
  let mdl := "text-embedding-3-small" in
  let run := OpenAI_generateEmbedding c "test text for embedding" in
  openai c 0%nat mdl "test text for embedding"
  = Resolved {| data := DataUndefined |}
  /\ history run.2
     = [ApiCall mdl "test text for embedding"; Sleep 100;
        ApiCall mdl "test text for embedding"; Sleep 200;
        ApiCall mdl "test text for embedding"]
  /\ run.1
     = failure "Failed to generate embedding after 3 attempts. Last error: Cannot read properties of undefined (reading '0')"
  /\ history run.2 <> [ApiCall mdl "test text for embedding"].
Proof.
  intros c mdl run. split; [reflexivity|].
  split; [vm_compute; reflexivity|]. split; [vm_compute; reflexivity|].
  vm_compute. discriminate.
Qed.

(** C10: generateEmbedding uses max(0, maxRetries) as its retry budget,
    also for a negative maxRetries: every run makes at least one attempt,
    and a run in which every attempt is rejected makes exactly
    max(0, maxRetries) + 1 attempts and reports that count in its failure
    message. *)
Theorem generateEmbedding_clamps_maxRetries
    (c : OpenAIEmbeddingClient) (text : string) :
  let eff := Z.max 0 (maxRetries c) in
  let '(r, c') := OpenAI_generateEmbedding c text in
  (api_calls (history c) < api_calls (history c'))%nat
  /\ forall e : nat -> thrown,
       (forall k, (k <= Z.to_nat eff)%nat ->
          openai c (api_calls (history c) + k)%nat (model c) text
          = Rejected (e k)) ->
       api_calls (history c')
       = (api_calls (history c) + Z.to_nat eff + 1)%nat
       /\ error r = Some ("Failed to generate embedding after "
                          +:+ pretty (eff + 1)
                          +:+ " attempts. Last error: "
                          +:+ extractErrorMessage (e (Z.to_nat eff))).
Proof.
  intros eff.
  destruct (OpenAI_generateEmbedding c text) as [r c'] eqn:Hrun. split.
  - replace c' with (OpenAI_generateEmbedding c text).2 by (by rewrite Hrun).
    unfold OpenAI_generateEmbedding. fold eff.
    rewrite (attempts_upto_split eff 0) by lia.
    apply attempt_loop_calls_once.
  - intros e Hrej.
    rewrite (generateEmbedding_all_rejected c text e
               (rejected_calls_throw c text e _ Hrej)) in Hrun.
    injection Hrun as <- <-. cbn [history with_history error failure].
    split; [|done].
    rewrite api_calls_app, api_calls_backoff_events. lia.
Qed.

Lemma generateEmbedding_clamps_maxRetries_witness :
  let c := test_client (failing_api "Invalid input") (-1) 10 in
  let run := OpenAI_generateEmbedding c "test text for embedding" in
  api_calls (history run.2) = 1%nat
  /\ error run.1
     = Some "Failed to generate embedding after 1 attempts. Last error: Invalid input".
Proof.
  intros c run.
  pose proof (generateEmbedding_clamps_maxRetries c "test text for embedding")
    as H.
  subst run. destruct (OpenAI_generateEmbedding c _) as [r c'].
  destruct H as [_ H].
  destruct (H (fun _ => ErrorInstance "Invalid input") (fun k _ => eq_refl))
    as [Hcalls Herr].
  cbn [fst snd]. split; [rewrite Hcalls; reflexivity | rewrite Herr; reflexivity].
Defined.

(** ** The repositories *)

Lemma foldr_max_ge (ids : list Z) (x : Z) : x ∈ ids -> x <= foldr Z.max 0 ids.
Proof. induction 1 as [x ids|x y ids _ IH]; simpl; lia. Qed.

Lemma find_app_last {A} (p : A -> bool) (rows : list A) (new : A) :
  (forall r, r ∈ rows -> p r = false) -> p new = true ->
  List.find p (rows ++ [new]) = Some new.
Proof.
  intros Hold Hnew. induction rows as [|r rows IH]; simpl.
  - by rewrite Hnew.
  - rewrite Hold by left. apply IH. intros r' Hin. apply Hold. by right.
Qed.

(** The row that an INSERT has just appended is the one its rowid finds. *)
Lemma find_new_row {A} (key : A -> Z) (rows : list A) (new : A) (sequence : Z) :
  key new = next_rowid sequence (key <$> rows) ->
  List.find (fun r => key r =? next_rowid sequence (key <$> rows))
    (rows ++ [new]) = Some new.
Proof.
  intros Hkey. apply find_app_last; [|by apply Z.eqb_eq].
  intros r Hin. apply Z.eqb_neq. unfold next_rowid.
  pose proof (foldr_max_ge (key <$> rows) (key r)
                (list_elem_of_fmap_2 key _ _ Hin)). lia.
Qed.

Section Repositories.

Context {L E : Type} `{!LLMClient L} `{!EmbeddingClient E}.
Implicit Types (w : world L E) (d : database).

Lemma execute_fault {A} s (apply : database -> database * A) w msg :
  store_fault (db w) s = Some msg ->
  execute s apply w
  = (Rejected (ErrorInstance msg), with_db w (log_statement (db w) s)).
Proof.
  intros H. unfold execute. cbn [store_fault log_statement]. by rewrite H.
Qed.

Lemma execute_ok {A} s (apply : database -> database * A) w :
  store_fault (db w) s = None ->
  execute s apply w
  = (Resolved (apply (log_statement (db w) s)).2,
     with_db w (apply (log_statement (db w) s)).1).
Proof.
  intros H. unfold execute. cbn [store_fault log_statement]. rewrite H.
  by destruct (apply _).
Qed.

Lemma createInstruction_ok w instruction context :
  store_fault (db w) InsertInstruction = None ->
  store_fault (db w) SelectInstructionById = None ->
  exists (created : UserInstruction.t) w',
    createInstruction instruction context w = (Resolved (Some created), w')
    /\ user_instructions_table (db w')
       = user_instructions_table (db w)
         ++ [{| user_instructions.id := UserInstruction.id created;
                user_instructions.instruction := instruction;
                user_instructions.context := context;
                user_instructions.inserted_at := CURRENT_TIMESTAMP (db w);
                user_instructions.rule_id := None |}]
    /\ rules_table (db w') = rules_table (db w)
    /\ store_fault (db w') = store_fault (db w)
    /\ embeddingClient w' = embeddingClient w.
Proof.
  intros Hins Hsel. unfold createInstruction, findInstructionById. unfold_M.
  rewrite execute_ok by done. cbn [fst snd insert_user_instruction].
  rewrite execute_ok by done. cbn [fst snd].
  cbn [db with_db log_statement with_tables user_instructions_table
       sequence_user_instructions rules_table CURRENT_TIMESTAMP].
  rewrite (find_new_row user_instructions.id) by reflexivity.
  eexists _, _. split; [reflexivity|]. by repeat split.
Qed.

Lemma createRule_fails w ruleText category context createdFromInstructionId :
  embedding_fails (generateEmbedding (embeddingClient w) ruleText).1
  \/ is_Some (store_fault (db w) InsertRule) ->
  exists e w',
    createRule ruleText category context createdFromInstructionId w
    = (Rejected e, w')
    /\ user_instructions_table (db w') = user_instructions_table (db w)
    /\ rules_table (db w') = rules_table (db w).
Proof.
  intros Hfail. unfold createRule, call_generateEmbedding. unfold_M.
  destruct (generateEmbedding _ _) as [[r|e] e'].
  - destruct (success r) eqn:Hs, (embedding r) as [v|] eqn:Hv;
      try by eexists _, _.
    destruct Hfail as [[?|?]|[msg Hmsg]]; [congruence..|].
    erewrite execute_fault by exact Hmsg. by eexists _, _.
  - by eexists _, _.
Qed.

(** C1: when the Embedding Generator returns a failure, createRule
    rejects with an Error whose message wraps the generator's error, and
    the database is left as it was: no statement is run and the rule
    table has as many rows as before. *)
Theorem createRule_embedding_failure w ruleText category context
    createdFromInstructionId (r : EmbeddingResult) (e' : E) :
  generateEmbedding (embeddingClient w) ruleText = (Resolved r, e') ->
  success r = false ->
  exists w',
    createRule ruleText category context createdFromInstructionId w
    = (Rejected (ErrorInstance ("Failed to generate embedding: "
                                +:+ template_undefined (error r))), w')
    /\ db w' = db w
    /\ length (rules_table (db w')) = length (rules_table (db w)).
Proof.
  intros Hgen Hfail. eexists. unfold createRule, call_generateEmbedding.
  unfold_M. rewrite Hgen, Hfail. split; [reflexivity|]. by split.
Qed.

(** C4, as the code has it: a createRule call that succeeds returns a
    Rule with the id of the one row it appends to the rule table, an id
    that no older row has, the rule text, category, context and
    instruction id it was given, instructions_count 1 and the defaults
    of the other columns; the Rule has no embedding property. *)
Theorem createRule_returns_rule_without_embedding
    w ruleText category context createdFromInstructionId o w' :
  createRule ruleText category context createdFromInstructionId w
  = (Resolved o, w') ->
  exists (rule : Rule.t) (stored : rules.row),
    o = Some rule
    /\ Rule.rule_text rule = ruleText
    /\ Rule.category rule = category
    /\ Rule.context rule = context
    /\ Rule.created_from_instruction_id rule = Some createdFromInstructionId
    /\ Rule.instructions_count rule = 1
    /\ Rule.relevance_score rule = Some 1%Q
    /\ Rule.last_applied rule = None
    /\ Rule.inserted_at rule = CURRENT_TIMESTAMP (db w)
    /\ Rule_properties rule !! "embedding" = None
    /\ rules_table (db w') = rules_table (db w) ++ [stored]
    /\ rules.id stored = Rule.id rule
    /\ (forall old, old ∈ rules_table (db w) -> rules.id old < Rule.id rule).
Proof.
  unfold createRule, call_generateEmbedding, findRuleById. unfold_M.
  destruct (generateEmbedding _ _) as [[r|e] e'] eqn:Hgen; [|done].
  destruct (success r), (embedding r) as [v|] eqn:Hv; try done.
  unfold execute at 1. cbn [db with_db store_fault log_statement].
  destruct (store_fault (db w) InsertRule); [done|].
  cbn [insert_rule]. unfold execute.
  cbn [db with_db store_fault log_statement with_tables rules_table
       sequence_rules].
  destruct (store_fault (db w) SelectRuleById); [done|].
  rewrite (find_new_row rules.id) by reflexivity.
  intros [= <- <-]. eexists _, _. split; [reflexivity|].
  cbn. repeat split; try done.
  intros old Hold. unfold next_rowid.
  pose proof (foldr_max_ge (rules.id <$> rules_table (db w)) (rules.id old)
                (list_elem_of_fmap_2 rules.id _ _ Hold)). lia.
Qed.

End Repositories.

Lemma createRule_embedding_failure_witness :
  let w := new_world (test_database [] no_fault)
             (mock_llm (generalizable "Use TypeScript for new files" "style"))
             createFailingMockEmbeddingClient in
  exists w',
    createRule "Use TypeScript for new files" "style" "writing unit tests" 1 w
    = (Rejected (ErrorInstance
         "Failed to generate embedding: Mock embedding generation failed"), w')
    /\ rules_table (db w') = []
    /\ executed (db w') = [].
Proof.
  intros w.
  destruct (createRule_embedding_failure w "Use TypeScript for new files"
              "style" "writing unit tests" 1
              (Mock_generateEmbedding createFailingMockEmbeddingClient
                 "Use TypeScript for new files").1
              (Mock_generateEmbedding createFailingMockEmbeddingClient
                 "Use TypeScript for new files").2
              eq_refl eq_refl) as (w' & Heq & Hdb & _).
  exists w'. split; [exact Heq|]. rewrite Hdb. split; reflexivity.
Defined.

(** C4, as the specification states it, fails: with the mock generator and
    its 1536-element vector, createRule succeeds and the Rule it returns
    has no embedding property. *)
Lemma createRule_result_has_no_embedding :
  let w := new_world (test_database [] no_fault)
             (mock_llm (generalizable "Use TypeScript for new files" "style"))
             (createSuccessfulMockEmbeddingClient None) in
  exists rule w',
    createRule "Use TypeScript for new files" "style" "writing unit tests" 1 w
    = (Resolved (Some rule), w')
    /\ Rule_properties rule !! "embedding" = None
    /\ ~ (exists v, Rule_properties rule !! "embedding" = Some (SqlBlob v)
                    /\ length v = 1536%nat).
Proof.
  intros w. eexists _, _. split; [vm_compute; reflexivity|].
  split; [reflexivity|]. intros (v & Hv & _). discriminate Hv.
Qed.

Lemma createRule_returns_rule_without_embedding_witness :
  let w := new_world (test_database [] no_fault)
             (mock_llm (generalizable "Use TypeScript for new files" "style"))
             (createSuccessfulMockEmbeddingClient (Some [0.5; 0.5; 0.5]%Q)) in
  exists rule stored w',
    createRule "Use TypeScript for new files" "style" "writing unit tests" 1 w
    = (Resolved (Some rule), w')
    /\ Rule.rule_text rule = "Use TypeScript for new files"
    /\ Rule.instructions_count rule = 1
    /\ Rule_properties rule !! "embedding" = None
    /\ rules_table (db w') = [stored]
    /\ rules.id stored = Rule.id rule.
Proof.
  intros w.
  assert (exists o w',
            createRule "Use TypeScript for new files" "style"
              "writing unit tests" 1 w = (Resolved o, w'))
    as (o & w' & Hrun) by (eexists _, _; vm_compute; reflexivity).
  destruct (createRule_returns_rule_without_embedding w _ _ _ _ _ _ Hrun)
    as (rule & stored & -> & Htext & _ & _ & _ & Hcount & _ & _ & _
        & Hprop & Htable & Hid & _).
  exists rule, stored, w'. split; [exact Hrun|].
  by repeat split.
Defined.

(** ** The intake pipeline *)

Section Intake.

Context {L E : Type} `{!LLMClient L} `{!EmbeddingClient E}.
Implicit Types (w : world L E).

(** A classification without a rule ends the pipeline before any store
    is touched; the text that is returned is built from [error]. *)
Lemma remember_without_rule w instruction context
    (r : RuleGenerationResult.t) (l' : L) :
  generateRule (llmClient w) instruction context = (Resolved r, l') ->
  RuleGenerationResult.rule r = None ->
  exists w',
    rememberDeveloperInstructionHandler instruction context w
    = (Resolved (text_result
                   ("Failed to generate abstract rule: "
                    +:+ template_null (RuleGenerationResult.error r))), w')
    /\ db w' = db w.
Proof.
  intros Hgen Hrule. eexists.
  unfold rememberDeveloperInstructionHandler, call_generateRule. unfold_M.
  rewrite Hgen, Hrule. by destruct (RuleGenerationResult.success r).
Qed.

(** C5: when the classifier yields a rule, the instruction row is
    created, and rule creation then fails because the Embedding Generator
    fails or the INSERT into the rule table is refused, the handler
    returns the failure text of that step, the instruction row stays in
    the store with rule_id unset, and the rule table is as it was. *)
Theorem remember_keeps_instruction_when_rule_creation_fails
    w instruction context (r : RuleGenerationResult.t)
    (rule : RuleGenerationResult.rule_t) (l' : L) :
  generateRule (llmClient w) instruction context = (Resolved r, l') ->
  RuleGenerationResult.success r = true ->
  RuleGenerationResult.rule r = Some rule ->
  store_fault (db w) InsertInstruction = None ->
  store_fault (db w) SelectInstructionById = None ->
  embedding_fails
    (generateEmbedding (embeddingClient w)
       (RuleGenerationResult.rule_text rule)).1
  \/ is_Some (store_fault (db w) InsertRule) ->
  exists msg instruction_id w',
    rememberDeveloperInstructionHandler instruction context w
    = (Resolved (text_result ("Failed to create rule with embedding: "
                              +:+ msg)), w')
    /\ user_instructions_table (db w')
       = user_instructions_table (db w)
         ++ [{| user_instructions.id := instruction_id;
                user_instructions.instruction := instruction;
                user_instructions.context := context;
                user_instructions.inserted_at := CURRENT_TIMESTAMP (db w);
                user_instructions.rule_id := None |}]
    /\ rules_table (db w') = rules_table (db w).
Proof.
  intros Hgen Hs Hr Hins Hsel Hfail.
  unfold rememberDeveloperInstructionHandler, call_generateRule. unfold_M.
  rewrite Hgen, Hs, Hr.
  set (w1 := {| db := db w; llmClient := l';
                embeddingClient := embeddingClient w;
                calls := calls w ++ [GenerateRuleCall instruction context] |}).
  destruct (createInstruction_ok w1 instruction context Hins Hsel)
    as (created & w2 & -> & Hui & Hrules & Hfault & Hemb).
  destruct (createRule_fails w2 (RuleGenerationResult.rule_text rule)
              (RuleGenerationResult.category rule) context
              (UserInstruction.id created))
    as (e & w3 & Hcr & Hui3 & Hrules3).
  { by rewrite Hemb, Hfault. }
  cbv beta iota. unfold_M. rewrite Hcr.
  eexists _, _, _. split; [reflexivity|].
  rewrite Hui3, Hrules3, Hui, Hrules. done.
Qed.

Lemma text_or_throws_mret t :
  text_or_throws (mret (text_result t) : M L E ToolResult).
Proof. intros w. left. by eexists _, _. Qed.

Lemma text_or_throws_bind {A} (m : M L E A) (k : A -> M L E ToolResult) :
  (forall a, text_or_throws (k a)) -> text_or_throws (m ≫= k).
Proof.
  intros Hk w. unfold_M. destruct (m w) as [[a|e] w']; [apply Hk|].
  right. by eexists _, _.
Qed.

Lemma returns_text_weaken (m : M L E ToolResult) :
  returns_text m -> text_or_throws m.
Proof. intros H w. left. apply H. Qed.

(** A [catch] that returns a text turns every outcome of its [try] into a
    text result. *)
Lemma returns_text_try_catch (body : M L E ToolResult)
    (label : thrown -> string) :
  text_or_throws body ->
  returns_text (try_catch body (fun e => mret (text_result (label e)))).
Proof.
  intros Hbody w. unfold_M.
  destruct (Hbody w) as [(t & w' & ->)|(e & w' & ->)]; by eexists _, _.
Qed.

Lemma text_or_throws_try_or_return {A} (body : M L E A)
    (label : thrown -> string) (rest : A -> M L E ToolResult) :
  (forall a, text_or_throws (rest a)) ->
  text_or_throws (try_or_return body (fun e => text_result (label e)) rest).
Proof.
  intros Hrest w. unfold_M. destruct (body w) as [[a|e] w']; [apply Hrest|].
  left. by eexists _, _.
Qed.

Lemma rememberDeveloperInstructionHandler_total instruction context :
  returns_text (rememberDeveloperInstructionHandler instruction context).
Proof.
  apply returns_text_try_catch, text_or_throws_bind. intros r.
  destruct (RuleGenerationResult.success r), (RuleGenerationResult.rule r);
    try apply text_or_throws_mret.
  apply text_or_throws_try_or_return. intros createdInstruction.
  apply returns_text_weaken, returns_text_try_catch.
  repeat (apply text_or_throws_bind; intros ?). apply text_or_throws_mret.
Qed.

Lemma remember_classifier_throws w instruction context e l' :
  generateRule (llmClient w) instruction context = (Rejected e, l') ->
  (rememberDeveloperInstructionHandler instruction context w).1
  = Resolved (text_result ("Unexpected error: " +:+ message_or_unknown e)).
Proof.
  intros Hgen.
  unfold rememberDeveloperInstructionHandler, call_generateRule. unfold_M.
  by rewrite Hgen.
Qed.

End Intake.

(** C2, on the scenario of the specification: for the instruction "Move
    the button 3 px right", judged not generalizable with a reason, the
    handler writes nothing to either table, but the text it returns is the
    failure text of the classification step with "null" in the place of the
    error, and neither the reason nor a notice that no rule was generated. *)
Theorem remember_not_generalizable_reports_failure :
  let w := new_world (test_database [] no_fault)
             (mock_llm (not_generalizable "Too specific: pixel-level adjustment"))
             (createSuccessfulMockEmbeddingClient None) in
  exists w',
    rememberDeveloperInstructionHandler "Move the button 3 px right" "UI tweak" w
    = (Resolved (text_result "Failed to generate abstract rule: null"), w')
    /\ db w' = db w.
Proof.
  intros w.
  destruct (remember_without_rule w "Move the button 3 px right" "UI tweak"
              (not_generalizable "Too specific: pixel-level adjustment")
              (llmClient w) eq_refl eq_refl) as (w' & Heq & Hdb).
  by exists w'.
Qed.

Lemma remember_keeps_instruction_when_rule_creation_fails_witness :
  let w := new_world (test_database [] no_fault)
             (mock_llm (generalizable "Test rule" "testing"))
             createFailingMockEmbeddingClient in
  exists w',
    rememberDeveloperInstructionHandler "This should fail"
      "Testing embedding failure" w
    = (Resolved (text_result
         "Failed to create rule with embedding: Failed to generate embedding: Mock embedding generation failed"),
       w')
    /\ (exists row, user_instructions_table (db w')
                    = user_instructions_table (db w) ++ [row]
                    /\ user_instructions.instruction row = "This should fail"
                    /\ user_instructions.rule_id row = None)
    /\ rules_table (db w') = [].
Proof.
  intros w.
  destruct (remember_keeps_instruction_when_rule_creation_fails w
              "This should fail" "Testing embedding failure"
              (generalizable "Test rule" "testing")
              {| RuleGenerationResult.rule_text := "Test rule";
                 RuleGenerationResult.category := "testing" |}
              (llmClient w) eq_refl eq_refl eq_refl eq_refl eq_refl)
    as (msg & instruction_id & w' & Heq & Hui & Hrules).
  { left. vm_compute. by left. }
  exists w'. split; [|split; [by eexists|exact Hrules]].
  assert (Hrun : (rememberDeveloperInstructionHandler "This should fail"
                    "Testing embedding failure" w).1
                 = Resolved (text_result
                      "Failed to create rule with embedding: Failed to generate embedding: Mock embedding generation failed"))
    by (vm_compute; reflexivity).
  rewrite Heq in Hrun |- *. cbn [fst] in Hrun. by rewrite Hrun.
Defined.

(** ** Retrieval *)

Section Retrieval.

Context {L E : Type} `{!LLMClient L} `{!EmbeddingClient E}.
Implicit Types (w : world L E).
Variable vec_distance_cosine : vector -> vector -> Q.
Variable number_toString : Q -> string.
Variable number_toFixed : Q -> nat -> string.

(** C6: a request whose taskDescription is empty after trimming, whose
    maxResults is outside [1,100] or whose similarityThreshold is outside
    [-1,1] is answered with one of the three validation messages, and the
    world is left as it was: no call is made on the embedding client and
    no statement is run on the database. *)
Theorem getRelevantRulesHandler_validates_first w params :
  let maxResults := default 5 (maxResults params) in
  let similarityThreshold := default 0%Q (similarityThreshold params) in
  trim (taskDescription params) = ""
  \/ maxResults < 1 \/ 100 < maxResults
  \/ (similarityThreshold < -1)%Q \/ (1 < similarityThreshold)%Q ->
  exists msg w',
    getRelevantRulesHandler vec_distance_cosine number_toString
      number_toFixed params w
    = (Resolved (text_result msg), w')
    /\ msg ∈ ["Error: taskDescription cannot be empty";
              "Error: maxResults must be between 1 and 100";
              "Error: similarityThreshold must be between -1 and 1"]
    /\ w' = w
    /\ calls w' = calls w
    /\ embeddingClient w' = embeddingClient w
    /\ executed (db w') = executed (db w).
Proof.
  intros maxResults similarityThreshold Hbad.
  unfold getRelevantRulesHandler. unfold_M. cbv zeta.
  fold maxResults similarityThreshold.
  destruct (String.eqb_spec (trim (taskDescription params)) "") as [_|Hne].
  { eexists _, _. split; [reflexivity|]. split; [by repeat constructor|done]. }
  destruct ((maxResults <? 1) || (100 <? maxResults)) eqn:Hmax.
  { eexists _, _. split; [reflexivity|]. split; [by repeat constructor|done]. }
  destruct (negb (Qle_bool (-1) similarityThreshold)
            || negb (Qle_bool similarityThreshold 1)) eqn:Hthr.
  { eexists _, _. split; [reflexivity|]. split; [by repeat constructor|done]. }
  exfalso. apply orb_false_elim in Hmax as [H1 H2], Hthr as [H3 H4].
  apply negb_false_iff, Qle_bool_iff in H3, H4.
  destruct Hbad as [?|[?|[?|[?|?]]]]; [done|lia|lia|..].
  - by apply (Qlt_not_le similarityThreshold (-1)%Q).
  - by apply (Qlt_not_le 1%Q similarityThreshold).
Qed.

Lemma getRelevantRulesHandler_total params :
  returns_text
    (getRelevantRulesHandler vec_distance_cosine number_toString
      number_toFixed params
     : M L E ToolResult).
Proof.
  apply returns_text_try_catch. cbv zeta.
  repeat (case_match; try apply text_or_throws_mret).
  apply text_or_throws_bind. intros r.
  repeat (case_match; try apply text_or_throws_mret).
  apply text_or_throws_bind. intros rs.
  case_match; apply text_or_throws_mret.
Qed.

Lemma getRelevantRules_generator_throws w params e e' :
  valid_params params ->
  generateEmbedding (embeddingClient w) (taskDescription params)
  = (Rejected e, e') ->
  (getRelevantRulesHandler vec_distance_cosine number_toString
      number_toFixed params w).1
  = Resolved (text_result ("Unexpected error: " +:+ message_or_unknown e)).
Proof.
  intros (Htask & Hmax & Hlo & Hhi) Hgen.
  unfold getRelevantRulesHandler, call_generateEmbedding. unfold_M. cbv zeta.
  destruct (String.eqb_spec (trim (taskDescription params)) ""); [done|].
  destruct (Z.ltb_spec (default 5 (maxResults params)) 1); [lia|].
  destruct (Z.ltb_spec 100 (default 5 (maxResults params))); [lia|].
  apply Qle_bool_iff in Hlo, Hhi. rewrite Hlo, Hhi. cbn [negb orb].
  by rewrite Hgen.
Qed.

(** C9: on every input and in every world, whatever the classifier, the
    embedding generator and the store do, each of the two handlers
    resolves to a text result and never rejects; an exception that
    reaches the outermost [catch], such as one thrown by the classifier
    or by the embedding generator, is returned as a text that starts
    with "Unexpected error: ". *)
Theorem handlers_never_throw w instruction context params :
  (exists t w',
     rememberDeveloperInstructionHandler instruction context w
     = (Resolved (text_result t), w')
     /\ forall e l',
          generateRule (llmClient w) instruction context = (Rejected e, l') ->
          t = "Unexpected error: " +:+ message_or_unknown e)
  /\ (exists t w',
        getRelevantRulesHandler vec_distance_cosine number_toString
      number_toFixed params w
        = (Resolved (text_result t), w')
        /\ forall e e',
             valid_params params ->
             generateEmbedding (embeddingClient w) (taskDescription params)
             = (Rejected e, e') ->
             t = "Unexpected error: " +:+ message_or_unknown e).
Proof.
  split.
  - destruct (rememberDeveloperInstructionHandler_total instruction context w)
      as (t & w' & Heq).
    exists t, w'. split; [exact Heq|]. intros e l' Hgen.
    pose proof (remember_classifier_throws w instruction context e l' Hgen)
      as Hrun.
    rewrite Heq in Hrun. by injection Hrun.
  - destruct (getRelevantRulesHandler_total params w) as (t & w' & Heq).
    exists t, w'. split; [exact Heq|]. intros e e' Hvalid Hgen.
    pose proof (getRelevantRules_generator_throws w params e e' Hvalid Hgen)
      as Hrun.
    rewrite Heq in Hrun. by injection Hrun.
Qed.

End Retrieval.

Lemma getRelevantRulesHandler_validates_first_witness :
  let w := new_world (test_database [test_rule 1 "Test rule" [1%Q]] no_fault)
             (mock_llm (generalizable "Test rule" "testing"))
             (createSuccessfulMockEmbeddingClient None) in
  let params := {| taskDescription := "  "; maxResults := None;
                   similarityThreshold := None |} in
  getRelevantRulesHandler unit_cosine_distance show_Q show_Q_fixed params w
  = (Resolved (text_result "Error: taskDescription cannot be empty"), w)
  /\ callCount (embeddingClient w) = 0.
Proof.
  intros w params.
  destruct (getRelevantRulesHandler_validates_first unit_cosine_distance
              show_Q show_Q_fixed w params (or_introl eq_refl))
    as (msg & w' & Heq & _ & -> & _).
  split; [|reflexivity].
  assert (Hrun : (getRelevantRulesHandler unit_cosine_distance show_Q
                    show_Q_fixed params w).1
                 = Resolved (text_result
                               "Error: taskDescription cannot be empty"))
    by (vm_compute; reflexivity).
  rewrite Heq in Hrun |- *. cbn [fst] in Hrun. by rewrite Hrun.
Defined.

Lemma handlers_never_throw_witness :
  let llm := {| llm_script := fun _ _ =>
                  Rejected (ErrorInstance "network down") |} in
  let emb := {| embedding_script := fun _ => Rejected OtherValue |} in
  let w := new_world (test_database [] no_fault) llm emb in
  let params := {| taskDescription := "write unit tests";
                   maxResults := Some 5; similarityThreshold := Some 0%Q |} in
  (exists w',
     rememberDeveloperInstructionHandler "Use TypeScript" "new files" w
     = (Resolved (text_result "Unexpected error: network down"), w'))
  /\ (exists w',
        getRelevantRulesHandler unit_cosine_distance show_Q show_Q_fixed
          params w
        = (Resolved (text_result "Unexpected error: Unknown error"), w')).
Proof.
  intros llm emb w params.
  destruct (handlers_never_throw unit_cosine_distance show_Q show_Q_fixed w
              "Use TypeScript" "new files" params)
    as [(t1 & w1 & Heq1 & Ht1) (t2 & w2 & Heq2 & Ht2)].
  split.
  - exists w1. rewrite Heq1. by rewrite (Ht1 _ _ eq_refl).
  - exists w2. rewrite Heq2. rewrite (Ht2 OtherValue emb); [done| |done].
    repeat split; vm_compute; congruence.
Defined.

(** ** Similarity search *)

Lemma insert_desc_perm x l : insert_desc x l ≡ₚ x :: l.
Proof.
  induction l as [|y l IH]; simpl; [done|].
  destruct (Qle_bool _ _); [done|]. rewrite IH. apply Permutation_swap.
Qed.

Lemma order_by_relevance_desc_perm l : order_by_relevance_desc l ≡ₚ l.
Proof.
  induction l as [|x l IH]; simpl; [done|]. by rewrite insert_desc_perm, IH.
Qed.

Lemma insert_desc_descending x l : descending l -> descending (insert_desc x l).
Proof.
  unfold descending. induction 1 as [|y l Hl IH Hy]; simpl.
  - by repeat constructor.
  - destruct (Qle_bool _ _) eqn:Hle.
    + apply Qle_bool_iff in Hle. constructor; [by constructor|].
      constructor; [done|]. eapply Forall_impl; [exact Hy|].
      intros z Hz. simpl in Hz.
      by apply Qle_trans with (RelevantRule.relevance_score y).
    + assert (Hxy : (RelevantRule.relevance_score x
                     <= RelevantRule.relevance_score y)%Q).
      { apply Qlt_le_weak, Qnot_le_lt. intros H%Qle_bool_iff. congruence. }
      constructor; [done|]. rewrite insert_desc_perm. by constructor.
Qed.

Lemma order_by_relevance_desc_descending l :
  descending (order_by_relevance_desc l).
Proof.
  induction l as [|x l IH]; simpl; [constructor|].
  by apply insert_desc_descending.
Qed.

Lemma descending_take n l : descending l -> descending (take n l).
Proof.
  unfold descending. intros H. rewrite <- (take_drop n l) in H.
  by apply StronglySorted_app_1_l in H.
Qed.

Lemma filter_sublist {A} (p : A -> bool) l : List.filter p l `sublist_of` l.
Proof.
  induction l as [|x l IH]; simpl; [constructor|].
  destruct (p x); by constructor.
Qed.

Lemma filter_Forall {A} (p : A -> bool) l :
  Forall (fun x => p x = true) (List.filter p l).
Proof.
  induction l as [|x l IH]; simpl; [constructor|].
  destruct (p x) eqn:Hp; [by constructor|done].
Qed.

Lemma filter_none {A} (p : A -> bool) l :
  Forall (fun x => p x = false) l -> List.filter p l = [].
Proof. induction 1 as [|x l Hx _ IH]; simpl; [done|]. by rewrite Hx. Qed.

(** The rows that qualify are the rows of the table whose score reaches the
    threshold. *)
Lemma sql_where_spec (vec_distance_cosine : vector -> vector -> Q)
    (query : vector) (threshold : Q) (rows : list rules.row) (row : rules.row) :
  row ∈ sql_where vec_distance_cosine query threshold rows
  <-> row ∈ rows /\ (threshold <= relevance vec_distance_cosine query row)%Q.
Proof.
  unfold sql_where.
  by rewrite !list_elem_of_In, List.filter_In, Qle_bool_iff.
Qed.

Section Similarity.

Context {L E : Type}.
Implicit Types (w : world L E).
Variable vec_distance_cosine : vector -> vector -> Q.

(** C3: for every query embedding, every limit >= 0 and every threshold,
    a findSimilarRules call that the store executes returns rules of the
    table, each once, each with its score 1 - cosine distance to the
    query and a score >= threshold, in descending order of score; their
    number is the smaller of limit and the number of rows that qualify;
    when no row qualifies, and so when the table is empty, the result is
    the empty sequence and not an error.  The query is taken the way the
    code binds it, [Buffer.from(embedding.buffer)]: these are the numbers
    of the query for every array that owns its buffer, which the arrays
    of both generators do.  The retrieval handler, the only caller,
    passes limits from 1 to 100. *)
Theorem findSimilarRules_ranked w query limit threshold :
  0 <= limit ->
  store_fault (db w) SelectSimilarRules = None ->
  exists results w',
    findSimilarRules vec_distance_cosine query limit threshold w
    = (Resolved results, w')
    /\ results
       ⊆+ (select_relevant_rule vec_distance_cosine
             (Float32Array.buffer query)
             <$> rules_table (db w))
    /\ Forall (fun r => (threshold <= RelevantRule.relevance_score r)%Q)
         results
    /\ descending results
    /\ length results
       = Nat.min (Z.to_nat limit)
           (length (sql_where vec_distance_cosine
                      (Float32Array.buffer query) threshold
                      (rules_table (db w))))
    /\ (Forall (fun row =>
                  ~ (threshold <= relevance vec_distance_cosine
                                    (Float32Array.buffer query) row)%Q)
          (rules_table (db w)) ->
        results = [])
    /\ rules_table (db w') = rules_table (db w).
Proof.
  intros Hlimit Hfault. unfold findSimilarRules. cbv zeta.
  rewrite execute_ok by done. cbn [fst snd log_statement rules_table].
  eexists _, _. split; [reflexivity|].
  unfold sql_limit. destruct (Z.ltb_spec limit 0) as [?|_]; [lia|].
  set (rows := rules_table (db w)).
  set (qualifying := sql_where vec_distance_cosine
                       (Float32Array.buffer query) threshold rows).
  set (projected := select_relevant_rule vec_distance_cosine
                      (Float32Array.buffer query)
                      <$> qualifying).
  assert (Hperm := order_by_relevance_desc_perm projected).
  repeat split.
  - etrans; [apply sublist_submseteq, sublist_take|].
    rewrite Hperm. apply sublist_submseteq, fmap_sublist, filter_sublist.
  - apply Forall_take. rewrite Hperm. apply Forall_fmap.
    eapply Forall_impl; [apply filter_Forall|].
    intros row Hrow. by apply Qle_bool_iff.
  - apply descending_take, order_by_relevance_desc_descending.
  - rewrite length_take, Hperm. unfold projected. by rewrite length_fmap.
  - intros Hnone. subst projected qualifying. unfold sql_where.
    rewrite filter_none; [by destruct (Z.to_nat limit)|].
    eapply Forall_impl; [exact Hnone|]. intros row Hrow.
    destruct (Qle_bool _ _) eqn:Hle; [|done].
    by apply Qle_bool_iff in Hle.
Qed.

End Similarity.

Lemma findSimilarRules_ranked_witness :
  let w := new_world (test_database three_rules no_fault)
             (mock_llm (generalizable "Test rule" "testing"))
             (createSuccessfulMockEmbeddingClient None) in
  exists results w',
    findSimilarRules unit_cosine_distance (new_Float32Array [1; 0]%Q) 2 0%Q w
    = (Resolved results, w')
    /\ RelevantRule.rule_text <$> results = ["Test rule 1"; "Test rule 2"]
    /\ length results = 2%nat
    /\ descending results.
Proof.
  intros w.
  assert (H0 : 0 <= 2) by lia.
  destruct (findSimilarRules_ranked unit_cosine_distance w
              (new_Float32Array [1; 0]%Q) 2 0%Q H0 eq_refl)
    as (results & w' & Heq & _ & _ & Hdesc & Hlen & _).
  exists results, w'. split; [exact Heq|].
  assert (Hrun : RelevantRule.rule_text
                   <$> match (findSimilarRules unit_cosine_distance
                                (new_Float32Array [1; 0]%Q) 2 0%Q w).1 with
                       | Resolved rs => rs
                       | Rejected _ => []
                       end
                 = ["Test rule 1"; "Test rule 2"])
    by (vm_compute; reflexivity).
  rewrite Heq in Hrun. cbn [fst] in Hrun.
  split; [exact Hrun|]. split; [|exact Hdesc].
  rewrite Hlen. reflexivity.
Defined.

(** * Further properties of the code *)

(** ** The retry loop of the rule classifier client *)

Lemma parse_calls_app h1 h2 :
  OpenAIClient.parse_calls (h1 ++ h2)
  = (OpenAIClient.parse_calls h1 + OpenAIClient.parse_calls h2)%nat.
Proof.
  unfold OpenAIClient.parse_calls. by rewrite List.filter_app, length_app.
Qed.

Lemma parse_calls_linear_retry_events mdl prompt b from n :
  OpenAIClient.parse_calls (linear_retry_events mdl prompt b from n) = n.
Proof.
  revert from. induction n as [|n IH]; intros from; [done|].
  specialize (IH (S from)).
  unfold OpenAIClient.parse_calls, linear_retry_events in *. simpl. lia.
Qed.

(** Attempts whose [try] block throws before the last attempt each wait
    and hand over to the next attempt. *)
Lemma generateRule_loop_rejected_prefix (prompt : string) (e : nat -> thrown)
    (base : nat) :
  forall (j a : nat) rest c,
    (Z.of_nat (a + j) <= OpenAIClient.maxRetries c)%Z ->
    (1 <= a)%nat ->
    OpenAIClient.parse_calls (OpenAIClient.history c) = (base + a - 1)%nat ->
    (forall k, (a <= k < a + j)%nat ->
       OpenAIClient.try_block
         (OpenAIClient.parse c (base + k - 1)%nat (OpenAIClient.model c) prompt)
       = Rejected (e k)) ->
    OpenAIClient.attempt_loop prompt ((Z.of_nat <$> seq a j) ++ rest) c
    = OpenAIClient.attempt_loop prompt rest
        (OpenAIClient.with_history c
           (OpenAIClient.history c
            ++ linear_retry_events (OpenAIClient.model c) prompt
                 (OpenAIClient.retryDelay c) a j)).
Proof.
  induction j as [|j IH]; intros a rest c Ha H1 Hn Hrej.
  - simpl. unfold linear_retry_events. simpl. rewrite app_nil_r. by destruct c.
  - change ((Z.of_nat <$> seq a (S j)) ++ rest)
      with (Z.of_nat a :: ((Z.of_nat <$> seq (S a) j) ++ rest)).
    cbn [OpenAIClient.attempt_loop]. unfold OpenAIClient.completions_parse.
    rewrite Hn.
    rewrite Hrej by lia.
    cbn [OpenAIClient.maxRetries OpenAIClient.record_event
         OpenAIClient.with_history OpenAIClient.retryDelay].
    destruct (Z.eqb_spec (Z.of_nat a) (OpenAIClient.maxRetries c)) as [Heq|_].
    { lia. }
    rewrite IH.
    + unfold OpenAIClient.record_event.
      cbn [OpenAIClient.history OpenAIClient.with_history OpenAIClient.model
           OpenAIClient.retryDelay].
      f_equal. f_equal. unfold linear_retry_events. simpl.
      rewrite <- !app_assoc. reflexivity.
    + cbn. lia.
    + lia.
    + unfold OpenAIClient.record_event.
      cbn [OpenAIClient.history OpenAIClient.with_history].
      rewrite !parse_calls_app, Hn. unfold OpenAIClient.parse_calls. simpl. lia.
    + intros k Hk. cbn. apply Hrej. lia.
Qed.

(** A run whose first [j] attempts throw arrives at attempt [j + 1]. *)
Lemma generateRule_reaches (c : OpenAIClient.t) (instruction context : string)
    (e : nat -> thrown) (j : nat) :
  let prompt := OpenAIClient.buildGenerateRulePrompt c instruction context in
  Z.of_nat j < OpenAIClient.maxRetries c ->
  (forall k, (k < j)%nat ->
     OpenAIClient.try_block
       (OpenAIClient.parse c
          (OpenAIClient.parse_calls (OpenAIClient.history c) + k)%nat
          (OpenAIClient.model c) prompt)
     = Rejected (e k)) ->
  exists rest,
    OpenAIClient.generateRule c instruction context
    = OpenAIClient.attempt_loop prompt (Z.of_nat (S j) :: rest)
        (OpenAIClient.with_history c
           (OpenAIClient.history c
            ++ linear_retry_events (OpenAIClient.model c) prompt
                 (OpenAIClient.retryDelay c) 1 j)).
Proof.
  intros prompt Hj Hrej. unfold OpenAIClient.generateRule. fold prompt.
  unfold OpenAIClient.attempts_upto.
  replace (Z.to_nat (OpenAIClient.maxRetries c))
    with (j + S (Z.to_nat (OpenAIClient.maxRetries c) - S j))%nat by lia.
  rewrite seq_app, fmap_app. cbn [seq fmap list_fmap].
  eexists.
  apply (generateRule_loop_rejected_prefix prompt (fun k => e (k - 1)%nat)
           (OpenAIClient.parse_calls (OpenAIClient.history c)) j 1).
  - lia.
  - lia.
  - lia.
  - intros k Hk.
    replace (OpenAIClient.parse_calls (OpenAIClient.history c) + k - 1)%nat
      with (OpenAIClient.parse_calls (OpenAIClient.history c) + (k - 1))%nat
      by lia.
    apply Hrej. lia.
Qed.

(** X1: When the maxRetries of the OpenAI classifier client is 0 or
    negative, generateRule makes no API call, leaves the client as it was,
    and returns the failure 'Unexpected error in rule generation' (the for
    loop from 1 to maxRetries has no iteration). *)
Theorem generateRule_without_attempts (c : OpenAIClient.t)
    (instruction context : string) :
  OpenAIClient.maxRetries c <= 0 ->
  OpenAIClient.generateRule c instruction context
  = (OpenAIClient.failed "Unexpected error in rule generation", c).
Proof.
  intros Hmax. unfold OpenAIClient.generateRule, OpenAIClient.attempts_upto.
  replace (Z.to_nat (OpenAIClient.maxRetries c)) with 0%nat by lia.
  reflexivity.
Qed.

(** X2: When maxRetries >= 1 and the try block of every attempt throws (the
    API call rejects, or the response has no choice), generateRule makes
    exactly maxRetries API calls, waits retryDelay * k after the failed
    attempt k for k = 1 .. maxRetries - 1 (a linear back-off, with no wait
    after the last attempt), and returns the failure 'Failed to generate
    rule after <maxRetries> attempts: <message>' with the message of the
    last error ('Unknown error' when the thrown value is no Error). *)
Theorem generateRule_all_attempts_fail (c : OpenAIClient.t)
    (instruction context : string) (e : nat -> thrown) :
  let prompt := OpenAIClient.buildGenerateRulePrompt c instruction context in
  let n := Z.to_nat (OpenAIClient.maxRetries c) in
  1 <= OpenAIClient.maxRetries c ->
  (forall k, (k < n)%nat ->
     OpenAIClient.try_block
       (OpenAIClient.parse c
          (OpenAIClient.parse_calls (OpenAIClient.history c) + k)%nat
          (OpenAIClient.model c) prompt)
     = Rejected (e k)) ->
  OpenAIClient.generateRule c instruction context
  = (OpenAIClient.failed
       ("Failed to generate rule after " +:+ pretty (OpenAIClient.maxRetries c)
        +:+ " attempts: " +:+ message_or_unknown (e (n - 1)%nat)),
     OpenAIClient.with_history c
       (OpenAIClient.history c
        ++ flat_map
             (fun k => [OpenAIClient.ParseCall (OpenAIClient.model c) prompt;
                        OpenAIClient.Delay
                          (OpenAIClient.retryDelay c * Z.of_nat k)])
             (seq 1 (n - 1))
        ++ [OpenAIClient.ParseCall (OpenAIClient.model c) prompt])).
Proof.
  intros prompt n Hmax Hrej.
  destruct (generateRule_reaches c instruction context e (n - 1)) as [rest ->].
  { lia. } { intros k Hk. apply Hrej. lia. }
  fold prompt. cbn [OpenAIClient.attempt_loop].
  unfold OpenAIClient.completions_parse.
  cbn [OpenAIClient.history OpenAIClient.with_history OpenAIClient.parse
       OpenAIClient.model].
  rewrite parse_calls_app, parse_calls_linear_retry_events, Hrej by lia.
  cbn [OpenAIClient.maxRetries OpenAIClient.record_event
       OpenAIClient.with_history].
  replace (Z.of_nat (S (n - 1))) with (OpenAIClient.maxRetries c) by lia.
  rewrite Z.eqb_refl. unfold OpenAIClient.record_event.
  cbn [OpenAIClient.history OpenAIClient.with_history OpenAIClient.model].
  by rewrite <- app_assoc.
Qed.

(** The first attempt whose [try] block returns ends the run with what it
    returns. *)
Lemma generateRule_settles (c : OpenAIClient.t)
    (instruction context : string) (e : nat -> thrown) (j : nat)
    (result : RuleGenerationResult.t) :
  let prompt := OpenAIClient.buildGenerateRulePrompt c instruction context in
  Z.of_nat j < OpenAIClient.maxRetries c ->
  (forall k, (k < j)%nat ->
     OpenAIClient.try_block
       (OpenAIClient.parse c
          (OpenAIClient.parse_calls (OpenAIClient.history c) + k)%nat
          (OpenAIClient.model c) prompt)
     = Rejected (e k)) ->
  OpenAIClient.try_block
    (OpenAIClient.parse c
       (OpenAIClient.parse_calls (OpenAIClient.history c) + j)%nat
       (OpenAIClient.model c) prompt)
  = Resolved result ->
  OpenAIClient.generateRule c instruction context
  = (result,
     OpenAIClient.with_history c
       (OpenAIClient.history c
        ++ flat_map
             (fun k => [OpenAIClient.ParseCall (OpenAIClient.model c) prompt;
                        OpenAIClient.Delay
                          (OpenAIClient.retryDelay c * Z.of_nat k)])
             (seq 1 j)
        ++ [OpenAIClient.ParseCall (OpenAIClient.model c) prompt])).
Proof.
  intros prompt Hj Hrej Hres.
  destruct (generateRule_reaches c instruction context e j Hj Hrej)
    as [rest ->].
  fold prompt. cbn [OpenAIClient.attempt_loop].
  unfold OpenAIClient.completions_parse.
  cbn [OpenAIClient.history OpenAIClient.with_history OpenAIClient.parse
       OpenAIClient.model].
  rewrite parse_calls_app, parse_calls_linear_retry_events, Hres.
  unfold OpenAIClient.record_event.
  cbn [OpenAIClient.history OpenAIClient.with_history OpenAIClient.model].
  by rewrite <- app_assoc.
Qed.

(** X3: An API answer whose first choice has no parsed content ends
    generateRule at that attempt, without a retry: after j failed attempts
    (j < maxRetries) the result is the failure 'Failed to generate rule.
    Error: <refusal>' (the text 'null' for a null refusal), the client has
    made j + 1 more API calls, and the call is the last event of its history
    (no delay follows). *)
Theorem generateRule_unparsed_answer_is_final (c : OpenAIClient.t)
    (instruction context : string) (e : nat -> thrown) (j : nat)
    (response : ChatCompletion) (message : ChatMessage) :
  let prompt := OpenAIClient.buildGenerateRulePrompt c instruction context in
  Z.of_nat j < OpenAIClient.maxRetries c ->
  (forall k, (k < j)%nat ->
     OpenAIClient.try_block
       (OpenAIClient.parse c
          (OpenAIClient.parse_calls (OpenAIClient.history c) + k)%nat
          (OpenAIClient.model c) prompt)
     = Rejected (e k)) ->
  OpenAIClient.parse c
    (OpenAIClient.parse_calls (OpenAIClient.history c) + j)%nat
    (OpenAIClient.model c) prompt
  = Resolved response ->
  head (choices response) = Some message ->
  parsed message = None ->
  let '(r, c') := OpenAIClient.generateRule c instruction context in
  r = OpenAIClient.failed ("Failed to generate rule. Error: "
                           +:+ template_null (refusal message))
  /\ OpenAIClient.parse_calls (OpenAIClient.history c')
     = (OpenAIClient.parse_calls (OpenAIClient.history c) + j + 1)%nat
  /\ last (OpenAIClient.history c')
     = Some (OpenAIClient.ParseCall (OpenAIClient.model c) prompt).
Proof.
  intros prompt Hj Hrej Hres Hhead Hparsed.
  rewrite (generateRule_settles c instruction context e j
             (OpenAIClient.failed ("Failed to generate rule. Error: "
                                   +:+ template_null (refusal message))))
    by (try done; fold prompt; rewrite Hres; cbn;
        unfold OpenAIClient.read_response; by rewrite Hhead, Hparsed).
  cbn [OpenAIClient.history OpenAIClient.with_history]. split; [done|]. split.
  - rewrite !parse_calls_app.
    change (flat_map _ (seq 1 j))
      with (linear_retry_events (OpenAIClient.model c) prompt
              (OpenAIClient.retryDelay c) 1 j).
    rewrite parse_calls_linear_retry_events.
    unfold OpenAIClient.parse_calls. simpl. lia.
  - by rewrite !app_assoc, last_snoc.
Qed.

(** X4: The first attempt whose API answer carries a parsed verdict ends
    generateRule: after j failed attempts (j < maxRetries) the result has
    success = true and error = null, its rule is the rule of the verdict,
    and its reason is the reason of the verdict when the rule is null and
    null when there is a rule. *)
Theorem generateRule_returns_verdict (c : OpenAIClient.t)
    (instruction context : string) (e : nat -> thrown) (j : nat)
    (response : ChatCompletion) (message : ChatMessage)
    (verdict : ParsedVerdict) :
  let prompt := OpenAIClient.buildGenerateRulePrompt c instruction context in
  Z.of_nat j < OpenAIClient.maxRetries c ->
  (forall k, (k < j)%nat ->
     OpenAIClient.try_block
       (OpenAIClient.parse c
          (OpenAIClient.parse_calls (OpenAIClient.history c) + k)%nat
          (OpenAIClient.model c) prompt)
     = Rejected (e k)) ->
  OpenAIClient.parse c
    (OpenAIClient.parse_calls (OpenAIClient.history c) + j)%nat
    (OpenAIClient.model c) prompt
  = Resolved response ->
  head (choices response) = Some message ->
  parsed message = Some verdict ->
  let r := (OpenAIClient.generateRule c instruction context).1 in
  RuleGenerationResult.success r = true
  /\ RuleGenerationResult.error r = None
  /\ RuleGenerationResult.rule r = parsed_rule verdict
  /\ RuleGenerationResult.reason r
     = match parsed_rule verdict with
       | Some _ => None
       | None => parsed_reason verdict
       end.
Proof.
  intros prompt Hj Hrej Hres Hhead Hparsed.
  assert (Htry : exists r,
            OpenAIClient.try_block
              (OpenAIClient.parse c
                 (OpenAIClient.parse_calls (OpenAIClient.history c) + j)%nat
                 (OpenAIClient.model c) prompt) = Resolved r
            /\ RuleGenerationResult.success r = true
            /\ RuleGenerationResult.error r = None
            /\ RuleGenerationResult.rule r = parsed_rule verdict
            /\ RuleGenerationResult.reason r
               = match parsed_rule verdict with
       | Some _ => None
       | None => parsed_reason verdict
       end).
  { rewrite Hres. cbn. unfold OpenAIClient.read_response.
    rewrite Hhead, Hparsed.
    destruct (parsed_rule verdict) as [[text category]|]; by eexists. }
  destruct Htry as (r & Htry & Hshape).
  by rewrite (generateRule_settles c instruction context e j r Hj Hrej Htry).
Qed.

Lemma read_response_well_formed response r :
  OpenAIClient.read_response response = Resolved r -> well_formed_result r.
Proof.
  unfold OpenAIClient.read_response, well_formed_result.
  destruct (head (choices response)) as [message|]; [|done].
  destruct (parsed message) as [verdict|].
  - destruct (parsed_rule verdict); intros [= <-]; cbn; left; auto.
  - intros [= <-]. cbn. right. by eauto.
Qed.

(** X5: Every result of generateRule of the OpenAI classifier client,
    whatever the API answers, is either a success without error that does
    not carry both a rule and a reason, or a failure that carries an error
    and neither rule nor reason; and one generateRule makes at most
    maxRetries API calls. *)
Theorem generateRule_result_shape (c : OpenAIClient.t)
    (instruction context : string) :
  let '(r, c') := OpenAIClient.generateRule c instruction context in
  well_formed_result r
  /\ (OpenAIClient.parse_calls (OpenAIClient.history c')
      <= OpenAIClient.parse_calls (OpenAIClient.history c)
         + Z.to_nat (OpenAIClient.maxRetries c))%nat.
Proof.
  unfold OpenAIClient.generateRule.
  set (prompt := OpenAIClient.buildGenerateRulePrompt c instruction context).
  assert (Hlen : length (OpenAIClient.attempts_upto (OpenAIClient.maxRetries c))
                 = Z.to_nat (OpenAIClient.maxRetries c)).
  { unfold OpenAIClient.attempts_upto. by rewrite length_fmap, length_seq. }
  rewrite <- Hlen.
  generalize (OpenAIClient.attempts_upto (OpenAIClient.maxRetries c)).
  clear Hlen. clearbody prompt. intros attempts. revert c.
  induction attempts as [|attempt rest IH]; intros c.
  - cbn. split; [right; by eauto|lia].
  - cbn [OpenAIClient.attempt_loop]. unfold OpenAIClient.completions_parse.
    assert (Hcall : OpenAIClient.parse_calls
                      (OpenAIClient.history
                         (OpenAIClient.record_event c
                            (OpenAIClient.ParseCall (OpenAIClient.model c)
                               prompt)))
                    = S (OpenAIClient.parse_calls (OpenAIClient.history c))).
    { unfold OpenAIClient.record_event.
      cbn [OpenAIClient.history OpenAIClient.with_history].
      rewrite parse_calls_app. unfold OpenAIClient.parse_calls at 2.
      simpl. lia. }
    destruct (OpenAIClient.try_block _) as [r|error] eqn:Htry.
    + rewrite Hcall. cbn [length].
      unfold OpenAIClient.try_block in Htry.
      destruct (OpenAIClient.parse c _ _ _) as [response|]; [|done].
      split; [by eapply read_response_well_formed|lia].
    + destruct (attempt =? _).
      * rewrite Hcall. cbn. split; [right; by eauto|lia].
      * specialize (IH (OpenAIClient.record_event
                          (OpenAIClient.record_event c
                             (OpenAIClient.ParseCall (OpenAIClient.model c)
                                prompt))
                          (OpenAIClient.Delay
                             (OpenAIClient.retryDelay c * attempt)))).
        assert (Hdelay : OpenAIClient.parse_calls
                  (OpenAIClient.history
                     (OpenAIClient.record_event
                        (OpenAIClient.record_event c
                           (OpenAIClient.ParseCall (OpenAIClient.model c)
                              prompt))
                        (OpenAIClient.Delay
                           (OpenAIClient.retryDelay c * attempt))))
                = S (OpenAIClient.parse_calls (OpenAIClient.history c))).
        { unfold OpenAIClient.record_event at 1.
          cbn [OpenAIClient.history OpenAIClient.with_history].
          rewrite parse_calls_app, Hcall.
          unfold OpenAIClient.parse_calls at 2. simpl. lia. }
        rewrite Hdelay in IH.
        cbn [OpenAIClient.retryDelay OpenAIClient.record_event
             OpenAIClient.with_history] in *.
        destruct (OpenAIClient.attempt_loop prompt rest _) as [r c'].
        destruct IH as [? Hcalls]. split; [done|]. cbn [length]. lia.
Qed.

Lemma generateRule_without_attempts_witness :
  let c := test_llm_client empty_choices_api 0 1000 in
  OpenAIClient.generateRule c "Use TypeScript" "new files"
  = (OpenAIClient.failed "Unexpected error in rule generation", c)
  /\ OpenAIClient.history c = [].
Proof.
  intros c. split; [|reflexivity].
  apply (generateRule_without_attempts c "Use TypeScript" "new files").
  vm_compute. congruence.
Defined.

Lemma generateRule_all_attempts_fail_witness :
  let c := test_llm_client empty_choices_api 3 1000 in
  let prompt := "Instruction: Use TypeScript Context: new files" in
  let mdl := "gpt-5-mini-2025-08-07" in
  OpenAIClient.generateRule c "Use TypeScript" "new files"
  = (OpenAIClient.failed
       "Failed to generate rule after 3 attempts: Cannot read properties of undefined (reading 'message')",
     OpenAIClient.with_history c
       [OpenAIClient.ParseCall mdl prompt; OpenAIClient.Delay 1000;
        OpenAIClient.ParseCall mdl prompt; OpenAIClient.Delay 2000;
        OpenAIClient.ParseCall mdl prompt]).
Proof.
  intros c prompt mdl.
  apply (generateRule_all_attempts_fail c "Use TypeScript" "new files"
           (fun _ => ErrorInstance
              "Cannot read properties of undefined (reading 'message')")).
  - vm_compute. congruence.
  - intros k Hk. reflexivity.
Defined.

Lemma generateRule_unparsed_answer_is_final_witness :
  let c := test_llm_client (refusing_api "I cannot help with that") 3 1000 in
  let run := OpenAIClient.generateRule c "Use TypeScript" "new files" in
  run.1 = OpenAIClient.failed
            "Failed to generate rule. Error: I cannot help with that"
  /\ OpenAIClient.parse_calls (OpenAIClient.history run.2) = 1%nat.
Proof.
  intros c run.
  assert (Hj : Z.of_nat 0 < OpenAIClient.maxRetries c)
    by (vm_compute; congruence).
  pose proof (generateRule_unparsed_answer_is_final c "Use TypeScript"
                "new files" (fun _ => OtherValue) 0
                {| choices := [{| parsed := None;
                                  refusal := Some "I cannot help with that" |}] |}
                {| parsed := None; refusal := Some "I cannot help with that" |}
                Hj (fun k (Hk : (k < 0)%nat) => False_ind _ (Nat.nlt_0_r k Hk))
                eq_refl eq_refl eq_refl)
    as H.
  subst run. destruct (OpenAIClient.generateRule c _ _) as [r c'].
  destruct H as (Hr & Hcalls & _). cbn [fst snd].
  split; [rewrite Hr; reflexivity|rewrite Hcalls; reflexivity].
Defined.

Lemma generateRule_returns_verdict_witness :
  let verdict := {| parsed_rule := None;
                    parsed_reason := Some "Too specific: pixel tweak" |} in
  let c := test_llm_client (flaky_chat_api 2 verdict) 3 1000 in
  let r := (OpenAIClient.generateRule c "Move the button 3 px right"
              "UI fine-tuning").1 in
  RuleGenerationResult.success r = true
  /\ RuleGenerationResult.rule r = None
  /\ RuleGenerationResult.reason r = Some "Too specific: pixel tweak".
Proof.
  intros verdict c r.
  assert (Hj : Z.of_nat 2 < OpenAIClient.maxRetries c)
    by (vm_compute; congruence).
  assert (Hrej : forall k, (k < 2)%nat ->
            OpenAIClient.try_block
              (OpenAIClient.parse c
                 (OpenAIClient.parse_calls (OpenAIClient.history c) + k)%nat
                 (OpenAIClient.model c)
                 (OpenAIClient.buildGenerateRulePrompt c
                    "Move the button 3 px right" "UI fine-tuning"))
            = Rejected (ErrorInstance "Server error")).
  { intros k Hk. destruct k as [|[|k]]; [reflexivity|reflexivity|lia]. }
  destruct (generateRule_returns_verdict c "Move the button 3 px right"
              "UI fine-tuning" (fun _ => ErrorInstance "Server error") 2
              {| choices := [{| parsed := Some verdict; refusal := None |}] |}
              {| parsed := Some verdict; refusal := None |} verdict
              Hj Hrej eq_refl eq_refl eq_refl)
    as (Hs & _ & Hrule & Hreason).
  by repeat split.
Defined.

(** ** Further properties of the embedding client *)

(** X6: generateEmbedding of the OpenAI embedding client recovers from
    transient failures: if its first j API calls reject, with j <= max(0,
    maxRetries), and the next call answers with a vector in
    data[0].embedding, the result is a success with that vector and no
    error; the client has made j + 1 calls, each with its model and the
    text, and has slept retryDelay * 2^k after the failed attempt k for k =
    0 .. j - 1 (an exponential back-off). *)
Theorem generateEmbedding_succeeds_after_retries
    (c : OpenAIEmbeddingClient) (text : string) (e : nat -> thrown)
    (j : nat) (response : CreateEmbeddingResponse)
    (items : list EmbeddingItem) (v : vector) :
  Z.of_nat j <= Z.max 0 (maxRetries c) ->
  (forall k, (k < j)%nat ->
     openai c (api_calls (history c) + k)%nat (model c) text = Rejected (e k)) ->
  openai c (api_calls (history c) + j)%nat (model c) text = Resolved response ->
  data response = DataArray items ->
  head items ≫= item_embedding = Some v ->
  OpenAI_generateEmbedding c text
  = ({| success := true; embedding := Some (new_Float32Array v);
        error := None |},
     with_history c
       (history c
        ++ flat_map (fun k => [ApiCall (model c) text;
                               Sleep (retryDelay c * 2 ^ Z.of_nat k)]) (seq 0 j)
        ++ [ApiCall (model c) text])).
Proof.
  intros Hj Hrej Hres Hdata Hsome.
  destruct (generateEmbedding_reaches c text e j Hj
              (rejected_calls_throw c text e (fun k => (k < j)%nat) Hrej))
    as (last & rest & ->).
  cbn [attempt_loop]. unfold embeddings_create. cbn [history with_history].
  rewrite api_calls_app, api_calls_retry_events.
  cbn [openai model with_history]. rewrite Hres.
  cbn [try_block]. unfold read_response. rewrite Hdata, Hsome.
  unfold record_event, retry_events. cbn [history with_history model].
  by rewrite <- app_assoc.
Qed.

Lemma generateEmbedding_succeeds_after_retries_witness :
  let c := test_client (flaky_api 2 [0.2; 0.2]%Q) 2 10 in
  let mdl := "text-embedding-3-small" in
  OpenAI_generateEmbedding c "test text for embedding"
  = ({| success := true; embedding := Some (new_Float32Array [0.2; 0.2]%Q);
        error := None |},
     with_history c
       [ApiCall mdl "test text for embedding"; Sleep 10;
        ApiCall mdl "test text for embedding"; Sleep 20;
        ApiCall mdl "test text for embedding"]).
Proof.
  intros c mdl.
  apply (generateEmbedding_succeeds_after_retries c "test text for embedding"
           (fun _ => ErrorInstance "Server error") 2
           {| data := DataArray [{| item_embedding := Some [0.2; 0.2]%Q |}] |}
           [{| item_embedding := Some [0.2; 0.2]%Q |}]).
  - vm_compute. congruence.
  - intros k Hk. destruct k as [|[|k]]; [reflexivity|reflexivity|lia].
  - reflexivity.
  - reflexivity.
  - reflexivity.
Defined.

Lemma attempt_loop_well_formed (eff : Z) (text : string) :
  forall attempts last c,
    let '(r, c') := attempt_loop eff text attempts last c in
    well_formed_embedding_result r
    /\ (api_calls (history c')
        <= api_calls (history c) + length attempts)%nat.
Proof.
  induction attempts as [|attempt rest IH]; intros last c.
  - cbn. split; [right; by eauto|lia].
  - cbn [attempt_loop]. unfold embeddings_create.
    assert (Hcall : api_calls (history (record_event c (ApiCall (model c) text)))
                    = S (api_calls (history c))).
    { unfold record_event. cbn [history with_history]. rewrite api_calls_app.
      unfold api_calls at 2. simpl. lia. }
    assert (Hread : forall answer result,
              try_block answer = Resolved result ->
              well_formed_embedding_result result).
    { intros [response|error] result; [|done]. cbn. unfold read_response.
      destruct (data response) as [items| |]; [|done|done].
      destruct (head items ≫= item_embedding); intros [= <-];
        [left|right]; cbn; by eauto. }
    destruct (try_block (openai c _ _ _)) as [result|error] eqn:Htry.
    + rewrite Hcall. cbn [length]. split; [by eapply Hread|lia].
    + destruct (attempt =? eff).
      { rewrite Hcall. cbn [length]. split; [right; cbn; by eauto|lia]. }
      match goal with
      | |- context [attempt_loop eff text rest ?l ?c2] =>
          specialize (IH l c2);
          assert (Hc2 : api_calls (history c2) = S (api_calls (history c)))
      end.
      { destruct (attempt <? eff); [|done].
        unfold record_event at 1. cbn [history with_history].
        rewrite api_calls_app, Hcall. unfold api_calls at 2. simpl. lia. }
      rewrite Hc2 in IH.
      destruct (attempt_loop eff text rest _ _) as [r c'].
      destruct IH as [? ?]. split; [done|]. cbn [length]. lia.
Qed.

(** X7: Every result of generateEmbedding of the OpenAI embedding client,
    whatever the API answers, is either a success with a vector and no error
    or a failure with an error and no vector; and one generateEmbedding
    makes at most max(0, maxRetries) + 1 API calls. *)
Theorem generateEmbedding_result_shape
    (c : OpenAIEmbeddingClient) (text : string) :
  let '(r, c') := OpenAI_generateEmbedding c text in
  well_formed_embedding_result r
  /\ (api_calls (history c')
      <= api_calls (history c) + Z.to_nat (Z.max 0 (maxRetries c)) + 1)%nat.
Proof.
  unfold OpenAI_generateEmbedding.
  pose proof (attempt_loop_well_formed (Z.max 0 (maxRetries c)) text
                (attempts_upto (Z.max 0 (maxRetries c))) None c) as H.
  destruct (attempt_loop _ _ _ _ _) as [r c']. destruct H as [Hr Hcalls].
  split; [done|]. unfold attempts_upto in Hcalls.
  rewrite length_fmap, length_seq in Hcalls. lia.
Qed.

(** ** The mock clients *)

Lemma Mock_calls_from (texts : list string) :
  forall (c : MockEmbeddingClient) (i : nat) (text : string),
    shouldFail c = false ->
    0 <= callCount c ->
    texts !! i = Some text ->
    (Mock_calls texts c).1 !! i
    = Some (if callCount c + Z.of_nat i + 1 <=? failureAttempts c
            then {| success := false; embedding := None;
                    error := Some ("Mock embedding generation failed on attempt "
                                   +:+ pretty (callCount c + Z.of_nat i + 1)) |}
            else {| success := true;
                    embedding := Some (new_Float32Array (customEmbedding c));
                    error := None |})
    /\ callCount (Mock_calls texts c).2 = callCount c + Z.of_nat (length texts).
Proof.
  induction texts as [|t rest IH]; intros c i text Hs Hc Hi; [done|].
  cbn [Mock_calls]. unfold Mock_generateEmbedding.
  cbn [shouldFail failureAttempts callCount customEmbedding]. rewrite Hs.
  set (c1 := {| shouldFail := false; failureAttempts := failureAttempts c;
                delayMs := delayMs c; customEmbedding := customEmbedding c;
                callCount := callCount c + 1 |}).
  assert (Hlen : callCount (Mock_calls rest c1).2
                 = callCount c1 + Z.of_nat (length rest)).
  { destruct rest as [|t' rest']; [cbn; lia|].
    by destruct (IH c1 0%nat t' eq_refl ltac:(cbn; lia) eq_refl). }
  destruct i as [|i].
  - replace (callCount c + Z.of_nat 0 + 1) with (callCount c + 1) by lia.
    destruct (Z.leb_spec (callCount c + 1) (failureAttempts c)).
    + destruct (Z.ltb_spec 0 (failureAttempts c)).
      * cbn [andb]. subst c1. destruct (Mock_calls rest _) as [rs c2].
        cbn in *. split; [done|lia].
      * lia.
    + rewrite andb_false_r. subst c1. destruct (Mock_calls rest _) as [rs c2].
      cbn in *. split; [done|lia].
  - destruct (IH c1 i text eq_refl ltac:(cbn; lia) Hi) as [Hres _].
    replace (callCount c + Z.of_nat (S i) + 1)
      with (callCount c1 + Z.of_nat i + 1) by (cbn; lia).
    assert (Hsame : forall b : bool,
              (let '(r, c1') := (if b then
                   ({| success := false; embedding := None;
                       error := Some ("Mock embedding generation failed on attempt "
                                      +:+ pretty (callCount c + 1)) |}, c1)
                 else ({| success := true;
                          embedding :=
                            Some (new_Float32Array (customEmbedding c));
                          error := None |}, c1)) in
               let '(rs, c2) := Mock_calls rest c1' in (r :: rs, c2)).1 !! S i
              = (Mock_calls rest c1).1 !! i
              /\ callCount
                   (let '(r, c1') := (if b then
                        ({| success := false; embedding := None;
                            error := Some ("Mock embedding generation failed on attempt "
                                           +:+ pretty (callCount c + 1)) |}, c1)
                      else ({| success := true;
                               embedding :=
                                 Some (new_Float32Array (customEmbedding c));
                               error := None |}, c1)) in
                    let '(rs, c2) := Mock_calls rest c1' in (r :: rs, c2)).2
                 = callCount (Mock_calls rest c1).2).
    { intros []; by destruct (Mock_calls rest c1). }
    destruct (Hsame ((0 <? failureAttempts c)
                     && (callCount c + 1 <=? failureAttempts c))) as [-> ->].
    rewrite Hres, Hlen. cbn. split; [done|lia].
Qed.

(** X8: A MockEmbeddingClient built with shouldFail other than true counts
    its calls: in a sequence of generateEmbedding calls on a new client,
    call number n (from 1) fails with 'Mock embedding generation failed on
    attempt n' exactly when n <= failureAttempts, and succeeds with the
    configured (or default) embedding otherwise; callCount ends as the
    number of calls. *)
Theorem MockEmbeddingClient_fails_first_attempts
    (config : MockEmbeddingConfig) (texts : list string) (i : nat)
    (text : string) :
  config_shouldFail config <> Some true ->
  texts !! i = Some text ->
  let c := new_MockEmbeddingClient config in
  (Mock_calls texts c).1 !! i
  = Some (if Z.of_nat i + 1 <=? failureAttempts c
          then {| success := false; embedding := None;
                  error := Some ("Mock embedding generation failed on attempt "
                                 +:+ pretty (Z.of_nat i + 1)) |}
          else {| success := true;
                  embedding := Some (new_Float32Array (customEmbedding c));
                  error := None |})
  /\ callCount (Mock_calls texts c).2 = Z.of_nat (length texts).
Proof.
  intros Hs Hi c.
  assert (Hfail : shouldFail c = false).
  { subst c. cbn. by destruct (config_shouldFail config) as [[]|]. }
  assert (Hcount0 : 0 <= callCount c) by (cbn; lia).
  destruct (Mock_calls_from texts c i text Hfail Hcount0 Hi) as [Hres Hcount].
  by rewrite Hres, Hcount.
Qed.

Lemma MockEmbeddingClient_fails_first_attempts_witness :
  let config := {| config_shouldFail := Some false;
                   config_failureAttempts := Some 2;
                   config_delayMs := None;
                   config_customEmbedding := Some [0.5; 0.5]%Q |} in
  let results := (Mock_calls ["a"; "b"; "c"] (new_MockEmbeddingClient config)).1 in
  (error <$> results !! 1%nat)
  = Some (Some "Mock embedding generation failed on attempt 2")
  /\ results !! 2%nat
     = Some {| success := true;
               embedding := Some (new_Float32Array [0.5; 0.5]%Q);
               error := None |}.
Proof.
  intros config results. subst results. split.
  - destruct (MockEmbeddingClient_fails_first_attempts config ["a"; "b"; "c"]
                1 "b" ltac:(discriminate) eq_refl) as [-> _]. reflexivity.
  - destruct (MockEmbeddingClient_fails_first_attempts config ["a"; "b"; "c"]
                2 "c" ltac:(discriminate) eq_refl) as [-> _]. reflexivity.
Defined.

Lemma find_app_or {A} (p : A -> bool) (l1 l2 : list A) :
  List.find p (l1 ++ l2)
  = match List.find p l1 with Some x => Some x | None => List.find p l2 end.
Proof.
  induction l1 as [|x l1 IH]; simpl; [done|]. by destruct (p x).
Qed.

(** X9: On a MockLLMClient, a second setDefaultResponse does not replace the
    first: after setDefaultResponse(first) and setDefaultResponse(second),
    generateRule answers every request as it does after
    setDefaultResponse(first) alone, because responses are appended and
    searched from the oldest. *)
Theorem MockLLMClient_first_default_wins (c : MockLLMClient)
    (first second : RuleGenerationResult.t) (instruction context : string) :
  Mock_generateRule (setDefaultResponse (setDefaultResponse c first) second)
    instruction context
  = Mock_generateRule (setDefaultResponse c first) instruction context.
Proof.
  unfold Mock_generateRule, setDefaultResponse. cbn [responses].
  rewrite !find_app_or. cbn [List.find response_instruction response_context].
  destruct (List.find _ (responses c)) as [r|]; [done|].
  destruct (String.eqb "*" instruction && String.eqb "*" context); [done|].
  destruct (List.find _ (responses c)) as [r|]; [done|].
  reflexivity.
Qed.


(** ** The instruction store *)

Lemma find_none_iff {A} (p : A -> bool) (l : list A) :
  List.find p l = None <-> forall x, x ∈ l -> p x = false.
Proof.
  induction l as [|y l IH]; simpl.
  - split; [intros _ x Hx; by apply elem_of_nil in Hx|done].
  - destruct (p y) eqn:Hy.
    + split; [done|]. intros H. specialize (H y (list_elem_of_here _ _)).
      congruence.
    + rewrite IH. split.
      * intros H x [->|Hx]%elem_of_cons; auto.
      * intros H x Hx. apply H. by right.
Qed.

Section Stores.

Context {L E : Type} `{!LLMClient L} `{!EmbeddingClient E}.
Implicit Types (w : world L E).

(** What a successful createInstruction leaves behind. *)
Lemma createInstruction_spec w instruction context :
  store_fault (db w) InsertInstruction = None ->
  store_fault (db w) SelectInstructionById = None ->
  exists (created : UserInstruction.t) w',
    createInstruction instruction context w = (Resolved (Some created), w')
    /\ created
       = {| UserInstruction.id :=
              next_rowid (sequence_user_instructions (db w))
                (user_instructions.id <$> user_instructions_table (db w));
            UserInstruction.instruction := instruction;
            UserInstruction.context := context;
            UserInstruction.inserted_at := CURRENT_TIMESTAMP (db w);
            UserInstruction.rule_id := None |}
    /\ user_instructions_table (db w')
       = user_instructions_table (db w)
         ++ [{| user_instructions.id := UserInstruction.id created;
                user_instructions.instruction := instruction;
                user_instructions.context := context;
                user_instructions.inserted_at := CURRENT_TIMESTAMP (db w);
                user_instructions.rule_id := None |}]
    /\ (forall old, old ∈ user_instructions_table (db w) ->
          user_instructions.id old < UserInstruction.id created)
    /\ rules_table (db w') = rules_table (db w)
    /\ store_fault (db w') = store_fault (db w)
    /\ llmClient w' = llmClient w
    /\ embeddingClient w' = embeddingClient w
    /\ calls w' = calls w.
Proof.
  intros Hins Hsel. unfold createInstruction, findInstructionById. unfold_M.
  rewrite execute_ok by done. cbn [fst snd insert_user_instruction].
  rewrite execute_ok by done. cbn [fst snd].
  cbn [db with_db log_statement with_tables user_instructions_table
       sequence_user_instructions rules_table CURRENT_TIMESTAMP].
  rewrite (find_new_row user_instructions.id) by reflexivity.
  eexists _, _. split; [reflexivity|]. cbn. repeat split; try done.
  intros old Hold. unfold next_rowid.
  pose proof (foldr_max_ge
                (user_instructions.id <$> user_instructions_table (db w))
                (user_instructions.id old)
                (list_elem_of_fmap_2 user_instructions.id _ _ Hold)). lia.
Qed.

(** X10: When the store executes the INSERT and the SELECT,
    createInstruction returns a non-null instruction that carries the given
    instruction and context and rule_id = null, the table has one row more,
    and findInstructionById of the returned id returns the same instruction
    again. *)
Theorem createInstruction_then_findInstructionById w instruction context :
  store_fault (db w) InsertInstruction = None ->
  store_fault (db w) SelectInstructionById = None ->
  exists (created : UserInstruction.t) w1 w2,
    createInstruction instruction context w = (Resolved (Some created), w1)
    /\ findInstructionById (UserInstruction.id created) w1
       = (Resolved (Some created), w2)
    /\ UserInstruction.instruction created = instruction
    /\ UserInstruction.context created = context
    /\ UserInstruction.rule_id created = None
    /\ length (user_instructions_table (db w2))
       = S (length (user_instructions_table (db w))).
Proof.
  intros Hins Hsel.
  destruct (createInstruction_spec w instruction context Hins Hsel)
    as (created & w1 & Hcreate & Hcreated & Htable & Hfresh & _ & Hfault & _).
  exists created, w1. eexists. split; [exact Hcreate|].
  unfold findInstructionById. rewrite execute_ok by (by rewrite Hfault).
  cbn [fst snd log_statement user_instructions_table with_db db].
  rewrite Htable, find_app_last.
  - split; [by rewrite Hcreated|]. rewrite Hcreated. cbn.
    repeat split. rewrite Htable, length_app. cbn. lia.
  - intros old Hold. apply Z.eqb_neq. specialize (Hfresh old Hold). lia.
  - apply Z.eqb_refl.
Qed.

(** X11: findInstructionById and findRuleById return null, and do not throw,
    for an id that no row of their table carries (when the store executes
    the SELECT). *)
Theorem find_by_id_of_missing_row w id :
  store_fault (db w) SelectInstructionById = None ->
  store_fault (db w) SelectRuleById = None ->
  (forall row, row ∈ user_instructions_table (db w) ->
     user_instructions.id row <> id) ->
  (forall row, row ∈ rules_table (db w) -> rules.id row <> id) ->
  (findInstructionById id w).1 = Resolved None
  /\ (findRuleById id w).1 = Resolved None.
Proof.
  intros Hsel1 Hsel2 Hmiss1 Hmiss2. unfold findInstructionById, findRuleById.
  rewrite !execute_ok by done.
  cbn [fst snd log_statement user_instructions_table rules_table].
  assert (H1 : List.find (fun r => user_instructions.id r =? id)
                 (user_instructions_table (db w)) = None).
  { apply find_none_iff. intros row Hrow. apply Z.eqb_neq. by apply Hmiss1. }
  assert (H2 : List.find (fun r => rules.id r =? id) (rules_table (db w))
               = None).
  { apply find_none_iff. intros row Hrow. apply Z.eqb_neq. by apply Hmiss2. }
  by rewrite H1, H2.
Qed.

(** X12: updateInstructionRuleId with an instruction id that no row carries
    succeeds silently: it returns without an error and leaves both tables as
    they were. *)
Theorem updateInstructionRuleId_of_missing_row w instructionId ruleId :
  store_fault (db w) UpdateInstructionRuleId = None ->
  (forall row, row ∈ user_instructions_table (db w) ->
     user_instructions.id row <> instructionId) ->
  exists w',
    updateInstructionRuleId instructionId ruleId w = (Resolved tt, w')
    /\ user_instructions_table (db w') = user_instructions_table (db w)
    /\ rules_table (db w') = rules_table (db w).
Proof.
  intros Hupd Hmiss. unfold updateInstructionRuleId.
  rewrite execute_ok by done. eexists. split; [reflexivity|].
  cbn. split; [|done].
  induction (user_instructions_table (db w)) as [|row rows IH]; [done|].
  cbn. rewrite IH by (intros r Hr; apply Hmiss; by right).
  destruct (Z.eqb_spec (user_instructions.id row) instructionId) as [Heq|_];
    [|done].
  by destruct (Hmiss row (list_elem_of_here _ _)).
Qed.

Lemma find_fmap_same_key {A} (key : A -> Z) (f : A -> A) (i : Z)
    (rows : list A) :
  (forall r, key (f r) = key r) ->
  List.find (fun r => key r =? i) (f <$> rows)
  = f <$> List.find (fun r => key r =? i) rows.
Proof.
  intros Hkey. induction rows as [|r rows IH]; [done|].
  cbn. rewrite Hkey. by destruct (key r =? i).
Qed.

Lemma find_some_of_elem {A} (p : A -> bool) (rows : list A) (x : A) :
  x ∈ rows -> p x = true ->
  exists y, List.find p rows = Some y /\ y ∈ rows /\ p y = true.
Proof.
  induction 1 as [x rows|x z rows _ IH]; intros Hp; cbn.
  - rewrite Hp. exists x. split; [done|]. split; [left|done].
  - destruct (p z) eqn:Hz.
    + exists z. split; [done|]. split; [left|done].
    + destruct (IH Hp) as (y & Hfind & Hin & Hy). exists y.
      split; [done|]. split; [by right|done].
Qed.

(** X13: After updateInstructionRuleId(instructionId, ruleId) on an existing
    instruction (the store executing every statement),
    findInstructionById(instructionId) returns that instruction with rule_id
    = ruleId, findInstructionsByRuleId(ruleId) contains it, and the number
    of instruction rows is unchanged. *)
Theorem updateInstructionRuleId_then_find w instructionId ruleId
    (row : user_instructions.row) :
  store_fault (db w) UpdateInstructionRuleId = None ->
  store_fault (db w) SelectInstructionById = None ->
  store_fault (db w) SelectInstructionsByRuleId = None ->
  row ∈ user_instructions_table (db w) ->
  user_instructions.id row = instructionId ->
  exists w1 w2 w3 (found : UserInstruction.t) (linked : list UserInstruction.t),
    updateInstructionRuleId instructionId ruleId w = (Resolved tt, w1)
    /\ findInstructionById instructionId w1 = (Resolved (Some found), w2)
    /\ UserInstruction.id found = instructionId
    /\ UserInstruction.rule_id found = Some ruleId
    /\ findInstructionsByRuleId ruleId w2 = (Resolved linked, w3)
    /\ found ∈ linked
    /\ length (user_instructions_table (db w3))
       = length (user_instructions_table (db w)).
Proof.
  intros Hupd Hsel Hsel2 Hrow Hid.
  set (link := fun r : user_instructions.row =>
                 if user_instructions.id r =? instructionId
                 then {| user_instructions.id := user_instructions.id r;
                         user_instructions.instruction :=
                           user_instructions.instruction r;
                         user_instructions.context := user_instructions.context r;
                         user_instructions.inserted_at :=
                           user_instructions.inserted_at r;
                         user_instructions.rule_id := Some ruleId |}
                 else r).
  assert (Hkey : forall r, user_instructions.id (link r) = user_instructions.id r).
  { intros r. unfold link. by destruct (_ =? _). }
  destruct (find_some_of_elem (fun r => user_instructions.id r =? instructionId)
              (user_instructions_table (db w)) row Hrow)
    as (first & Hfind & Hfirst & Hfirst_id); [by apply Z.eqb_eq|].
  apply Z.eqb_eq in Hfirst_id.
  assert (Hlinked : link first
                    = {| user_instructions.id := user_instructions.id first;
                         user_instructions.instruction :=
                           user_instructions.instruction first;
                         user_instructions.context :=
                           user_instructions.context first;
                         user_instructions.inserted_at :=
                           user_instructions.inserted_at first;
                         user_instructions.rule_id := Some ruleId |}).
  { unfold link. by rewrite Hfirst_id, Z.eqb_refl. }
  pose (w1 := with_db w (update_rule_id
                           (log_statement (db w) UpdateInstructionRuleId)
                           ruleId instructionId)).
  pose (w2 := with_db w1 (log_statement (db w1) SelectInstructionById)).
  pose (w3 := with_db w2 (log_statement (db w2) SelectInstructionsByRuleId)).
  exists w1, w2, w3. eexists _, _.
  split. { unfold updateInstructionRuleId. by rewrite execute_ok. }
  split.
  { unfold findInstructionById. rewrite execute_ok by done.
    cbn [fst snd db with_db w1 log_statement update_rule_id with_tables
         user_instructions_table].
    fold link.
    rewrite (find_fmap_same_key user_instructions.id link) by exact Hkey.
    by rewrite Hfind. }
  split; [by rewrite Hlinked|]. split; [by rewrite Hlinked|].
  split. { unfold findInstructionsByRuleId. by rewrite execute_ok. }
  cbn [fst snd db with_db w1 w2 w3 log_statement update_rule_id with_tables
       user_instructions_table].
  fold link. split; [|by rewrite length_fmap].
  apply list_elem_of_fmap_2, list_elem_of_In, List.filter_In. split.
  - apply list_elem_of_In, list_elem_of_fmap_2, Hfirst.
  - rewrite Hlinked. cbn. apply Z.eqb_refl.
Qed.

End Stores.

Lemma createInstruction_then_findInstructionById_witness :
  exists (created : UserInstruction.t) w1 w2,
    createInstruction "Use const" "code review" test_world
    = (Resolved (Some created), w1)
    /\ findInstructionById (UserInstruction.id created) w1
       = (Resolved (Some created), w2)
    /\ UserInstruction.instruction created = "Use const"
    /\ UserInstruction.context created = "code review"
    /\ UserInstruction.rule_id created = None
    /\ length (user_instructions_table (db w2))
       = S (length (user_instructions_table (db test_world))).
Proof.
  apply (createInstruction_then_findInstructionById test_world);
    reflexivity.
Defined.

Lemma find_by_id_of_missing_row_witness :
  (findInstructionById 7 test_world).1 = Resolved None
  /\ (findRuleById 7 test_world).1 = Resolved None.
Proof.
  apply (find_by_id_of_missing_row test_world 7); try reflexivity.
  - intros row Hrow. each_row Hrow. vm_compute. discriminate.
  - intros row Hrow. each_row Hrow; vm_compute; discriminate.
Defined.

Lemma updateInstructionRuleId_of_missing_row_witness :
  exists w',
    updateInstructionRuleId 7 2 test_world = (Resolved tt, w')
    /\ user_instructions_table (db w')
       = user_instructions_table (db test_world)
    /\ rules_table (db w') = rules_table (db test_world).
Proof.
  apply (updateInstructionRuleId_of_missing_row test_world 7 2);
    [reflexivity|].
  intros row Hrow. each_row Hrow. vm_compute. discriminate.
Defined.

Lemma updateInstructionRuleId_then_find_witness :
  exists w1 w2 w3 (found : UserInstruction.t) (linked : list UserInstruction.t),
    updateInstructionRuleId 1 2 test_world = (Resolved tt, w1)
    /\ findInstructionById 1 w1 = (Resolved (Some found), w2)
    /\ UserInstruction.id found = 1
    /\ UserInstruction.rule_id found = Some 2
    /\ findInstructionsByRuleId 2 w2 = (Resolved linked, w3)
    /\ found ∈ linked
    /\ length (user_instructions_table (db w3))
       = length (user_instructions_table (db test_world)).
Proof.
  apply (updateInstructionRuleId_then_find test_world 1 2
           {| user_instructions.id := 1;
              user_instructions.instruction := "Test instruction";
              user_instructions.context := "test context";
              user_instructions.inserted_at := "2025-01-01 00:00:00";
              user_instructions.rule_id := None |});
    try reflexivity.
  apply list_elem_of_here.
Defined.

(** ** The rule store *)

Section RuleStore.

Context {L E : Type} `{!EmbeddingClient E}.
Implicit Types (w : world L E).

(** X14: Whenever createRule resolves, its result is not null and carries
    the given rule text, category, context and created_from_instruction_id,
    and findRuleById of the returned id, on the store that createRule
    leaves, returns the same rule again and changes no row. *)
Theorem createRule_then_findRuleById
    w ruleText category context createdFromInstructionId o w' :
  createRule ruleText category context createdFromInstructionId w
  = (Resolved o, w') ->
  exists (rule : Rule.t) w'',
    o = Some rule
    /\ findRuleById (Rule.id rule) w' = (Resolved (Some rule), w'')
    /\ Rule.rule_text rule = ruleText
    /\ Rule.category rule = category
    /\ Rule.context rule = context
    /\ Rule.created_from_instruction_id rule = Some createdFromInstructionId
    /\ rules_table (db w'') = rules_table (db w').
Proof.
  unfold createRule, call_generateEmbedding, findRuleById. unfold_M.
  destruct (generateEmbedding _ _) as [[r|e] e'] eqn:Hgen; [|done].
  destruct (success r), (embedding r) as [v|] eqn:Hv; try done.
  unfold execute at 1. cbn [db with_db store_fault log_statement].
  destruct (store_fault (db w) InsertRule); [done|].
  cbn [insert_rule]. unfold execute at 1.
  cbn [db with_db store_fault log_statement with_tables rules_table
       sequence_rules].
  destruct (store_fault (db w) SelectRuleById) eqn:Hsel; [done|].
  rewrite (find_new_row rules.id) by reflexivity.
  intros [= <- <-]. eexists _, _. split; [reflexivity|].
  rewrite execute_ok by done.
  cbn [fst snd db with_db log_statement rules_table with_tables select_rule
       rules.id Rule.id].
  rewrite (find_new_row rules.id) by reflexivity.
  by repeat split.
Qed.

Variable vec_distance_cosine : vector -> vector -> Q.

Lemma filter_length_mono {A} (p1 p2 : A -> bool) (l : list A) :
  (forall x, p2 x = true -> p1 x = true) ->
  (length (List.filter p2 l) <= length (List.filter p1 l))%nat.
Proof.
  intros Himp. induction l as [|x l IH]; [done|]. cbn.
  destruct (p2 x) eqn:H2.
  - rewrite (Himp x H2). cbn. lia.
  - destruct (p1 x); cbn; lia.
Qed.

(** X15: findSimilarRules is monotone in its threshold: for one store, query
    and limit, a call with a higher threshold never returns more rules than
    a call with a lower threshold. *)
Theorem findSimilarRules_monotone_in_threshold
    w query limit (low high : Q) results_low results_high w1 w2 :
  (low <= high)%Q ->
  findSimilarRules vec_distance_cosine query limit low w
  = (Resolved results_low, w1) ->
  findSimilarRules vec_distance_cosine query limit high w
  = (Resolved results_high, w2) ->
  (length results_high <= length results_low)%nat.
Proof.
  intros Hle. unfold findSimilarRules, execute.
  cbn [db with_db store_fault log_statement rules_table].
  destruct (store_fault (db w) SelectSimilarRules); [done|].
  intros [= <- _] [= <- _].
  assert (Hfilter : (length (sql_where vec_distance_cosine
                               (Float32Array.buffer query) high
                               (rules_table (db w)))
                     <= length (sql_where vec_distance_cosine
                                  (Float32Array.buffer query) low
                                  (rules_table (db w))))%nat).
  { apply filter_length_mono. intros row Hrow.
    apply Qle_bool_iff. apply Qle_bool_iff in Hrow. by eapply Qle_trans. }
  unfold sql_limit. destruct (limit <? 0).
  - by rewrite !order_by_relevance_desc_perm, !length_fmap.
  - rewrite !length_take, !order_by_relevance_desc_perm, !length_fmap. lia.
Qed.

(** X16: When the limit does not bind (it is negative, or at least the
    number of qualifying rows), findSimilarRules returns every rule of the
    table whose score 1 - cosine distance reaches the threshold: the result
    is a permutation of the projection of all qualifying rows, so no
    qualifying rule is dropped or duplicated. *)
Theorem findSimilarRules_complete_without_binding_limit
    w query limit threshold :
  store_fault (db w) SelectSimilarRules = None ->
  limit < 0
  \/ Z.of_nat (length (sql_where vec_distance_cosine
                         (Float32Array.buffer query) threshold
                         (rules_table (db w)))) <= limit ->
  exists results w',
    findSimilarRules vec_distance_cosine query limit threshold w
    = (Resolved results, w')
    /\ results
       ≡ₚ select_relevant_rule vec_distance_cosine (Float32Array.buffer query)
            <$> sql_where vec_distance_cosine (Float32Array.buffer query)
                  threshold (rules_table (db w))
    /\ forall row,
         row ∈ rules_table (db w) ->
         (threshold <= relevance vec_distance_cosine
                         (Float32Array.buffer query) row)%Q ->
         select_relevant_rule vec_distance_cosine (Float32Array.buffer query)
           row ∈ results.
Proof.
  intros Hfault Hlimit. unfold findSimilarRules. cbv zeta.
  rewrite execute_ok by done.
  eexists _, _. split; [reflexivity|].
  cbn [fst snd log_statement rules_table].
  set (bound := Float32Array.buffer query) in *.
  assert (Hperm : sql_limit limit
                    (order_by_relevance_desc
                       (select_relevant_rule vec_distance_cosine bound
                          <$> sql_where vec_distance_cosine bound threshold
                                (rules_table (db w))))
                  ≡ₚ select_relevant_rule vec_distance_cosine bound
                       <$> sql_where vec_distance_cosine bound threshold
                             (rules_table (db w))).
  { unfold sql_limit. destruct (Z.ltb_spec limit 0) as [?|?].
    - apply order_by_relevance_desc_perm.
    - destruct Hlimit as [?|Hlimit]; [lia|].
      rewrite take_ge; [apply order_by_relevance_desc_perm|].
      rewrite order_by_relevance_desc_perm, length_fmap. lia. }
  split; [exact Hperm|]. intros row Hrow Hscore. rewrite Hperm.
  apply list_elem_of_fmap_2, sql_where_spec. by split.
Qed.

End RuleStore.

Lemma createRule_then_findRuleById_witness :
  exists rule : Rule.t,
    (createRule "Use const" "style" "code review" 1 test_world).1
    = Resolved (Some rule)
    /\ Rule.rule_text rule = "Use const"
    /\ Rule.created_from_instruction_id rule = Some 1.
Proof.
  destruct (createRule "Use const" "style" "code review" 1 test_world)
    as [[o|e] w'] eqn:Hrun; [|vm_compute in Hrun; discriminate].
  destruct (createRule_then_findRuleById test_world "Use const" "style"
              "code review" 1 o w' Hrun)
    as (rule & w'' & -> & _ & Htext & _ & _ & Hfrom & _).
  by exists rule.
Defined.

Lemma findSimilarRules_monotone_in_threshold_witness :
  exists results_low results_high,
    (findSimilarRules unit_cosine_distance (new_Float32Array [1; 0]%Q) 5
       0%Q test_world).1
    = Resolved results_low
    /\ (findSimilarRules unit_cosine_distance (new_Float32Array [1; 0]%Q) 5
          (1 # 2)%Q test_world).1
       = Resolved results_high
    /\ (length results_high <= length results_low)%nat.
Proof.
  destruct (findSimilarRules unit_cosine_distance
              (new_Float32Array [1; 0]%Q) 5 0%Q test_world)
    as [[low|e] w1] eqn:Hlow; [|vm_compute in Hlow; discriminate].
  destruct (findSimilarRules unit_cosine_distance
              (new_Float32Array [1; 0]%Q) 5 (1 # 2)%Q test_world)
    as [[high|e] w2] eqn:Hhigh; [|vm_compute in Hhigh; discriminate].
  exists low, high. split; [done|]. split; [done|].
  refine (findSimilarRules_monotone_in_threshold unit_cosine_distance
            test_world (new_Float32Array [1; 0]%Q) 5 0%Q (1 # 2)%Q low high
            w1 w2 _ Hlow Hhigh).
  vm_compute. discriminate.
Defined.

Lemma findSimilarRules_complete_without_binding_limit_witness :
  exists results w',
    findSimilarRules unit_cosine_distance (new_Float32Array [1; 0]%Q) (-1)
      (1 # 2)%Q test_world
    = (Resolved results, w')
    /\ results
       ≡ₚ select_relevant_rule unit_cosine_distance [1; 0]%Q
            <$> sql_where unit_cosine_distance [1; 0]%Q (1 # 2)%Q
                  (rules_table (db test_world))
    /\ forall row,
         row ∈ rules_table (db test_world) ->
         (1 # 2 <= relevance unit_cosine_distance [1; 0]%Q row)%Q ->
         select_relevant_rule unit_cosine_distance [1; 0]%Q row ∈ results.
Proof.
  apply (findSimilarRules_complete_without_binding_limit
           unit_cosine_distance test_world (new_Float32Array [1; 0]%Q) (-1)
           (1 # 2)%Q);
    [reflexivity|left; lia].
Defined.

(** ** Further properties of the intake pipeline *)

Lemma next_rowid_fresh (sequence : Z) (ids : list Z) :
  next_rowid sequence ids ∉ ids.
Proof.
  intros Hin. pose proof (foldr_max_ge ids _ Hin). unfold next_rowid in *. lia.
Qed.

Lemma consistent_insert_instruction instructions rls sequence instruction
    context timestamp :
  consistent_tables instructions rls ->
  consistent_tables
    (instructions
     ++ [{| user_instructions.id :=
              next_rowid sequence (user_instructions.id <$> instructions);
            user_instructions.instruction := instruction;
            user_instructions.context := context;
            user_instructions.inserted_at := timestamp;
            user_instructions.rule_id := None |}])
    rls.
Proof.
  intros (Hi & Hr & Hlink & Horigin). split; [|split; [done|split]].
  - rewrite fmap_app. apply NoDup_app. split; [done|]. split.
    + intros x Hx [->|[]%elem_of_nil]%elem_of_cons.
      by apply (next_rowid_fresh sequence (user_instructions.id <$> instructions)).
    + apply NoDup_singleton.
  - intros i r [Hin|Hin]%elem_of_app Hrule; [by eapply Hlink|].
    apply list_elem_of_singleton in Hin. by subst i.
  - intros r Hin. rewrite fmap_app. apply elem_of_app. left. by apply Horigin.
Qed.

Lemma consistent_insert_rule instructions rls sequence rule_text category
    context embedding timestamp (origin : user_instructions.row) :
  origin ∈ instructions ->
  consistent_tables instructions rls ->
  consistent_tables instructions
    (rls
     ++ [{| rules.id := next_rowid sequence (rules.id <$> rls);
            rules.rule_text := rule_text;
            rules.category := category;
            rules.context := context;
            rules.relevance_score := Some 1%Q;
            rules.embedding := embedding;
            rules.created_from_instruction_id := user_instructions.id origin;
            rules.last_applied := None;
            rules.instructions_count := 1;
            rules.inserted_at := timestamp |}]).
Proof.
  intros Horig (Hi & Hr & Hlink & Horigin). split; [done|split; [|split]].
  - rewrite fmap_app. apply NoDup_app. split; [done|]. split.
    + intros x Hx [->|[]%elem_of_nil]%elem_of_cons.
      by apply (next_rowid_fresh sequence (rules.id <$> rls)).
    + apply NoDup_singleton.
  - intros i r Hin Hrule. rewrite fmap_app. apply elem_of_app. left.
    by eapply Hlink.
  - intros r [Hin|Hin]%elem_of_app; [by apply Horigin|].
    apply list_elem_of_singleton in Hin. subst r. cbn.
    by apply list_elem_of_fmap_2.
Qed.

Lemma consistent_update_rule_id instructions rls instructionId
    (linked : rules.row) :
  linked ∈ rls ->
  consistent_tables instructions rls ->
  consistent_tables
    ((fun r =>
        if user_instructions.id r =? instructionId
        then {| user_instructions.id := user_instructions.id r;
                user_instructions.instruction := user_instructions.instruction r;
                user_instructions.context := user_instructions.context r;
                user_instructions.inserted_at := user_instructions.inserted_at r;
                user_instructions.rule_id := Some (rules.id linked) |}
        else r) <$> instructions)
    rls.
Proof.
  intros Hlinked (Hi & Hr & Hlink & Horigin).
  set (link := fun r : user_instructions.row => _).
  assert (Hkey : user_instructions.id <$> (link <$> instructions)
                 = user_instructions.id <$> instructions).
  { rewrite <- list_fmap_compose. apply list_fmap_ext. intros _ r _.
    cbn. unfold link. by destruct (_ =? _). }
  split; [by rewrite Hkey|split; [done|split]].
  - intros i r (i0 & -> & Hin)%list_elem_of_fmap. unfold link.
    destruct (_ =? _).
    + intros [= <-]. by apply list_elem_of_fmap_2.
    + by eapply Hlink.
  - intros r Hin. rewrite Hkey. by apply Horigin.
Qed.

Section IntakeOutcomes.

Context {L E : Type} `{!LLMClient L} `{!EmbeddingClient E}.
Implicit Types (w : world L E).

(** X17: rememberDeveloperInstructionHandler preserves the referential
    consistency of the two tables on every input and whatever the
    classifier, the embedding generator and the store do: if ids are unique,
    every instruction's rule_id names an existing rule and every rule's
    created_from_instruction_id names an existing instruction before the
    call, the same holds after it, also when the call stops half-way at a
    failure. *)
Theorem remember_preserves_consistency w instruction context :
  consistent (db w) ->
  consistent (db (rememberDeveloperInstructionHandler instruction context w).2).
Proof.
  intros Hcons.
  unfold rememberDeveloperInstructionHandler, call_generateRule. unfold_M.
  destruct (generateRule _ _ _) as [[r|e] l']; [|consistent_leaf].
  destruct (RuleGenerationResult.success r); [|consistent_leaf].
  destruct (RuleGenerationResult.rule r) as [rule|]; [|consistent_leaf].
  unfold createInstruction, findInstructionById. unfold_M.
  unfold execute at 1. norm_db.
  destruct (store_fault (db w) InsertInstruction); [consistent_leaf|].
  unfold execute at 1. norm_db.
  assert (Hcons1 := consistent_insert_instruction _ _
                      (sequence_user_instructions (db w)) instruction context
                      (CURRENT_TIMESTAMP (db w)) Hcons).
  destruct (store_fault (db w) SelectInstructionById); [consistent_leaf|].
  rewrite (find_new_row user_instructions.id) by reflexivity.
  cbn [fmap option_fmap option_map select_instruction UserInstruction.id
       user_instructions.id].
  unfold createRule, call_generateEmbedding, findRuleById. unfold_M. norm_db.
  destruct (generateEmbedding _ _) as [[er|e] e']; [|consistent_leaf].
  destruct (success er); [|consistent_leaf].
  destruct (embedding er) as [v|]; [|consistent_leaf].
  unfold execute at 1. norm_db.
  destruct (store_fault (db w) InsertRule); [consistent_leaf|].
  unfold execute at 1. norm_db.
  assert (Hcons2 := consistent_insert_rule _ _ (sequence_rules (db w))
            (RuleGenerationResult.rule_text rule)
            (RuleGenerationResult.category rule) context
            (Float32Array.buffer v)
            (CURRENT_TIMESTAMP (db w))
            {| user_instructions.id :=
                 next_rowid (sequence_user_instructions (db w))
                   (user_instructions.id <$> user_instructions_table (db w));
               user_instructions.instruction := instruction;
               user_instructions.context := context;
               user_instructions.inserted_at := CURRENT_TIMESTAMP (db w);
               user_instructions.rule_id := None |}
            ltac:(apply elem_of_app; right; apply list_elem_of_singleton;
                  reflexivity)
            Hcons1).
  cbn [user_instructions.id] in Hcons2.
  destruct (store_fault (db w) SelectRuleById); [consistent_leaf|].
  rewrite (find_new_row rules.id) by reflexivity.
  cbn [fmap option_fmap option_map select_rule Rule.id rules.id].
  unfold updateInstructionRuleId, execute. norm_db.
  destruct (store_fault (db w) UpdateInstructionRuleId); [consistent_leaf|].
  unfold consistent. norm_db.
  apply (consistent_update_rule_id _ _ _
           {| rules.id := next_rowid (sequence_rules (db w))
                            (rules.id <$> rules_table (db w));
              rules.rule_text := RuleGenerationResult.rule_text rule;
              rules.category := RuleGenerationResult.category rule;
              rules.context := context;
              rules.relevance_score := Some 1%Q;
              rules.embedding := Float32Array.buffer v;
              rules.created_from_instruction_id :=
                next_rowid (sequence_user_instructions (db w))
                  (user_instructions.id <$> user_instructions_table (db w));
              rules.last_applied := None;
              rules.instructions_count := 1;
              rules.inserted_at := CURRENT_TIMESTAMP (db w) |}).
  - apply elem_of_app. right. by apply list_elem_of_singleton.
  - exact Hcons2.
Qed.

Lemma fmap_id_on {A} (f : A -> A) (l : list A) :
  (forall x, x ∈ l -> f x = x) -> f <$> l = l.
Proof.
  induction l as [|x l IH]; intros Hf; [done|]. cbn.
  rewrite Hf by left. rewrite IH; [done|]. intros y Hy. apply Hf. by right.
Qed.

(** X18: When the classifier returns a rule, the embedding generator returns
    an array and the store executes every statement,
    rememberDeveloperInstructionHandler returns 'Instruction processed
    successfully. Generated rule: <rule_text> (category: <category>). Rule
    ID: <r>, Instruction ID: <i>' with the two new row ids; it appends
    exactly one instruction row (given instruction and context, rule_id = r)
    and one rule row (rule text, category, given context,
    created_from_instruction_id = i, instructions_count = 1, and as
    embedding the whole underlying buffer of the generator's array, as
    Buffer.from(embedding.buffer) takes it: the numbers of the array and
    nothing else only when the array owns its buffer), touches no older row,
    calls the classifier once and the embedding generator once on the rule
    text, and runs the statements INSERT instruction, SELECT instruction,
    INSERT rule, SELECT rule, UPDATE instruction in that order. *)
Theorem remember_success w instruction context (r : RuleGenerationResult.t)
    (rule : RuleGenerationResult.rule_t) (l' : L) (er : EmbeddingResult)
    (e' : E) (v : Float32Array.t) :
  generateRule (llmClient w) instruction context = (Resolved r, l') ->
  RuleGenerationResult.success r = true ->
  RuleGenerationResult.rule r = Some rule ->
  generateEmbedding (embeddingClient w) (RuleGenerationResult.rule_text rule)
  = (Resolved er, e') ->
  success er = true ->
  embedding er = Some v ->
  (forall s, store_fault (db w) s = None) ->
  let instruction_id :=
    next_rowid (sequence_user_instructions (db w))
      (user_instructions.id <$> user_instructions_table (db w)) in
  let rule_id :=
    next_rowid (sequence_rules (db w)) (rules.id <$> rules_table (db w)) in
  exists w',
    rememberDeveloperInstructionHandler instruction context w
    = (Resolved (text_result
         ("Instruction processed successfully. Generated rule: "
          +:+ dquote +:+ RuleGenerationResult.rule_text rule +:+ dquote
          +:+ " (category: " +:+ RuleGenerationResult.category rule
          +:+ "). Rule ID: " +:+ pretty rule_id
          +:+ ", Instruction ID: " +:+ pretty instruction_id)), w')
    /\ user_instructions_table (db w')
       = user_instructions_table (db w)
         ++ [{| user_instructions.id := instruction_id;
                user_instructions.instruction := instruction;
                user_instructions.context := context;
                user_instructions.inserted_at := CURRENT_TIMESTAMP (db w);
                user_instructions.rule_id := Some rule_id |}]
    /\ rules_table (db w')
       = rules_table (db w)
         ++ [{| rules.id := rule_id;
                rules.rule_text := RuleGenerationResult.rule_text rule;
                rules.category := RuleGenerationResult.category rule;
                rules.context := context;
                rules.relevance_score := Some 1%Q;
                rules.embedding := Float32Array.buffer v;
                rules.created_from_instruction_id := instruction_id;
                rules.last_applied := None;
                rules.instructions_count := 1;
                rules.inserted_at := CURRENT_TIMESTAMP (db w) |}]
    /\ calls w'
       = calls w ++ [GenerateRuleCall instruction context;
                     GenerateEmbeddingCall (RuleGenerationResult.rule_text rule)]
    /\ executed (db w')
       = executed (db w)
         ++ [InsertInstruction; SelectInstructionById; InsertRule;
             SelectRuleById; UpdateInstructionRuleId].
Proof.
  intros Hgen Hs Hr Hemb Hes Hev Hfault instruction_id rule_id.
  unfold rememberDeveloperInstructionHandler, call_generateRule. unfold_M.
  rewrite Hgen, Hs, Hr.
  unfold createInstruction, findInstructionById. unfold_M.
  unfold execute at 1. norm_db. rewrite Hfault.
  unfold execute at 1. norm_db. rewrite Hfault.
  rewrite (find_new_row user_instructions.id) by reflexivity.
  cbn [fmap option_fmap option_map select_instruction UserInstruction.id
       user_instructions.id].
  unfold createRule, call_generateEmbedding, findRuleById. unfold_M. norm_db.
  rewrite Hemb, Hes, Hev.
  unfold execute at 1. norm_db. rewrite Hfault.
  unfold execute at 1. norm_db. rewrite Hfault.
  rewrite (find_new_row rules.id) by reflexivity.
  cbn [fmap option_fmap option_map select_rule Rule.id rules.id].
  unfold updateInstructionRuleId, execute. norm_db. rewrite Hfault.
  eexists. split; [reflexivity|]. norm_db.
  fold instruction_id rule_id. split; [|split; [done|split]].
  - rewrite fmap_app. cbn. rewrite Z.eqb_refl. f_equal.
    apply fmap_id_on. intros old Hold.
    destruct (Z.eqb_spec (user_instructions.id old) instruction_id) as [Heq|];
      [|done].
    exfalso.
    apply (next_rowid_fresh (sequence_user_instructions (db w))
             (user_instructions.id <$> user_instructions_table (db w))).
    fold instruction_id. rewrite <- Heq. by apply list_elem_of_fmap_2.
  - by rewrite <- app_assoc.
  - by rewrite <- !app_assoc.
Qed.

(** X19: When the classifier resolves with success = false,
    rememberDeveloperInstructionHandler returns 'Failed to generate abstract
    rule: <error>' ('null' for a null error), executes no statement and
    leaves the database unchanged, and never calls the embedding generator. *)
Theorem remember_classifier_failure w instruction context
    (r : RuleGenerationResult.t) (l' : L) :
  generateRule (llmClient w) instruction context = (Resolved r, l') ->
  RuleGenerationResult.success r = false ->
  exists w',
    rememberDeveloperInstructionHandler instruction context w
    = (Resolved (text_result ("Failed to generate abstract rule: "
                              +:+ template_null (RuleGenerationResult.error r))),
       w')
    /\ db w' = db w
    /\ embeddingClient w' = embeddingClient w
    /\ calls w' = calls w ++ [GenerateRuleCall instruction context].
Proof.
  intros Hgen Hs. eexists.
  unfold rememberDeveloperInstructionHandler, call_generateRule. unfold_M.
  by rewrite Hgen, Hs.
Qed.

(** X20: When the classifier returns a rule but the store refuses the INSERT
    of the instruction, rememberDeveloperInstructionHandler returns 'Failed
    to create instruction: <message of the store>', both tables are
    unchanged, the INSERT is the only statement run, and the embedding
    generator is never called. *)
Theorem remember_instruction_refused w instruction context
    (r : RuleGenerationResult.t) (rule : RuleGenerationResult.rule_t) (l' : L)
    (msg : string) :
  generateRule (llmClient w) instruction context = (Resolved r, l') ->
  RuleGenerationResult.success r = true ->
  RuleGenerationResult.rule r = Some rule ->
  store_fault (db w) InsertInstruction = Some msg ->
  exists w',
    rememberDeveloperInstructionHandler instruction context w
    = (Resolved (text_result ("Failed to create instruction: " +:+ msg)), w')
    /\ user_instructions_table (db w') = user_instructions_table (db w)
    /\ rules_table (db w') = rules_table (db w)
    /\ executed (db w') = executed (db w) ++ [InsertInstruction]
    /\ embeddingClient w' = embeddingClient w
    /\ calls w' = calls w ++ [GenerateRuleCall instruction context].
Proof.
  intros Hgen Hs Hr Hfault.
  unfold rememberDeveloperInstructionHandler, call_generateRule. unfold_M.
  rewrite Hgen, Hs, Hr.
  unfold createInstruction. unfold_M.
  unfold execute at 1. norm_db. rewrite Hfault.
  eexists. by split.
Qed.

(** X21: When everything succeeds up to the final UPDATE that links the
    instruction to the rule and the store refuses that UPDATE,
    rememberDeveloperInstructionHandler returns 'Failed to create rule with
    embedding: <message of the store>' although the rule was created: the
    rule row stays in the rule table, and the instruction row stays with
    rule_id = null (nothing is rolled back). *)
Theorem remember_link_refused w instruction context (r : RuleGenerationResult.t)
    (rule : RuleGenerationResult.rule_t) (l' : L) (er : EmbeddingResult)
    (e' : E) (v : Float32Array.t) (msg : string) :
  generateRule (llmClient w) instruction context = (Resolved r, l') ->
  RuleGenerationResult.success r = true ->
  RuleGenerationResult.rule r = Some rule ->
  generateEmbedding (embeddingClient w) (RuleGenerationResult.rule_text rule)
  = (Resolved er, e') ->
  success er = true ->
  embedding er = Some v ->
  store_fault (db w) InsertInstruction = None ->
  store_fault (db w) SelectInstructionById = None ->
  store_fault (db w) InsertRule = None ->
  store_fault (db w) SelectRuleById = None ->
  store_fault (db w) UpdateInstructionRuleId = Some msg ->
  exists w' (stored : rules.row),
    rememberDeveloperInstructionHandler instruction context w
    = (Resolved (text_result ("Failed to create rule with embedding: "
                              +:+ msg)), w')
    /\ rules_table (db w') = rules_table (db w) ++ [stored]
    /\ rules.rule_text stored = RuleGenerationResult.rule_text rule
    /\ user_instructions_table (db w')
       = user_instructions_table (db w)
         ++ [{| user_instructions.id :=
                  rules.created_from_instruction_id stored;
                user_instructions.instruction := instruction;
                user_instructions.context := context;
                user_instructions.inserted_at := CURRENT_TIMESTAMP (db w);
                user_instructions.rule_id := None |}].
Proof.
  intros Hgen Hs Hr Hemb Hes Hev Hf1 Hf2 Hf3 Hf4 Hf5.
  unfold rememberDeveloperInstructionHandler, call_generateRule. unfold_M.
  rewrite Hgen, Hs, Hr.
  unfold createInstruction, findInstructionById. unfold_M.
  unfold execute at 1. norm_db. rewrite Hf1.
  unfold execute at 1. norm_db. rewrite Hf2.
  rewrite (find_new_row user_instructions.id) by reflexivity.
  cbn [fmap option_fmap option_map select_instruction UserInstruction.id
       user_instructions.id].
  unfold createRule, call_generateEmbedding, findRuleById. unfold_M. norm_db.
  rewrite Hemb, Hes, Hev.
  unfold execute at 1. norm_db. rewrite Hf3.
  unfold execute at 1. norm_db. rewrite Hf4.
  rewrite (find_new_row rules.id) by reflexivity.
  cbn [fmap option_fmap option_map select_rule Rule.id rules.id].
  unfold updateInstructionRuleId, execute. norm_db. rewrite Hf5.
  eexists _, _. split; [reflexivity|]. norm_db. by repeat split.
Qed.

End IntakeOutcomes.

Lemma test_world_consistent faults : consistent (db (test_world_with faults)).
Proof.
  unfold consistent, consistent_tables. cbn. split; [|split; [|split]].
  - apply NoDup_singleton.
  - apply (bool_decide_unpack _). by vm_compute.
  - intros i r Hi. each_row Hi. discriminate.
  - intros r Hr. each_row Hr; apply list_elem_of_here.
Qed.

Lemma remember_preserves_consistency_witness :
  consistent
    (db (rememberDeveloperInstructionHandler "Use const" "code review"
           test_world).2).
Proof.
  apply (remember_preserves_consistency test_world "Use const" "code review").
  apply test_world_consistent.
Defined.

Lemma remember_success_witness :
  let view := {| Float32Array.buffer := [0; 1; 0; 0]%Q;
                 Float32Array.byteOffset := 4;
                 Float32Array.length := 2 |} in
  let w := new_world (test_database three_rules no_fault)
             (mock_llm (generalizable "Test rule" "testing"))
             {| embedding_script := fun _ =>
                  Resolved {| success := true; embedding := Some view;
                              error := None |} |} in
  Float32Array.elements view = [1; 0]%Q
  /\ exists w',
       rememberDeveloperInstructionHandler "Use const" "code review" w
       = (Resolved (text_result
            ("Instruction processed successfully. Generated rule: "
             +:+ dquote +:+ "Test rule" +:+ dquote
             +:+ " (category: testing). Rule ID: 4, Instruction ID: 2")), w')
       /\ length (user_instructions_table (db w')) = 2%nat
       /\ rules.embedding <$> drop 3 (rules_table (db w'))
          = [[0; 1; 0; 0]%Q]
       /\ calls w' = [GenerateRuleCall "Use const" "code review";
                      GenerateEmbeddingCall "Test rule"].
Proof.
  intros view w. split; [reflexivity|].
  destruct (remember_success w "Use const" "code review"
              (generalizable "Test rule" "testing")
              {| RuleGenerationResult.rule_text := "Test rule";
                 RuleGenerationResult.category := "testing" |}
              (llmClient w)
              {| success := true; embedding := Some view; error := None |}
              (embeddingClient w)
              view eq_refl eq_refl eq_refl eq_refl eq_refl eq_refl
              (fun _ => eq_refl))
    as (w' & Heq & Hinstructions & Hrules & Hcalls & _).
  exists w'. split; [|split; [|split]].
  - rewrite Heq. reflexivity.
  - by rewrite Hinstructions.
  - by rewrite Hrules.
  - by rewrite Hcalls.
Defined.

Lemma remember_classifier_failure_witness :
  let w := new_world (test_database three_rules no_fault)
             (test_llm_client (refusing_api "I cannot help with that") 3 1000)
             (createSuccessfulMockEmbeddingClient None) in
  exists w',
    rememberDeveloperInstructionHandler "Use const" "code review" w
    = (Resolved (text_result
         "Failed to generate abstract rule: Failed to generate rule. Error: I cannot help with that"),
       w')
    /\ db w' = db w
    /\ embeddingClient w' = embeddingClient w
    /\ calls w' = [GenerateRuleCall "Use const" "code review"].
Proof.
  intros w.
  destruct (remember_classifier_failure w "Use const" "code review"
              (OpenAIClient.generateRule (llmClient w) "Use const"
                 "code review").1
              (OpenAIClient.generateRule (llmClient w) "Use const"
                 "code review").2 eq_refl eq_refl)
    as (w' & Heq & Hdb & Hclient & Hcalls).
  exists w'. split; [|done]. rewrite Heq. reflexivity.
Defined.

Lemma remember_instruction_refused_witness :
  let w := test_world_with
             (refuses (fun s => match s with
                                | InsertInstruction => true
                                | _ => false
                                end) "database is locked") in
  exists w',
    rememberDeveloperInstructionHandler "Use const" "code review" w
    = (Resolved (text_result
         "Failed to create instruction: database is locked"), w')
    /\ user_instructions_table (db w') = user_instructions_table (db w)
    /\ rules_table (db w') = rules_table (db w)
    /\ executed (db w') = [InsertInstruction]
    /\ embeddingClient w' = embeddingClient w
    /\ calls w' = [GenerateRuleCall "Use const" "code review"].
Proof.
  intros w.
  apply (remember_instruction_refused w "Use const" "code review"
           (generalizable "Test rule" "testing")
           {| RuleGenerationResult.rule_text := "Test rule";
              RuleGenerationResult.category := "testing" |}
           (llmClient w) "database is locked"); reflexivity.
Defined.

Lemma remember_link_refused_witness :
  let w := test_world_with
             (refuses (fun s => match s with
                                | UpdateInstructionRuleId => true
                                | _ => false
                                end) "database is locked") in
  exists w' (stored : rules.row),
    rememberDeveloperInstructionHandler "Use const" "code review" w
    = (Resolved (text_result
         "Failed to create rule with embedding: database is locked"), w')
    /\ rules_table (db w') = rules_table (db w) ++ [stored]
    /\ rules.rule_text stored = "Test rule"
    /\ user_instructions_table (db w')
       = user_instructions_table (db w)
         ++ [{| user_instructions.id :=
                  rules.created_from_instruction_id stored;
                user_instructions.instruction := "Use const";
                user_instructions.context := "code review";
                user_instructions.inserted_at := CURRENT_TIMESTAMP (db w);
                user_instructions.rule_id := None |}].
Proof.
  intros w.
  apply (remember_link_refused w "Use const" "code review"
           (generalizable "Test rule" "testing")
           {| RuleGenerationResult.rule_text := "Test rule";
              RuleGenerationResult.category := "testing" |}
           (llmClient w)
           (Mock_generateEmbedding (embeddingClient w) "Test rule").1
           (Mock_generateEmbedding (embeddingClient w) "Test rule").2
           (new_Float32Array [1; 0]%Q) "database is locked"); reflexivity.
Defined.

(** ** The retrieval handler *)

Section RetrievalOutcomes.
Context {L E : Type} `{!LLMClient L} `{!EmbeddingClient E}.
Variable vec_distance_cosine : vector -> vector -> Q.
Variable number_toString : Q -> string.
Variable number_toFixed : Q -> nat -> string.

Lemma take_order_nil (n : nat) (l : list RelevantRule.t) :
  (1 <= n)%nat -> take n (order_by_relevance_desc l) = [] -> l = [].
Proof.
  intros Hn Hnil. apply Permutation_nil_r.
  rewrite <- (order_by_relevance_desc_perm l).
  destruct (order_by_relevance_desc l); [done|]. destruct n; [lia|done].
Qed.

Lemma filter_nil_Forall {A} (p : A -> bool) (l : list A) :
  List.filter p l = [] -> Forall (fun x => p x = false) l.
Proof.
  induction l as [|x l IH]; simpl; [by constructor|].
  destruct (p x) eqn:Hp; [done|]. intros Hnil. constructor; auto.
Qed.

(** X22: getRelevantRulesHandler is read-only on every input and in every
    world: the rows of both tables and both AUTOINCREMENT sequences are
    unchanged after the call, the classifier client is untouched, and the
    embedding generator is called at most once, on the task description. *)
Theorem getRelevantRules_is_read_only (w : world L E) params :
  let w' := (getRelevantRulesHandler vec_distance_cosine number_toString
               number_toFixed params w).2 in
  user_instructions_table (db w') = user_instructions_table (db w)
  /\ rules_table (db w') = rules_table (db w)
  /\ sequence_user_instructions (db w') = sequence_user_instructions (db w)
  /\ sequence_rules (db w') = sequence_rules (db w)
  /\ llmClient w' = llmClient w
  /\ (calls w' = calls w
      \/ calls w' = calls w ++ [GenerateEmbeddingCall (taskDescription params)]).
Proof.
  unfold getRelevantRulesHandler, call_generateEmbedding. unfold_M. cbv zeta.
  destruct (String.eqb _ _); [by repeat split; try left|].
  destruct (_ || _); [by repeat split; try left|].
  destruct (_ || _); [by repeat split; try left|].
  destruct (generateEmbedding _ _) as [[er|e] e'];
    [|by repeat split; try right].
  destruct (success er), (embedding er) as [v|];
    try by repeat split; try right.
  unfold findSimilarRules, execute. norm_db.
  destruct (store_fault (db w) SelectSimilarRules);
    [by repeat split; try right|].
  destruct (_ =? _)%nat; by repeat split; try right.
Qed.

(** X23: For valid parameters, when the embedding generator resolves with
    success = false or without a vector, getRelevantRulesHandler returns
    'Failed to generate embedding for task description: <error>'
    ('undefined' for a missing error), runs no statement (the database is
    unchanged, statement log included), and has called the generator exactly
    once with the task description. *)
Theorem getRelevantRules_embedding_failure (w : world L E) params er e' :
  valid_params params ->
  generateEmbedding (embeddingClient w) (taskDescription params)
  = (Resolved er, e') ->
  success er = false \/ embedding er = None ->
  exists w',
    getRelevantRulesHandler vec_distance_cosine number_toString
      number_toFixed params w
    = (Resolved (text_result
                   ("Failed to generate embedding for task description: "
                    +:+ template_undefined (error er))), w')
    /\ db w' = db w
    /\ llmClient w' = llmClient w
    /\ calls w' = calls w ++ [GenerateEmbeddingCall (taskDescription params)].
Proof.
  intros (Htask & Hmax & Hlo & Hhi) Hgen Hfail.
  unfold getRelevantRulesHandler, call_generateEmbedding. unfold_M. cbv zeta.
  destruct (String.eqb_spec (trim (taskDescription params)) ""); [done|].
  destruct (Z.ltb_spec (default 5 (maxResults params)) 1); [lia|].
  destruct (Z.ltb_spec 100 (default 5 (maxResults params))); [lia|].
  apply Qle_bool_iff in Hlo, Hhi. rewrite Hlo, Hhi. cbn [negb orb].
  rewrite Hgen. eexists.
  destruct Hfail as [-> | ->]; [done|]. by destruct (success er).
Qed.

(** X24: For valid parameters, when the embedding generator returns a vector
    and the store executes the query, getRelevantRulesHandler answers from a
    list of found rules that come from the rule table, number at most
    maxResults (default 5), each score at least similarityThreshold (default
    0), in descending order of score: the text is 'Found <n> relevant rules
    for task: ...' followed by one line per rule, or 'No relevant rules
    found for task description: ...'; and the list is empty exactly when no
    stored rule reaches the threshold. *)
Theorem getRelevantRules_lists_ranked_rules (w : world L E) params er e' v :
  valid_params params ->
  generateEmbedding (embeddingClient w) (taskDescription params)
  = (Resolved er, e') ->
  success er = true ->
  embedding er = Some v ->
  store_fault (db w) SelectSimilarRules = None ->
  let maxResults := default 5 (maxResults params) in
  let threshold := default 0%Q (similarityThreshold params) in
  exists found : list RelevantRule.t,
    (getRelevantRulesHandler vec_distance_cosine number_toString
       number_toFixed params w).1
    = Resolved (text_result
        (match found with
         | [] => "No relevant rules found for task description: "
                 +:+ dquote +:+ taskDescription params +:+ dquote
                 +:+ " (similarity threshold: "
                 +:+ number_toString threshold +:+ ")"
         | _ :: _ => "Found " +:+ pretty (Z.of_nat (length found))
                     +:+ " relevant rules for task: "
                     +:+ dquote +:+ taskDescription params +:+ dquote
                     +:+ newline +:+ newline
                     +:+ String.concat newline
                           (format_rule number_toFixed <$> found)
         end))
    /\ found ⊆+ (select_relevant_rule vec_distance_cosine
                   (Float32Array.buffer v)
                   <$> rules_table (db w))
    /\ Z.of_nat (length found) <= maxResults
    /\ Forall (fun r => (threshold <= RelevantRule.relevance_score r)%Q) found
    /\ descending found
    /\ (found = []
        <-> Forall (fun row =>
                      ~ (threshold <= relevance vec_distance_cosine
                                        (Float32Array.buffer v) row)%Q)
              (rules_table (db w))).
Proof.
  intros (Htask & Hmax & Hlo & Hhi) Hgen Hs Hv Hfault maxResults' threshold.
  unfold getRelevantRulesHandler, call_generateEmbedding. unfold_M. cbv zeta.
  destruct (String.eqb_spec (trim (taskDescription params)) ""); [done|].
  destruct (Z.ltb_spec (default 5 (maxResults params)) 1); [lia|].
  destruct (Z.ltb_spec 100 (default 5 (maxResults params))); [lia|].
  apply Qle_bool_iff in Hlo, Hhi. rewrite Hlo, Hhi. cbn [negb orb].
  rewrite Hgen, Hs, Hv.
  unfold findSimilarRules, execute. norm_db. rewrite Hfault.
  fold maxResults' threshold.
  unfold sql_limit. destruct (Z.ltb_spec maxResults' 0) as [?|_];
    [unfold maxResults' in *; lia|].
  set (rows := rules_table (db w)).
  set (bound := Float32Array.buffer v).
  set (qualifying := sql_where vec_distance_cosine bound threshold rows).
  set (projected := select_relevant_rule vec_distance_cosine bound
                      <$> qualifying).
  set (found := take (Z.to_nat maxResults') (order_by_relevance_desc projected)).
  assert (Hperm := order_by_relevance_desc_perm projected).
  exists found. split; [by destruct found|].
  split; [|split; [|split; [|split]]].
  - etrans; [apply sublist_submseteq, sublist_take|].
    rewrite Hperm. apply sublist_submseteq, fmap_sublist, filter_sublist.
  - unfold found. rewrite length_take. unfold maxResults' in *. lia.
  - apply Forall_take. rewrite Hperm. apply Forall_fmap.
    eapply Forall_impl; [apply filter_Forall|].
    intros row Hrow. by apply Qle_bool_iff.
  - apply descending_take, order_by_relevance_desc_descending.
  - split.
    + intros Hnil. apply take_order_nil in Hnil;
        [|unfold maxResults' in *; lia].
      apply fmap_nil_inv in Hnil. apply filter_nil_Forall in Hnil.
      eapply Forall_impl; [exact Hnil|]. cbv beta. intros row Hrow Hle.
      apply Qle_bool_iff in Hle. congruence.
    + intros Hnone. unfold found, projected, qualifying, sql_where.
      rewrite filter_none; [by destruct (Z.to_nat maxResults')|].
      eapply Forall_impl; [exact Hnone|]. cbv beta. intros row Hrow.
      destruct (Qle_bool threshold (relevance vec_distance_cosine bound row))
        eqn:Hb; [|done].
      exfalso. apply Hrow. by apply Qle_bool_iff.
Qed.

(** X25: For valid parameters, when the embedding generator returns a vector
    but the store refuses the similarity query, getRelevantRulesHandler does
    not throw: it returns 'Unexpected error: <message of the store>'. *)
Theorem getRelevantRules_query_refused (w : world L E) params er e' v msg :
  valid_params params ->
  generateEmbedding (embeddingClient w) (taskDescription params)
  = (Resolved er, e') ->
  success er = true ->
  embedding er = Some v ->
  store_fault (db w) SelectSimilarRules = Some msg ->
  (getRelevantRulesHandler vec_distance_cosine number_toString
     number_toFixed params w).1
  = Resolved (text_result ("Unexpected error: " +:+ msg)).
Proof.
  intros (Htask & Hmax & Hlo & Hhi) Hgen Hs Hv Hfault.
  unfold getRelevantRulesHandler, call_generateEmbedding. unfold_M. cbv zeta.
  destruct (String.eqb_spec (trim (taskDescription params)) ""); [done|].
  destruct (Z.ltb_spec (default 5 (maxResults params)) 1); [lia|].
  destruct (Z.ltb_spec 100 (default 5 (maxResults params))); [lia|].
  apply Qle_bool_iff in Hlo, Hhi. rewrite Hlo, Hhi. cbn [negb orb].
  rewrite Hgen, Hs, Hv.
  unfold findSimilarRules, execute. norm_db. by rewrite Hfault.
Qed.

End RetrievalOutcomes.

Lemma test_params_valid : valid_params test_params.
Proof.
  unfold valid_params, test_params. split; [|split; [cbn; lia|split]].
  - vm_compute. discriminate.
  - vm_compute. discriminate.
  - vm_compute. discriminate.
Qed.

Lemma getRelevantRules_embedding_failure_witness :
  let w := new_world (test_database three_rules no_fault)
             (mock_llm (generalizable "Test rule" "testing"))
             createFailingMockEmbeddingClient in
  exists w',
    getRelevantRulesHandler unit_cosine_distance show_Q show_Q_fixed
      test_params w
    = (Resolved (text_result
         "Failed to generate embedding for task description: Mock embedding generation failed"),
       w')
    /\ db w' = db w
    /\ llmClient w' = llmClient w
    /\ calls w' = [GenerateEmbeddingCall "write unit tests"].
Proof.
  intros w.
  apply (getRelevantRules_embedding_failure unit_cosine_distance show_Q
           show_Q_fixed w test_params
           (Mock_generateEmbedding (embeddingClient w) "write unit tests").1
           (Mock_generateEmbedding (embeddingClient w) "write unit tests").2
           test_params_valid eq_refl).
  by left.
Defined.

Lemma getRelevantRules_lists_ranked_rules_witness :
  exists found : list RelevantRule.t,
    (getRelevantRulesHandler unit_cosine_distance show_Q show_Q_fixed
       test_params test_world).1
    = Resolved (text_result
        ("Found " +:+ pretty (Z.of_nat (length found))
         +:+ " relevant rules for task: "
         +:+ dquote +:+ "write unit tests" +:+ dquote
         +:+ newline +:+ newline
         +:+ String.concat newline (format_rule show_Q_fixed <$> found)))
    /\ Z.of_nat (length found) <= 2
    /\ Forall (fun r => (1 # 2 <= RelevantRule.relevance_score r)%Q) found
    /\ descending found.
Proof.
  destruct (getRelevantRules_lists_ranked_rules unit_cosine_distance show_Q
              show_Q_fixed test_world test_params
              (Mock_generateEmbedding (embeddingClient test_world)
                 "write unit tests").1
              (Mock_generateEmbedding (embeddingClient test_world)
                 "write unit tests").2
              (new_Float32Array [1; 0]%Q) test_params_valid eq_refl eq_refl
              eq_refl eq_refl)
    as (found & Htext & _ & Hlength & Hscore & Hdesc & Hnone).
  exists found. split; [|done]. rewrite Htext.
  destruct found as [|first rest]; [|reflexivity].
  exfalso. destruct Hnone as [Hnone _]. specialize (Hnone eq_refl).
  apply Forall_cons in Hnone as [_ Hnone].
  apply Forall_cons in Hnone as [Hnone _].
  apply Hnone. vm_compute. discriminate.
Defined.

Lemma getRelevantRules_query_refused_witness :
  let w := test_world_with
             (refuses (fun s => match s with
                                | SelectSimilarRules => true
                                | _ => false
                                end) "no such function: vec_distance_cosine") in
  (getRelevantRulesHandler unit_cosine_distance show_Q show_Q_fixed
     test_params w).1
  = Resolved (text_result
                "Unexpected error: no such function: vec_distance_cosine").
Proof.
  intros w.
  apply (getRelevantRules_query_refused unit_cosine_distance show_Q
           show_Q_fixed w test_params
           (Mock_generateEmbedding (embeddingClient w) "write unit tests").1
           (Mock_generateEmbedding (embeddingClient w) "write unit tests").2
           (new_Float32Array [1; 0]%Q) "no such function: vec_distance_cosine"
           test_params_valid); reflexivity.
Defined.

(** ** The configuration *)

Section ConfigProperties.
Variable parseInt : string -> option Z.
Variable parseArgs : list string -> completion CliValues.t.

(** What [parseIntegerArg] returns when it returns: nothing for a value
    that is absent or empty, the number otherwise. *)
Lemma parseIntegerArg_resolved value fieldName r :
  parseIntegerArg parseInt value fieldName = Resolved r ->
  integer_or_absent parseInt value
  /\ forall candidates default_value,
       first_integer parseInt (value :: candidates) default_value
       = match r with
         | Some z => Some z
         | None => first_integer parseInt candidates default_value
         end.
Proof.
  unfold parseIntegerArg, integer_or_absent, first_integer.
  destruct value as [v|]; cbn [first_truthy truthy negb].
  - destruct (String.eqb v "") eqn:Hv; cbn [negb].
    + intros [= <-]. by split.
    + destruct (parseInt v) as [z|] eqn:Hz; [|done].
      intros [= <-]. split; [|done]. intros _. by exists v, z.
  - intros [= <-]. by split.
Qed.

Lemma parseIntegerArg_accepts value fieldName :
  integer_or_absent parseInt value ->
  exists r, parseIntegerArg parseInt value fieldName = Resolved r.
Proof.
  unfold parseIntegerArg, integer_or_absent.
  destruct value as [v|]; cbn [truthy]; [|by eexists].
  destruct (String.eqb v ""); cbn [negb]; [by eexists|].
  intros Hok. destruct (Hok eq_refl) as (v' & z & [= <-] & ->). by eexists.
Qed.

Lemma parse_integers_resolved a b c d na nb nc nd r :
  parse_integers parseInt ((a, na), (b, nb), (c, nc), (d, nd)) = Resolved r ->
  parseIntegerArg parseInt a na = Resolved r.1.1.1
  /\ parseIntegerArg parseInt b nb = Resolved r.1.1.2
  /\ parseIntegerArg parseInt c nc = Resolved r.1.2
  /\ parseIntegerArg parseInt d nd = Resolved r.2.
Proof.
  unfold parse_integers. cbn [fst snd].
  destruct (parseIntegerArg parseInt a na); [|done].
  destruct (parseIntegerArg parseInt b nb); [|done].
  destruct (parseIntegerArg parseInt c nc); [|done].
  destruct (parseIntegerArg parseInt d nd); [|done].
  by intros [= <-].
Qed.

Lemma parse_integers_accepts a b c d na nb nc nd :
  integer_or_absent parseInt a -> integer_or_absent parseInt b ->
  integer_or_absent parseInt c -> integer_or_absent parseInt d ->
  exists r,
    parse_integers parseInt ((a, na), (b, nb), (c, nc), (d, nd)) = Resolved r.
Proof.
  intros Ha Hb Hc Hd. unfold parse_integers. cbn [fst snd].
  destruct (parseIntegerArg_accepts a na Ha) as [? ->].
  destruct (parseIntegerArg_accepts b nb Hb) as [? ->].
  destruct (parseIntegerArg_accepts c nc Hc) as [? ->].
  destruct (parseIntegerArg_accepts d nd Hd) as [? ->].
  by eexists.
Qed.

Lemma first_integer_default r1 r2 cli env default_value :
  (forall candidates d,
     first_integer parseInt (cli :: candidates) d
     = match r1 with
       | Some z => Some z
       | None => first_integer parseInt candidates d
       end) ->
  (forall candidates d,
     first_integer parseInt (env :: candidates) d
     = match r2 with
       | Some z => Some z
       | None => first_integer parseInt candidates d
       end) ->
  Some (default (default default_value r2) r1)
  = first_integer parseInt [cli; env] default_value.
Proof.
  intros -> ->. by destruct r1, r2.
Qed.

Lemma first_truthy_default (cli env : option string) (default_value : string) :
  default (default default_value (when_truthy env)) (when_truthy cli)
  = default default_value (first_truthy [cli; env]).
Proof.
  unfold when_truthy. cbn [first_truthy].
  destruct cli as [c|], env as [e|]; cbn [truthy];
    repeat (destruct (String.eqb _ ""); cbn [negb default]); done.
Qed.

(** X26: Whenever createConfig returns a configuration, each setting is
    taken from the first source that gives a non-empty value, in the order
    command line, environment variable, default: databasePath from
    --database, then --db, then LANGOUSTINE_DB_PATH, then
    './.langoustine/langoustine.db' (so --database wins over --db, and an
    empty value is skipped); openaiApiKey, llmModel and embeddingModel
    likewise; each of the four integers is parseInt of the first non-empty
    value among its option and its variable, or the default 3 (retries) and
    1000 (delays); showHelp is true exactly when --help was given. *)
Theorem createConfig_priority argv env values config :
  parseArgs (drop 2 argv) = Resolved values ->
  createConfig parseInt parseArgs argv env = Configured config ->
  Config.databasePath config
  = default "./.langoustine/langoustine.db"
      (first_truthy [CliValues.database values; CliValues.db values;
                     env !! "LANGOUSTINE_DB_PATH"])
  /\ Config.showHelp config
     = match CliValues.help values with Some true => true | _ => false end
  /\ Config.openaiApiKey config
     = first_truthy [CliValues.openai_api_key values;
                     env !! "LANGOUSTINE_MCP_OPENAI_API_KEY"]
  /\ Config.llmModel config
     = default "gpt-5-mini-2025-08-07"
         (first_truthy [CliValues.llm_model values; env !! "LLM_MODEL"])
  /\ Config.embeddingModel config
     = default "text-embedding-3-small"
         (first_truthy [CliValues.embedding_model values;
                        env !! "OPENAI_EMBEDDING_MODEL"])
  /\ Some (Config.llmMaxRetries config)
     = first_integer parseInt
         [CliValues.llm_max_retries values; env !! "LLM_MAX_RETRIES"] 3
  /\ Some (Config.llmRetryDelay config)
     = first_integer parseInt
         [CliValues.llm_retry_delay values; env !! "LLM_RETRY_DELAY"] 1000
  /\ Some (Config.embeddingMaxRetries config)
     = first_integer parseInt
         [CliValues.embedding_max_retries values;
          env !! "EMBEDDING_MAX_RETRIES"] 3
  /\ Some (Config.embeddingRetryDelay config)
     = first_integer parseInt
         [CliValues.embedding_retry_delay values;
          env !! "EMBEDDING_RETRY_DELAY"] 1000.
Proof.
  intros Hargs. unfold createConfig, parseEnvironmentVariables,
    parseCommandLineArgs. cbv zeta. rewrite Hargs.
  destruct (parse_integers parseInt (_, _, _, (env !! _, _)))
    as [[[[e1 e2] e3] e4]|] eqn:Henv; [|done].
  destruct (parse_integers parseInt (_, _, _, (CliValues.embedding_retry_delay _, _)))
    as [[[[c1 c2] c3] c4]|] eqn:Hcli; [|done].
  apply parse_integers_resolved in Henv as (He1 & He2 & He3 & He4).
  apply parse_integers_resolved in Hcli as (Hc1 & Hc2 & Hc3 & Hc4).
  cbn [fst snd] in *.
  apply parseIntegerArg_resolved in He1 as [_ He1], He2 as [_ He2],
    He3 as [_ He3], He4 as [_ He4], Hc1 as [_ Hc1], Hc2 as [_ Hc2],
    Hc3 as [_ Hc3], Hc4 as [_ Hc4].
  intros [= <-].
  cbn [spread getDefaults Config.databasePath Config.showHelp
       Config.openaiApiKey Config.llmModel Config.llmMaxRetries
       Config.llmRetryDelay Config.embeddingModel Config.embeddingMaxRetries
       Config.embeddingRetryDelay PartialConfig.databasePath
       PartialConfig.showHelp PartialConfig.openaiApiKey
       PartialConfig.llmModel PartialConfig.llmMaxRetries
       PartialConfig.llmRetryDelay PartialConfig.embeddingModel
       PartialConfig.embeddingMaxRetries PartialConfig.embeddingRetryDelay].
  split; [|split; [|split; [|split; [|split; [|split; [|split; [|split]]]]]]].
  - cbn [first_truthy]. destruct (truthy (CliValues.database values)) eqn:Hd.
    + by destruct (CliValues.database values).
    + apply first_truthy_default.
  - by destruct (CliValues.help values) as [[]|].
  - unfold when_truthy. cbn [first_truthy].
    destruct (truthy (CliValues.openai_api_key values)) eqn:Hk.
    + by destruct (CliValues.openai_api_key values).
    + destruct (truthy (env !! "LANGOUSTINE_MCP_OPENAI_API_KEY")) eqn:Hk';
        [|done].
      by destruct (env !! "LANGOUSTINE_MCP_OPENAI_API_KEY").
  - apply first_truthy_default.
  - apply first_truthy_default.
  - by apply first_integer_default.
  - by apply first_integer_default.
  - by apply first_integer_default.
  - by apply first_integer_default.
Qed.

(** X27: createConfig returns a configuration exactly when parseArgs accepts
    the arguments after the first two and each of the eight integer settings
    (four environment variables, four options) is absent, empty, or read as
    a number by parseInt; in every other case it ends the process with exit
    code 1 after writing 'Error: <message>' and 'For valid options, see:' to
    the standard error. *)
Theorem createConfig_returns_iff_valid argv env :
  ((exists config,
      createConfig parseInt parseArgs argv env = Configured config)
   <-> (exists values,
          parseArgs (drop 2 argv) = Resolved values
          /\ Forall (integer_or_absent parseInt)
               [env !! "LLM_MAX_RETRIES"; env !! "LLM_RETRY_DELAY";
                env !! "EMBEDDING_MAX_RETRIES"; env !! "EMBEDDING_RETRY_DELAY";
                CliValues.llm_max_retries values;
                CliValues.llm_retry_delay values;
                CliValues.embedding_max_retries values;
                CliValues.embedding_retry_delay values]))
  /\ ((exists config,
         createConfig parseInt parseArgs argv env = Configured config)
      \/ (exists line,
            createConfig parseInt parseArgs argv env
            = Exited 1 [newline +:+ "Error: " +:+ line;
                        newline +:+ "For valid options, see:"])).
Proof.
  unfold createConfig, parseEnvironmentVariables, parseCommandLineArgs,
    report_and_exit. cbv zeta.
  split; [split|].
  - intros [config Hconfig].
    destruct (parse_integers parseInt (_, _, _, (env !! _, _)))
      as [[[[e1 e2] e3] e4]|] eqn:Henv; [|done].
    destruct (parseArgs (drop 2 argv)) as [values|]; [|done].
    destruct (parse_integers parseInt
                (_, _, _, (CliValues.embedding_retry_delay _, _)))
      as [[[[c1 c2] c3] c4]|] eqn:Hcli; [|done].
    apply parse_integers_resolved in Henv as (He1 & He2 & He3 & He4).
    apply parse_integers_resolved in Hcli as (Hc1 & Hc2 & Hc3 & Hc4).
    apply parseIntegerArg_resolved in He1 as [He1 _], He2 as [He2 _],
      He3 as [He3 _], He4 as [He4 _], Hc1 as [Hc1 _], Hc2 as [Hc2 _],
      Hc3 as [Hc3 _], Hc4 as [Hc4 _].
    exists values. split; [done|]. by repeat constructor.
  - intros (values & -> & Hvalid).
    apply Forall_cons in Hvalid as [He1 Hvalid].
    apply Forall_cons in Hvalid as [He2 Hvalid].
    apply Forall_cons in Hvalid as [He3 Hvalid].
    apply Forall_cons in Hvalid as [He4 Hvalid].
    apply Forall_cons in Hvalid as [Hc1 Hvalid].
    apply Forall_cons in Hvalid as [Hc2 Hvalid].
    apply Forall_cons in Hvalid as [Hc3 Hvalid].
    apply Forall_cons in Hvalid as [Hc4 _].
    destruct (parse_integers_accepts _ _ _ _
                "LLM_MAX_RETRIES environment variable"
                "LLM_RETRY_DELAY environment variable"
                "EMBEDDING_MAX_RETRIES environment variable"
                "EMBEDDING_RETRY_DELAY environment variable"
                He1 He2 He3 He4) as [[[[e1 e2] e3] e4] ->].
    destruct (parse_integers_accepts _ _ _ _
                "LLM max retries" "LLM retry delay" "embedding max retries"
                "embedding retry delay" Hc1 Hc2 Hc3 Hc4)
      as [[[[c1 c2] c3] c4] ->].
    by eexists.
  - destruct (parse_integers parseInt (_, _, _, (env !! _, _)))
      as [[[[e1 e2] e3] e4]|error]; [|right; by eexists].
    destruct (parseArgs (drop 2 argv)) as [values|error];
      [|right; by eexists].
    destruct (parse_integers parseInt
                (_, _, _, (CliValues.embedding_retry_delay _, _)))
      as [[[[c1 c2] c3] c4]|error]; [|right; by eexists].
    left. by eexists.
Qed.

Lemma parseIntegerArg_not_a_number value v fieldName :
  not_a_number parseInt value = true -> value = Some v ->
  parseIntegerArg parseInt value fieldName
  = Rejected (ErrorInstance
      ("Invalid " +:+ fieldName +:+ ": " +:+ dquote +:+ v +:+ dquote
       +:+ " is not a valid number")).
Proof.
  intros Hnan ->. unfold parseIntegerArg, not_a_number in *.
  destruct (String.eqb v ""); [done|]. by destruct (parseInt v).
Qed.

Lemma parseIntegerArg_a_number value fieldName :
  not_a_number parseInt value = false ->
  exists r, parseIntegerArg parseInt value fieldName = Resolved r.
Proof.
  unfold parseIntegerArg, not_a_number.
  destruct value as [v|]; [|by eexists].
  destruct (String.eqb v ""); [by eexists|].
  destruct (parseInt v); [by eexists|done].
Qed.

(** X28: An environment variable among LLM_MAX_RETRIES, LLM_RETRY_DELAY,
    EMBEDDING_MAX_RETRIES, EMBEDDING_RETRY_DELAY (read in this order) that
    is non-empty and no number makes createConfig exit with code 1 and the
    message 'Invalid <NAME> environment variable: <value> is not a valid
    number' for the first such variable, whatever the command line is: also
    when the command line overrides that variable, asks for help, or is
    itself invalid. *)
Theorem createConfig_checks_environment_first argv env name v :
  List.find (fun name => not_a_number parseInt (env !! name))
    integer_variables = Some name ->
  env !! name = Some v ->
  createConfig parseInt parseArgs argv env
  = Exited 1 [newline +:+ "Error: Invalid " +:+ name
              +:+ " environment variable: " +:+ dquote +:+ v +:+ dquote
              +:+ " is not a valid number";
              newline +:+ "For valid options, see:"].
Proof.
  unfold integer_variables, createConfig, parseEnvironmentVariables,
    parse_integers. cbn [List.find fst snd]. cbv zeta.
  intros Hfind Hv.
  destruct (not_a_number parseInt (env !! "LLM_MAX_RETRIES")) eqn:H1.
  { injection Hfind as <-.
    by rewrite (parseIntegerArg_not_a_number _ v _ H1 Hv). }
  destruct (parseIntegerArg_a_number _
              "LLM_MAX_RETRIES environment variable" H1) as [? ->].
  destruct (not_a_number parseInt (env !! "LLM_RETRY_DELAY")) eqn:H2.
  { injection Hfind as <-.
    by rewrite (parseIntegerArg_not_a_number _ v _ H2 Hv). }
  destruct (parseIntegerArg_a_number _
              "LLM_RETRY_DELAY environment variable" H2) as [? ->].
  destruct (not_a_number parseInt (env !! "EMBEDDING_MAX_RETRIES")) eqn:H3.
  { injection Hfind as <-.
    by rewrite (parseIntegerArg_not_a_number _ v _ H3 Hv). }
  destruct (parseIntegerArg_a_number _
              "EMBEDDING_MAX_RETRIES environment variable" H3) as [? ->].
  destruct (not_a_number parseInt (env !! "EMBEDDING_RETRY_DELAY")) eqn:H4;
    [|done].
  injection Hfind as <-.
  by rewrite (parseIntegerArg_not_a_number _ v _ H4 Hv).
Qed.

End ConfigProperties.

Lemma createConfig_priority_witness :
  exists config,
    createConfig decimal_parseInt (test_parseArgs test_values)
      ["node"; "index.js"] test_env
    = Configured config
    /\ Config.databasePath config = "b.db"
    /\ Config.llmModel config = "gpt-4"
    /\ Config.embeddingModel config = "text-embedding-3-small"
    /\ Config.llmMaxRetries config = 7
    /\ Config.embeddingMaxRetries config = 3
    /\ Config.embeddingRetryDelay config = 250.
Proof.
  destruct (createConfig decimal_parseInt (test_parseArgs test_values)
              ["node"; "index.js"] test_env) as [config|code stderr] eqn:Hrun;
    [|vm_compute in Hrun; discriminate].
  destruct (createConfig_priority decimal_parseInt
              (test_parseArgs test_values) ["node"; "index.js"] test_env
              test_values config eq_refl Hrun)
    as (Hdb & _ & _ & Hmodel & Hembedding & Hretries & _ & Hretries' & Hdelay).
  exists config. split; [done|].
  split; [exact Hdb|]. split; [exact Hmodel|]. split; [exact Hembedding|].
  split; [|split].
  - vm_compute in Hretries. by injection Hretries.
  - vm_compute in Hretries'. by injection Hretries'.
  - vm_compute in Hdelay. by injection Hdelay.
Defined.

Lemma createConfig_checks_environment_first_witness :
  createConfig decimal_parseInt (test_parseArgs test_values)
    ["node"; "index.js"]
    (<["EMBEDDING_MAX_RETRIES" := "many"]> test_env)
  = Exited 1 [newline +:+ "Error: Invalid EMBEDDING_MAX_RETRIES"
              +:+ " environment variable: " +:+ dquote +:+ "many" +:+ dquote
              +:+ " is not a valid number";
              newline +:+ "For valid options, see:"].
Proof.
  apply (createConfig_checks_environment_first decimal_parseInt
           (test_parseArgs test_values) ["node"; "index.js"]
           (<["EMBEDDING_MAX_RETRIES" := "many"]> test_env)
           "EMBEDDING_MAX_RETRIES" "many").
  - vm_compute. reflexivity.
  - vm_compute. reflexivity.
Defined.

(** ** The clients that the server builds from its configuration *)

(** X29: The two OpenAI clients built from one configuration count retries
    differently: when every API call rejects, one generateRule of new
    OpenAIClient(config) makes exactly llmMaxRetries calls (none for a value
    <= 0), whereas one generateEmbedding of new
    OpenAIEmbeddingClient(config) makes exactly max(0, embeddingMaxRetries)
    + 1 calls (one for a value <= 0). *)
Theorem configured_retry_budgets (config : Config.t)
    (chat_api : nat -> string -> string -> completion ChatCompletion)
    (template : string -> string -> string)
    (embedding_api : nat -> string -> string
                     -> completion CreateEmbeddingResponse)
    (instruction context text : string) (e1 e2 : nat -> thrown) :
  (forall n mdl prompt, chat_api n mdl prompt = Rejected (e1 n)) ->
  (forall n mdl input, embedding_api n mdl input = Rejected (e2 n)) ->
  OpenAIClient.parse_calls
    (OpenAIClient.history
       (OpenAIClient.generateRule
          (new_OpenAIClient config chat_api template) instruction context).2)
  = Z.to_nat (Config.llmMaxRetries config)
  /\ api_calls
       (history
          (OpenAI_generateEmbedding
             (new_OpenAIEmbeddingClient config embedding_api) text).2)
     = S (Z.to_nat (Config.embeddingMaxRetries config)).
Proof.
  intros Hchat Hembedding. split.
  - set (c := new_OpenAIClient config chat_api template).
    destruct (Z.le_gt_cases (Config.llmMaxRetries config) 0) as [Hle|Hgt].
    + unfold OpenAIClient.generateRule, OpenAIClient.attempts_upto.
      cbn [c new_OpenAIClient OpenAIClient.maxRetries].
      replace (Z.to_nat (Config.llmMaxRetries config)) with 0%nat by lia.
      reflexivity.
    + set (n := Z.to_nat (Config.llmMaxRetries config)).
      destruct (generateRule_reaches c instruction context e1 (n - 1))
        as [rest ->].
      { cbn [c new_OpenAIClient OpenAIClient.maxRetries]. lia. }
      { intros k Hk. cbn [c new_OpenAIClient OpenAIClient.parse].
        by rewrite Hchat. }
      cbn [OpenAIClient.attempt_loop].
      unfold OpenAIClient.completions_parse.
      cbn [c new_OpenAIClient OpenAIClient.history OpenAIClient.with_history
           OpenAIClient.parse OpenAIClient.model]. rewrite Hchat.
      cbn [OpenAIClient.try_block OpenAIClient.maxRetries
           OpenAIClient.record_event OpenAIClient.with_history].
      replace (Z.of_nat (S (n - 1))) with (Config.llmMaxRetries config)
        by lia.
      rewrite Z.eqb_refl. unfold OpenAIClient.record_event.
      cbn [snd OpenAIClient.history OpenAIClient.with_history].
      rewrite !parse_calls_app, parse_calls_linear_retry_events.
      cbn. lia.
  - set (c := new_OpenAIEmbeddingClient config embedding_api).
    rewrite (generateEmbedding_all_rejected c text e2).
    + cbn [snd history with_history].
      rewrite api_calls_app, api_calls_backoff_events.
      cbn [c new_OpenAIEmbeddingClient history maxRetries]. cbn. lia.
    + intros k Hk. cbn [c new_OpenAIEmbeddingClient openai].
      by rewrite Hembedding.
Qed.

Lemma configured_retry_budgets_witness :
  let down := ErrorInstance "Connection error." in
  OpenAIClient.parse_calls
    (OpenAIClient.history
       (OpenAIClient.generateRule
          (new_OpenAIClient getDefaults (fun _ _ _ => Rejected down)
             (fun instruction context => instruction +:+ context))
          "Use const" "code review").2)
  = 3%nat
  /\ api_calls
       (history
          (OpenAI_generateEmbedding
             (new_OpenAIEmbeddingClient getDefaults
                (fun _ _ _ => Rejected down)) "Use const").2)
     = 4%nat.
Proof.
  intros down.
  apply (configured_retry_budgets getDefaults (fun _ _ _ => Rejected down)
           (fun instruction context => instruction +:+ context)
           (fun _ _ _ => Rejected down) "Use const" "code review" "Use const"
           (fun _ => down) (fun _ => down)); reflexivity.
Defined.
